(** * File service: upload, text extraction and metadata registry

    A shallow embedding of [src/main.py] (a FastAPI service that stores
    uploaded files on disk, extracts their text and records them in a MySQL
    table), and the properties of its specification checked against it.

    Python values are modelled as follows: [str] as the [string] of the
    bytes of its UTF-8 encoding, [bytes] as [list byte], [int] as [Z], [None]-able values as [option], a raised
    exception as the [Raise] outcome of a state-and-exception monad over the
    state of the outside world (disk, database table, counters of the
    calls made to the libraries). *)

From Stdlib Require Import ZArith String Ascii List Lia Bool.
From Stdlib.Strings Require Import Byte.
From Stdlib Require Import Sorting.Sorted Sorting.Permutation.
From Stdlib Require DecimalString.
From stdpp Require Import base gmap strings list.

Set Warnings "-register-all".

Local Open Scope string_scope.
Local Open Scope Z_scope.

(** ** Python strings *)

Module Py.

(** The line break ["\n"] and the double quote. *)
Definition nl : string := String (ascii_of_nat 10) EmptyString.
Definition dquote : string := String (ascii_of_nat 34) EmptyString.

(** [str(n)] for an integer. *)
Definition str_int (n : Z) : string :=
  DecimalString.NilZero.string_of_int (Z.to_int n).

(** [len(b)] for a bytes object. *)
Definition len {A} (l : list A) : Z := Z.of_nat (List.length l).

(** Truth value of an optional string: [None] and the empty string are
    false. *)
Definition truthy (o : option string) : bool :=
  match o with
  | None => false
  | Some s => negb (String.eqb s EmptyString)
  end.

(** [sep.join(items)]. *)
Fixpoint join (sep : string) (items : list string) : string :=
  match items with
  | [] => EmptyString
  | [x] => x
  | x :: rest => x +:+ sep +:+ join sep rest
  end.

(** [c.lower()] on one character: the letters A to Z are mapped to a to z. *)
Definition lower_ascii (c : ascii) : ascii :=
  let n := nat_of_ascii c in
  if (Nat.leb 65 n && Nat.leb n 90)%bool then ascii_of_nat (n + 32) else c.

(** [s.lower()]. *)
Fixpoint lower (s : string) : string :=
  match s with
  | EmptyString => EmptyString
  | String c s' => String (lower_ascii c) (lower s')
  end.

(** [s.split("/")]: never empty, one more part than there are slashes. *)
Fixpoint split_slash (s : string) : list string :=
  match s with
  | EmptyString => [EmptyString]
  | String c s' =>
      if Ascii.eqb c "/" then EmptyString :: split_slash s'
      else match split_slash s' with
           | [] => [String c EmptyString]
           | p :: ps => String c p :: ps
           end
  end.

(** [s.rfind(".")], with [None] for Python's [-1]. *)
Fixpoint rfind_dot (s : string) : option nat :=
  match s with
  | EmptyString => None
  | String c s' =>
      match rfind_dot s' with
      | Some i => Some (S i)
      | None => if Ascii.eqb c "." then Some O else None
      end
  end.

(** [PurePosixPath(s).name]: the last component of the path, where empty
    components and ["."] components are dropped by the path parser. *)
Definition kept_component (p : string) : bool :=
  negb (String.eqb p EmptyString) && negb (String.eqb p ".").

Definition path_name (s : string) : string :=
  List.last (List.filter kept_component (split_slash s)) EmptyString.

(** [PurePath.suffix]:
    [i = name.rfind('.')]; [name[i:]] if [0 < i < len(name) - 1], else ['']. *)
Definition path_suffix (s : string) : string :=
  let name := path_name s in
  match rfind_dot name with
  | Some i =>
      if (Nat.ltb 0 i && Nat.ltb i (String.length name - 1))%bool
      then String.substring i (String.length name - i) name
      else EmptyString
  | None => EmptyString
  end.

End Py.

(** ** Exceptions and outcomes *)

Inductive exn : Type :=
| HTTPException (status_code : Z) (detail : string)
| MySQLError (msg : string)           (* mysql.connector.Error *)
| FileNotFoundError (path : string)   (* open() on a missing file *)
| AttributeError (msg : string)       (* attribute access on None *)
| LibraryError (msg : string)         (* raised inside a parsing library *)
| OSError (msg : string)              (* os.remove on what it cannot remove *)
| PyException (msg : string).         (* Exception(msg) *)

(** [str(e)]; Starlette prints an [HTTPException] as ["<status>: <detail>"]. *)
Definition str_exn (e : exn) : string :=
  match e with
  | HTTPException code detail => Py.str_int code +:+ ": " +:+ detail
  | MySQLError msg => msg
  | FileNotFoundError path => "[Errno 2] No such file or directory: '" +:+ path +:+ "'"
  | AttributeError msg => msg
  | LibraryError msg => msg
  | OSError msg => msg
  | PyException msg => msg
  end.

Inductive result (A : Type) : Type :=
| Return (a : A)
| Raise (e : exn).
Arguments Return {A} a.
Arguments Raise {A} e.

Definition result_bind {A B} (r : result A) (k : A -> result B) : result B :=
  match r with
  | Return a => k a
  | Raise e => Raise e
  end.

(** [try: body  except Exception as e: handler(e)]. *)
Definition try_except {A} (body : result A) (handler : exn -> result A) : result A :=
  match body with
  | Return a => Return a
  | Raise e => handler e
  end.

Declare Scope result_scope.
Delimit Scope result_scope with result.
Notation "x <- c1 ;; c2" := (result_bind c1 (fun x => c2))
  (at level 100, c1 at next level, right associativity) : result_scope.

(** ** The outside world

    The service talks to a MySQL server, a directory on disk, a random
    name generator and a clock. What these answer is not decided by the
    program: it is given by an environment [Env], indexed by how many
    times the program has asked. *)

(** Modelled from the spec: the definition of the [uploaded_files] table,
    which is not part of the repository. One row per stored file; the
    columns are those the statements of [main.py] name, [id] is the key the
    server assigns and [cursor.lastrowid] reads back, and [upload_date] is
    the timestamp the server assigns when the row is inserted. *)
Record Row : Type := {
  row_id : Z;
  row_session_id : string;
  row_filename : string;
  row_original_name : string;
  row_file_type : string;
  row_file_size : Z;
  row_file_path : string;
  row_extracted_text : option string;
  row_upload_date : Z
}.

(** What one call of [mysql.connector.connect] does: it returns a
    connection for which [is_connected()] is true, or one for which it is
    false, or it raises [mysql.connector.Error]. *)
Inductive connect_outcome : Type :=
| ConnectOpen
| ConnectClosed
| ConnectError (msg : string).

Inductive connection : Type :=
| Connection (serial : nat).

Record Env : Type := {
  (** outcome of the n-th call of [mysql.connector.connect] *)
  mysql_connect : nat -> connect_outcome;
  (** the server refuses the INSERT of this row with this message *)
  insert_rejected : Row -> option string;
  (** at this path, outside the files of the content store, lies something
      that exists and that [os.remove] refuses with this message (a
      directory, the upload directory itself for one) *)
  remove_refused : string -> option string;
  (** [CURRENT_TIMESTAMP] seen on the connection opened by the n-th call *)
  server_time : nat -> Z;
  (** [str(uuid.uuid4())] at the n-th call *)
  uuid4 : nat -> string
}.

(** What can be observed of a call of [get_db_connection]. *)
Inductive event : Type :=
| EvConnect (attempt : Z)
| EvSleep (seconds : Z).

Record World : Type := {
  content_store : gmap string (list byte);
  uploaded_files_table : list Row;
  auto_increment : Z;
  connect_calls : nat;
  uuid_calls : nat;
  trace : list event
}.

Definition set_content_store (f : gmap string (list byte) -> gmap string (list byte))
  (w : World) : World :=
  {| content_store := f (content_store w);
     uploaded_files_table := uploaded_files_table w;
     auto_increment := auto_increment w;
     connect_calls := connect_calls w;
     uuid_calls := uuid_calls w;
     trace := trace w |}.

Definition set_table (f : list Row -> list Row) (w : World) : World :=
  {| content_store := content_store w;
     uploaded_files_table := f (uploaded_files_table w);
     auto_increment := auto_increment w;
     connect_calls := connect_calls w;
     uuid_calls := uuid_calls w;
     trace := trace w |}.

Definition bump_auto_increment (w : World) : World :=
  {| content_store := content_store w;
     uploaded_files_table := uploaded_files_table w;
     auto_increment := auto_increment w + 1;
     connect_calls := connect_calls w;
     uuid_calls := uuid_calls w;
     trace := trace w |}.

Definition bump_uuid_calls (w : World) : World :=
  {| content_store := content_store w;
     uploaded_files_table := uploaded_files_table w;
     auto_increment := auto_increment w;
     connect_calls := connect_calls w;
     uuid_calls := S (uuid_calls w);
     trace := trace w |}.

(** A call of [mysql.connector.connect] made as attempt number [attempt]. *)
Definition record_connect (attempt : Z) (w : World) : World :=
  {| content_store := content_store w;
     uploaded_files_table := uploaded_files_table w;
     auto_increment := auto_increment w;
     connect_calls := S (connect_calls w);
     uuid_calls := uuid_calls w;
     trace := trace w ++ [EvConnect attempt] |}.

(** [time.sleep(seconds)]. *)
Definition sleep (seconds : Z) (w : World) : World :=
  {| content_store := content_store w;
     uploaded_files_table := uploaded_files_table w;
     auto_increment := auto_increment w;
     connect_calls := connect_calls w;
     uuid_calls := uuid_calls w;
     trace := trace w ++ [EvSleep seconds] |}.

(** Computations that read and change the world and may raise. *)
Definition M (A : Type) : Type := World -> result A * World.

Definition ret {A} (a : A) : M A := fun w => (Return a, w).
Definition raise {A} (e : exn) : M A := fun w => (Raise e, w).
Definition bind {A B} (m : M A) (k : A -> M B) : M B :=
  fun w => match m w with
           | (Return a, w') => k a w'
           | (Raise e, w') => (Raise e, w')
           end.
Definition catch {A} (body : M A) (handler : exn -> M A) : M A :=
  fun w => match body w with
           | (Return a, w') => (Return a, w')
           | (Raise e, w') => handler e w'
           end.
Definition lift {A} (r : result A) : M A := fun w => (r, w).
Definition gets {A} (f : World -> A) : M A := fun w => (Return (f w), w).
Definition modify (f : World -> World) : M unit := fun w => (Return tt, f w).

Declare Scope world_scope.
Delimit Scope world_scope with world.
Notation "x <- c1 ;; c2" := (bind c1 (fun x => c2))
  (at level 100, c1 at next level, right associativity) : world_scope.
Notation "c1 ;; c2" := (bind c1 (fun _ => c2))
  (at level 100, right associativity) : world_scope.

(** ** Configuration (lines 46-54) *)

Definition UPLOAD_DIR : string := "/app/uploads".
Definition MAX_FILE_SIZE : Z := 10 * 1024 * 1024.
Definition ALLOWED_EXTENSIONS : list string :=
  [".pdf"; ".txt"; ".docx"; ".csv"; ".json"; ".md"].

(** [x in ALLOWED_EXTENSIONS]. *)
Definition allowed_extension (ext : string) : bool :=
  existsb (String.eqb ext) ALLOWED_EXTENSIONS.

(** ** get_db_connection (lines 60-80) *)

(** The [for attempt in range(max_retries)] loop, from iteration [attempt]
    on, with [remaining] iterations left. An open connection is returned
    at once. A connection that is not open falls out of the [try] and the
    loop goes on. On [mysql.connector.Error] the loop sleeps [2 ** attempt]
    seconds, except at the last attempt, where it returns [None]. When the
    loop runs out the function ends without a [return], which is [None]. *)
Fixpoint get_db_connection_loop (env : Env) (max_retries : Z) (attempt : Z)
  (remaining : nat) : M (option connection) :=
  match remaining with
  | O => ret None
  | S remaining' =>
      fun w =>
        let serial := connect_calls w in
        let w1 := record_connect attempt w in
        match mysql_connect env serial with
        | ConnectOpen => (Return (Some (Connection serial)), w1)
        | ConnectClosed =>
            get_db_connection_loop env max_retries (attempt + 1) remaining' w1
        | ConnectError _ =>
            if attempt <? max_retries - 1
            then get_db_connection_loop env max_retries (attempt + 1) remaining'
                   (sleep (2 ^ attempt) w1)
            else (Return None, w1)
        end
  end.

Definition get_db_connection (env : Env) (max_retries : Z) : M (option connection) :=
  get_db_connection_loop env max_retries 0 (Z.to_nat max_retries).

(** The default [max_retries=5]. *)
Definition default_max_retries : Z := 5.

(** ** The libraries the extractor calls

    [PyPDF2] and [docx] are optional imports (lines 17-25): the name is
    bound to the module, or to [None] when the import failed. What the
    parsers answer on given bytes is theirs to decide, so they are fields
    of a record [Libs]; each may raise. *)

Record PyPDF2_module : Type := {
  (** [PdfReader(f).pages], and for each page what [extract_text()] does *)
  PdfReader_pages : list byte -> result (list (result string))
}.

Record docx_module : Type := {
  (** [[p.text for p in Document(path).paragraphs]] *)
  Document_paragraphs : list byte -> result (list string)
}.

(** A value built by [json.load]. A number carries the text Python prints
    for it. *)
Inductive json : Type :=
| JNull
| JBool (b : bool)
| JNumber (repr : string)
| JString (s : string)
| JArray (items : list json)
| JObject (members : list (string * json)).

Record Libs : Type := {
  PyPDF2 : option PyPDF2_module;
  docx : option docx_module;
  (** [f.read()] of a file opened with [encoding='utf-8', errors='ignore'] *)
  read_text : list byte -> string;
  (** [list(csv.reader(f))] on the text of the file *)
  csv_reader : string -> result (list (list string));
  (** the text [json.dumps] prints for [float(s)], for a number [s]
      written with a fraction or an exponent *)
  json_float : string -> string;
  (** [sys.get_int_max_str_digits()]: the digits [int(s)] takes, 0 for any
      number of them *)
  int_max_str_digits : nat;
  (** the containers, one inside the other, that the decoder reads and that
      the encoder writes before the interpreter raises [RecursionError] *)
  json_load_depth : nat;
  json_dumps_depth : nat;
  (** [datetime.isoformat()] of a timestamp *)
  isoformat : Z -> string
}.

(** Truth value of a module name: [None] is false. *)
Definition module_present {A} (m : option A) : bool :=
  match m with
  | Some _ => true
  | None => false
  end.

(** ** The json package

    A [str] is held as the bytes of its UTF-8 encoding (a lone surrogate,
    which a [str] may hold and UTF-8 proper may not, as the three bytes the
    same scheme gives it). The encoder and the decoder below work on the
    code points of a text. *)

Definition is_continuation (b : N) : bool := ((128 <=? b) && (b <? 192))%N.

(** The code points of a text. A byte that does not begin a well-formed
    sequence, which the encoding of a [str] never has, counts for itself. *)
Fixpoint code_points (s : string) : list N :=
  match s with
  | EmptyString => []
  | String c0 s1 =>
      let b0 := N_of_ascii c0 in
      match s1 with
      | String c1 s2 =>
          let b1 := N_of_ascii c1 in
          if ((192 <=? b0) && (b0 <? 224) && is_continuation b1)%N then
            ((b0 - 192) * 64 + (b1 - 128))%N :: code_points s2
          else
            match s2 with
            | String c2 s3 =>
                let b2 := N_of_ascii c2 in
                if ((224 <=? b0) && (b0 <? 240)
                    && is_continuation b1 && is_continuation b2)%N then
                  ((b0 - 224) * 4096 + (b1 - 128) * 64 + (b2 - 128))%N
                  :: code_points s3
                else
                  match s3 with
                  | String c3 s4 =>
                      let b3 := N_of_ascii c3 in
                      if ((240 <=? b0) && (b0 <? 248) && is_continuation b1
                          && is_continuation b2 && is_continuation b3)%N then
                        ((b0 - 240) * 262144 + (b1 - 128) * 4096
                         + (b2 - 128) * 64 + (b3 - 128))%N
                        :: code_points s4
                      else b0 :: code_points s1
                  | EmptyString => b0 :: code_points s1
                  end
            | EmptyString => b0 :: code_points s1
            end
      | EmptyString => [b0]
      end
  end.

Definition byte_string (b : N) : string := String (ascii_of_N b) EmptyString.

(** [chr(cp)], encoded. *)
Definition utf8_encode (cp : N) : string :=
  (if cp <? 128 then byte_string cp
   else if cp <? 2048 then
     byte_string (192 + cp / 64) +:+ byte_string (128 + cp mod 64)
   else if cp <? 65536 then
     byte_string (224 + cp / 4096) +:+ byte_string (128 + (cp / 64) mod 64)
     +:+ byte_string (128 + cp mod 64)
   else
     byte_string (240 + cp / 262144) +:+ byte_string (128 + (cp / 4096) mod 64)
     +:+ byte_string (128 + (cp / 64) mod 64) +:+ byte_string (128 + cp mod 64))%N.

(** *** json.dumps(data, indent=2)

    The encoder with its defaults: [ensure_ascii=True], the separators
    [","] and [": "] that go with an indent, keys in the order of the
    dictionary. *)

Definition hex_digit (n : N) : ascii :=
  (if n <? 10 then ascii_of_N (48 + n) else ascii_of_N (87 + n))%N.

(** ['{0:04x}'.format(n)]. *)
Definition hex4 (n : N) : string :=
  (String (hex_digit ((n / 4096) mod 16))
     (String (hex_digit ((n / 256) mod 16))
        (String (hex_digit ((n / 16) mod 16))
           (String (hex_digit (n mod 16)) EmptyString))))%N.

Definition backslash : string := String (ascii_of_nat 92) EmptyString.

(** What [encode_basestring_ascii] writes for one character: the short
    escapes, the character itself from the space to the tilde, [\uXXXX]
    below 0x10000 and a pair of surrogates above. *)
Definition escape_code_point (cp : N) : string :=
  (if cp =? 34 then backslash +:+ Py.dquote
   else if cp =? 92 then backslash +:+ backslash
   else if cp =? 10 then backslash +:+ "n"
   else if cp =? 13 then backslash +:+ "r"
   else if cp =? 9 then backslash +:+ "t"
   else if cp =? 8 then backslash +:+ "b"
   else if cp =? 12 then backslash +:+ "f"
   else if (32 <=? cp) && (cp <=? 126) then byte_string cp
   else if cp <? 65536 then backslash +:+ "u" +:+ hex4 cp
   else backslash +:+ "u" +:+ hex4 (55296 + ((cp - 65536) / 1024) mod 1024)
        +:+ backslash +:+ "u" +:+ hex4 (56320 + (cp - 65536) mod 1024))%N.

(** [encode_basestring_ascii]. *)
Definition encode_basestring_ascii (s : string) : string :=
  Py.dquote
  +:+ List.fold_right (fun cp text => escape_code_point cp +:+ text) EmptyString
        (code_points s)
  +:+ Py.dquote.

Fixpoint spaces (n : nat) : string :=
  match n with
  | O => EmptyString
  | S n' => String " " (spaces n')
  end.

(** ['\n' + ' ' * indent * level]. *)
Definition newline_indent (indent level : nat) : string :=
  Py.nl +:+ spaces (indent * level).

Fixpoint json_encode (indent level : nat) (v : json) : string :=
  match v with
  | JNull => "null"
  | JBool true => "true"
  | JBool false => "false"
  | JNumber repr => repr
  | JString s => encode_basestring_ascii s
  | JArray [] => "[]"
  | JArray items =>
      "[" +:+ newline_indent indent (S level)
      +:+ Py.join ("," +:+ newline_indent indent (S level))
            (List.map (json_encode indent (S level)) items)
      +:+ newline_indent indent level +:+ "]"
  | JObject [] => "{}"
  | JObject members =>
      "{" +:+ newline_indent indent (S level)
      +:+ Py.join ("," +:+ newline_indent indent (S level))
            (List.map (fun kv => encode_basestring_ascii (fst kv) +:+ ": "
                                 +:+ json_encode indent (S level) (snd kv)) members)
      +:+ newline_indent indent level +:+ "}"
  end.

(** The containers of a value, one inside the other. *)
Fixpoint nesting (v : json) : nat :=
  match v with
  | JArray items => S (List.fold_right (fun x n => Nat.max (nesting x) n) O items)
  | JObject members =>
      S (List.fold_right (fun kv n => Nat.max (nesting (snd kv)) n) O members)
  | _ => O
  end.

(** The encoder calls itself once for each container inside another. *)
Definition json_dumps (libs : Libs) (data : json) (indent : nat) : result string :=
  if Nat.leb (nesting data) (json_dumps_depth libs)
  then Return (json_encode indent 0 data)
  else Raise (LibraryError "RecursionError").

(** *** json.load

    The decoder reads the text as a sequence of tokens: the six
    punctuation marks, strings, and words (numbers and the literals). White
    space, which is the space, the tab, the line feed and the carriage
    return, separates tokens and is nothing else. *)

Inductive token : Type :=
| TPunct (c : ascii)
| TString (raw : string)    (* what stands between the quotes, as written *)
| TWord (w : string).

Definition is_json_ws (c : ascii) : bool :=
  let n := nat_of_ascii c in
  (Nat.eqb n 32 || Nat.eqb n 9 || Nat.eqb n 10 || Nat.eqb n 13)%bool.

Definition is_quote (c : ascii) : bool := Nat.eqb (nat_of_ascii c) 34.

Definition is_backslash (c : ascii) : bool := Nat.eqb (nat_of_ascii c) 92.

Definition is_punct (c : ascii) : bool :=
  (Ascii.eqb c "{" || Ascii.eqb c "}" || Ascii.eqb c "[" || Ascii.eqb c "]"
   || Ascii.eqb c "," || Ascii.eqb c ":")%bool.

(** The tokens of a text, read from outside any token ([lex_out]), from
    inside a word ([lex_word], which also gives the rest of the word) and
    from inside a string ([lex_str], which also gives the rest of the
    string; a backslash takes the next character with it). *)
Fixpoint lex_out (s : string) : option (list token) :=
  match s with
  | EmptyString => Some []
  | String c s' =>
      if is_json_ws c then lex_out s'
      else if is_quote c then
        match lex_str s' with
        | Some (raw, ts) => Some (TString raw :: ts)
        | None => None
        end
      else if is_punct c then
        match lex_out s' with
        | Some ts => Some (TPunct c :: ts)
        | None => None
        end
      else
        match lex_word s' with
        | Some (w, ts) => Some (TWord (String c w) :: ts)
        | None => None
        end
  end
with lex_word (s : string) : option (string * list token) :=
  match s with
  | EmptyString => Some (EmptyString, [])
  | String c s' =>
      if is_json_ws c then
        match lex_out s' with
        | Some ts => Some (EmptyString, ts)
        | None => None
        end
      else if is_quote c then
        match lex_str s' with
        | Some (raw, ts) => Some (EmptyString, TString raw :: ts)
        | None => None
        end
      else if is_punct c then
        match lex_out s' with
        | Some ts => Some (EmptyString, TPunct c :: ts)
        | None => None
        end
      else
        match lex_word s' with
        | Some (w, ts) => Some (String c w, ts)
        | None => None
        end
  end
with lex_str (s : string) : option (string * list token) :=
  match s with
  | EmptyString => None
  | String c s' =>
      if is_quote c then
        match lex_out s' with
        | Some ts => Some (EmptyString, ts)
        | None => None
        end
      else if is_backslash c then
        match s' with
        | EmptyString => None
        | String e s'' =>
            match lex_str s'' with
            | Some (raw, ts) => Some (String c (String e raw), ts)
            | None => None
            end
        end
      else
        match lex_str s' with
        | Some (raw, ts) => Some (String c raw, ts)
        | None => None
        end
  end.

(** **** Strings *)

Definition hex_value (c : ascii) : option N :=
  let n := N_of_ascii c in
  (if (48 <=? n) && (n <=? 57) then Some (n - 48)
   else if (97 <=? n) && (n <=? 102) then Some (n - 87)
   else if (65 <=? n) && (n <=? 70) then Some (n - 55)
   else None)%N.

Definition hex4_value (a b c d : ascii) : option N :=
  match hex_value a, hex_value b, hex_value c, hex_value d with
  | Some x, Some y, Some z, Some t => Some (x * 4096 + y * 256 + z * 16 + t)%N
  | _, _, _, _ => None
  end.

Definition is_high_surrogate (n : N) : bool := ((55296 <=? n) && (n <=? 56319))%N.
Definition is_low_surrogate (n : N) : bool := ((56320 <=? n) && (n <=? 57343))%N.

(** The character a short escape stands for. *)
Definition short_escape (e : ascii) : option N :=
  let n := N_of_ascii e in
  (if n =? 34 then Some 34          (* the quote *)
   else if n =? 92 then Some 92     (* the backslash *)
   else if n =? 47 then Some 47     (* the slash *)
   else if n =? 98 then Some 8      (* b *)
   else if n =? 102 then Some 12    (* f *)
   else if n =? 110 then Some 10    (* n *)
   else if n =? 114 then Some 13    (* r *)
   else if n =? 116 then Some 9     (* t *)
   else None)%N.

Definition prepend (prefix : string) (r : option string) : option string :=
  match r with
  | Some s => Some (prefix +:+ s)
  | None => None
  end.

(** [scanstring] on what stands between the quotes: the escapes are
    replaced by their characters, a high surrogate written [\uXXXX] and
    followed by a low one written the same way is joined with it, and a
    control character written as itself is an error. *)
Fixpoint decode_string (raw : string) : option string :=
  match raw with
  | EmptyString => Some EmptyString
  | String c r1 =>
      if is_backslash c then
        match r1 with
        | EmptyString => None
        | String e r2 =>
            if Ascii.eqb e "u" then
              match r2 with
              | String h1 (String h2 (String h3 (String h4 r3))) =>
                  match hex4_value h1 h2 h3 h4 with
                  | None => None
                  | Some hi =>
                      match r3 with
                      | String b (String u (String k1 (String k2 (String k3 (String k4 r4))))) =>
                          if (is_high_surrogate hi && is_backslash b && Ascii.eqb u "u")%bool
                          then
                            match hex4_value k1 k2 k3 k4 with
                            | None => None
                            | Some lo =>
                                if is_low_surrogate lo
                                then prepend
                                       (utf8_encode (65536 + (hi - 55296) * 1024
                                                     + (lo - 56320))%N)
                                       (decode_string r4)
                                else prepend (utf8_encode hi) (decode_string r3)
                            end
                          else prepend (utf8_encode hi) (decode_string r3)
                      | _ => prepend (utf8_encode hi) (decode_string r3)
                      end
                  end
              | _ => None
              end
            else
              match short_escape e with
              | Some cp => prepend (byte_string cp) (decode_string r2)
              | None => None
              end
        end
      else if (N_of_ascii c <? 32)%N then None
      else prepend (String c EmptyString) (decode_string r1)
  end.

(** **** Numbers and literals *)

Definition is_digit (c : ascii) : bool :=
  let n := nat_of_ascii c in (Nat.leb 48 n && Nat.leb n 57)%bool.

Fixpoint skip_digits (s : string) : string :=
  match s with
  | String c s' => if is_digit c then skip_digits s' else s
  | EmptyString => s
  end.

(** The digits at the head of the string are at least one. *)
Definition starts_with_digit (s : string) : bool :=
  match s with
  | String c _ => is_digit c
  | EmptyString => false
  end.

(** After the integer part: nothing, or a fraction, or an exponent, or
    both, and then nothing ([(\.[0-9]+)?([eE][-+]?[0-9]+)?]). The answer
    says whether the text is that of a float. *)
Definition exponent_then_end (s : string) : option bool :=
  match s with
  | EmptyString => Some false
  | String c s1 =>
      if (Ascii.eqb c "e" || Ascii.eqb c "E")%bool then
        let s2 := match s1 with
                  | String sign s2 =>
                      if (Ascii.eqb sign "+" || Ascii.eqb sign "-")%bool then s2 else s1
                  | EmptyString => s1
                  end in
        if (starts_with_digit s2 && String.eqb (skip_digits s2) EmptyString)%bool
        then Some true else None
      else None
  end.

Definition fraction_then_end (s : string) : option bool :=
  match s with
  | String c s1 =>
      if Ascii.eqb c "." then
        if starts_with_digit s1 then
          match exponent_then_end (skip_digits s1) with
          | Some _ => Some true
          | None => None
          end
        else None
      else exponent_then_end s
  | EmptyString => Some false
  end.

(** A number without its sign. *)
Definition unsigned (w : string) : string :=
  match w with
  | String c w' => if Ascii.eqb c "-" then w' else w
  | EmptyString => w
  end.

(** [NUMBER_RE] matching the whole word: an optional minus sign, then a
    zero or a digit from 1 to 9 followed by any digits, then the optional
    fraction and exponent. *)
Definition number_kind (w : string) : option bool :=
  match unsigned w with
  | String d rest =>
      if Ascii.eqb d "0" then fraction_then_end rest
      else if is_digit d then fraction_then_end (skip_digits rest)
      else None
  | EmptyString => None
  end.

(** [int(s)] raises [ValueError] on more digits than the limit, when
    there is one; the sign does not count. *)
Definition too_many_digits (libs : Libs) (w : string) : bool :=
  (negb (Nat.eqb (int_max_str_digits libs) 0)
   && Nat.ltb (int_max_str_digits libs) (String.length (unsigned w)))%bool.

(** The value of a word: a literal, or a number. An integer is printed
    back by [json.dumps] as it was written, [-0] as [0]; what is printed
    for a float is for the runtime to say. *)
Definition word_value (libs : Libs) (w : string) : option json :=
  if String.eqb w "null" then Some JNull
  else if String.eqb w "true" then Some (JBool true)
  else if String.eqb w "false" then Some (JBool false)
  else if String.eqb w "NaN" then Some (JNumber "NaN")
  else if String.eqb w "Infinity" then Some (JNumber "Infinity")
  else if String.eqb w "-Infinity" then Some (JNumber "-Infinity")
  else match number_kind w with
       | Some true => Some (JNumber (json_float libs w))
       | Some false =>
           if too_many_digits libs w then None
           else if String.eqb w "-0" then Some (JNumber "0")
           else Some (JNumber w)
       | None => None
       end.

(** **** Values *)

(** [d[k] = v] on a dictionary, held in the order of first insertion. *)
Fixpoint dict_set (k : string) (v : json) (members : list (string * json))
  : list (string * json) :=
  match members with
  | [] => [(k, v)]
  | (k', v') :: rest =>
      if String.eqb k' k then (k', v) :: rest
      else (k', v') :: dict_set k v rest
  end.

(** The containers that are open: an array with the items read so far,
    last first; an object between two members; an object whose next key is
    read and whose value is to come. *)
Inductive frame : Type :=
| InArray (items_rev : list json)
| InObject (members : list (string * json))
| InMember (members : list (string * json)) (key : string).

(** What may come next. *)
Inductive expect : Type :=
| EValue           (* a value *)
| EValueOrClose    (* after [[]: a value or []] *)
| EKeyOrClose      (* after [{]: a key or [}] *)
| EKey             (* after a comma in an object: a key *)
| EColon           (* after a key *)
| EAfter           (* after a value in a container: a comma or the end of it *)
| EDone (v : json). (* after the value of the text: nothing *)

Definition parser_state : Type := (list frame * expect)%type.

(** A value is complete: it is the value of the text, or it goes into the
    container that is open. *)
Definition complete (v : json) (stack : list frame) : option parser_state :=
  match stack with
  | [] => Some ([], EDone v)
  | InArray items :: below => Some (InArray (v :: items) :: below, EAfter)
  | InMember members key :: below =>
      Some (InObject (dict_set key v members) :: below, EAfter)
  | InObject _ :: _ => None
  end.

(** At a value. A container is opened inside those that are open, as
    long as the interpreter lets the decoder call itself. *)
Definition start_value (libs : Libs) (stack : list frame) (t : token)
  : option parser_state :=
  match t with
  | TPunct c =>
      if negb (Nat.ltb (List.length stack) (json_load_depth libs)) then None
      else if Ascii.eqb c "[" then Some (InArray [] :: stack, EValueOrClose)
      else if Ascii.eqb c "{" then Some (InObject [] :: stack, EKeyOrClose)
      else None
  | TString raw =>
      match decode_string raw with
      | Some s => complete (JString s) stack
      | None => None
      end
  | TWord w =>
      match word_value libs w with
      | Some v => complete v stack
      | None => None
      end
  end.

Definition read_key (stack : list frame) (t : token) : option parser_state :=
  match t, stack with
  | TString raw, InObject members :: below =>
      match decode_string raw with
      | Some key => Some (InMember members key :: below, EColon)
      | None => None
      end
  | _, _ => None
  end.

Definition close_container (c : ascii) (stack : list frame) : option parser_state :=
  match stack with
  | InArray items :: below =>
      if Ascii.eqb c "]" then complete (JArray (List.rev items)) below else None
  | InObject members :: below =>
      if Ascii.eqb c "}" then complete (JObject members) below else None
  | _ => None
  end.

Definition parser_step (libs : Libs) (st : parser_state) (t : token)
  : option parser_state :=
  let (stack, e) := st in
  match e with
  | EValue => start_value libs stack t
  | EValueOrClose =>
      match t with
      | TPunct c => if Ascii.eqb c "]" then close_container c stack
                    else start_value libs stack t
      | _ => start_value libs stack t
      end
  | EKeyOrClose =>
      match t with
      | TPunct c => if Ascii.eqb c "}" then close_container c stack else None
      | _ => read_key stack t
      end
  | EKey => read_key stack t
  | EColon =>
      match t with
      | TPunct c => if Ascii.eqb c ":" then Some (stack, EValue) else None
      | _ => None
      end
  | EAfter =>
      match t with
      | TPunct c =>
          if Ascii.eqb c "," then
            match stack with
            | InArray _ :: _ => Some (stack, EValue)
            | InObject _ :: _ => Some (stack, EKey)
            | _ => None
            end
          else close_container c stack
      | _ => None
      end
  | EDone _ => None
  end.

Fixpoint parse_tokens (libs : Libs) (st : parser_state) (ts : list token)
  : option json :=
  match ts with
  | [] => match st with
          | ([], EDone v) => Some v
          | _ => None
          end
  | t :: rest =>
      match parser_step libs st t with
      | Some st' => parse_tokens libs st' rest
      | None => None
      end
  end.

(** [json.load(f)] on the text of the file: the value, or an exception
    ([JSONDecodeError], the [ValueError] of [int], [RecursionError]; the
    caller tells none from another). *)
Definition json_load (libs : Libs) (text : string) : result json :=
  match lex_out text with
  | Some ts =>
      match parse_tokens libs ([], EValue) ts with
      | Some data => Return data
      | None => Raise (LibraryError "JSONDecodeError")
      end
  | None => Raise (LibraryError "JSONDecodeError")
  end.

(** The text without its white space, that inside strings kept. *)
Fixpoint minify (s : string) : string :=
  match s with
  | EmptyString => EmptyString
  | String c s' =>
      if is_json_ws c then minify s'
      else if is_quote c then String c (minify_in s')
      else String c (minify s')
  end
with minify_in (s : string) : string :=
  match s with
  | EmptyString => EmptyString
  | String c s' =>
      if is_quote c then String c (minify s')
      else if is_backslash c then
        match s' with
        | EmptyString => String c EmptyString
        | String e s'' => String c (String e (minify_in s''))
        end
      else String c (minify_in s')
  end.

(** No two words follow each other. *)
Definition is_word (t : token) : bool :=
  match t with
  | TWord _ => true
  | _ => false
  end.

Definition starts_with_word (ts : list token) : bool :=
  match ts with
  | t :: _ => is_word t
  | [] => false
  end.

Fixpoint separated (ts : list token) : bool :=
  match ts with
  | [] => true
  | t :: rest => (negb (is_word t && starts_with_word rest) && separated rest)%bool
  end.

(** ** extract_text_from_file (lines 315-379) *)

(** [open(file_path, ...)] followed by reading the whole file. *)
Definition open_read (fs : gmap string (list byte)) (file_path : string)
  : result (list byte) :=
  match fs !! file_path with
  | Some content => Return content
  | None => Raise (FileNotFoundError file_path)
  end.

(** [PyPDF2.PdfReader(f)] with the pages it gives; on [None] the attribute
    access raises. *)
Definition PdfReader (m : option PyPDF2_module) (f : list byte)
  : result (list (result string)) :=
  match m with
  | Some pdf => PdfReader_pages pdf f
  | None => Raise (AttributeError "'NoneType' object has no attribute 'PdfReader'")
  end.

Definition Document (m : option docx_module) (f : list byte)
  : result (list string) :=
  match m with
  | Some d => Document_paragraphs d f
  | None => Raise (AttributeError "'NoneType' object has no attribute 'Document'")
  end.

(** [for page in pdf_reader.pages: text += page.extract_text() + "\n"]. *)
Fixpoint pdf_pages_text (pages : list (result string)) (text : string)
  : result string :=
  match pages with
  | [] => Return text
  | page :: rest =>
      (t <- page ;; pdf_pages_text rest (text +:+ t +:+ Py.nl))%result
  end.

(** [for paragraph in doc.paragraphs: text += paragraph.text + "\n"]. *)
Fixpoint paragraphs_text (paragraphs : list string) (text : string) : string :=
  match paragraphs with
  | [] => text
  | p :: rest => paragraphs_text rest (text +:+ p +:+ Py.nl)
  end.

(** [for row in csv_reader: text += ", ".join(row) + "\n"]. *)
Fixpoint csv_rows_text (rows : list (list string)) (text : string) : string :=
  match rows with
  | [] => text
  | row :: rest => csv_rows_text rest (text +:+ Py.join ", " row +:+ Py.nl)
  end.

Definition PDF_PLACEHOLDER : string := "PDF content could not be extracted".
Definition DOCX_PLACEHOLDER : string := "DOCX content could not be extracted".
Definition CSV_PLACEHOLDER : string := "CSV content could not be extracted".
Definition JSON_PLACEHOLDER : string := "JSON content could not be extracted".
Definition UNSUPPORTED_PLACEHOLDER : string := "File type not supported for text extraction".
Definition FAILED_PLACEHOLDER : string := "Text extraction failed".

Definition extract_text_from_file (libs : Libs) (fs : gmap string (list byte))
  (file_path : string) (file_ext : string) : result string :=
  try_except
    (if (String.eqb file_ext ".txt" || String.eqb file_ext ".md")%bool then
       (f <- open_read fs file_path ;;
        Return (read_text libs f))%result
     else if (String.eqb file_ext ".pdf" && module_present (PyPDF2 libs))%bool then
       try_except
         (f <- open_read fs file_path ;;
          pages <- PdfReader (PyPDF2 libs) f ;;
          pdf_pages_text pages EmptyString)%result
         (fun _ => Return PDF_PLACEHOLDER)
     else if (String.eqb file_ext ".docx" && module_present (docx libs))%bool then
       try_except
         (f <- open_read fs file_path ;;
          paragraphs <- Document (docx libs) f ;;
          Return (paragraphs_text paragraphs EmptyString))%result
         (fun _ => Return DOCX_PLACEHOLDER)
     else if String.eqb file_ext ".csv" then
       try_except
         (f <- open_read fs file_path ;;
          rows <- csv_reader libs (read_text libs f) ;;
          Return (csv_rows_text rows EmptyString))%result
         (fun _ => Return CSV_PLACEHOLDER)
     else if String.eqb file_ext ".json" then
       try_except
         (f <- open_read fs file_path ;;
          data <- json_load libs (read_text libs f) ;;
          json_dumps libs data 2)%result
         (fun _ => Return JSON_PLACEHOLDER)
     else
       Return UNSUPPORTED_PLACEHOLDER)
    (fun _ => Return FAILED_PLACEHOLDER).

(** ** store_file_info (lines 381-415) *)

(** The dictionary [store_file_info] returns. *)
Record FileSummary : Type := {
  fi_id : Z;
  fi_filename : string;
  fi_original_name : string;
  fi_file_type : string;
  fi_file_size : Z;
  fi_has_text : bool;
  fi_file_path : string
}.

Definition connection_serial (c : connection) : nat :=
  match c with
  | Connection serial => serial
  end.

(** [cursor.execute("INSERT INTO uploaded_files ...")] followed by
    [cursor.lastrowid]. The connection is opened with [autocommit=True]:
    the row is in the table as soon as the statement returns. *)
Definition execute_insert (env : Env) (conn : connection)
  (session_id filename original_name file_type : string) (file_size : Z)
  (file_path : string) (extracted_text : option string) : M Z :=
  fun w =>
    let row := {| row_id := auto_increment w;
                  row_session_id := session_id;
                  row_filename := filename;
                  row_original_name := original_name;
                  row_file_type := file_type;
                  row_file_size := file_size;
                  row_file_path := file_path;
                  row_extracted_text := extracted_text;
                  row_upload_date := server_time env (connection_serial conn) |} in
    match insert_rejected env row with
    | Some msg => (Raise (MySQLError msg), w)
    | None =>
        (Return (row_id row),
         bump_auto_increment (set_table (fun table => (table ++ [row])%list) w))
    end.

Definition store_file_info (env : Env)
  (session_id filename original_name file_type : string) (file_size : Z)
  (file_path : string) (extracted_text : option string) : M FileSummary :=
  catch
    (connection <- get_db_connection env default_max_retries ;;
     match connection with
     | None => raise (PyException "Database connection failed")
     | Some conn =>
         file_id <- execute_insert env conn session_id filename original_name
                      file_type file_size file_path extracted_text ;;
         ret {| fi_id := file_id;
                fi_filename := filename;
                fi_original_name := original_name;
                fi_file_type := file_type;
                fi_file_size := file_size;
                fi_has_text := Py.truthy extracted_text;
                fi_file_path := file_path |}
     end)%world
    (fun e => raise (PyException ("Failed to store file info: " +:+ str_exn e))).

(** ** upload_files (lines 137-203) *)

Record UploadFile : Type := {
  uf_filename : string;
  uf_content : list byte
}.

Record UploadResponse : Type := {
  ur_message : string;
  ur_files : list FileSummary
}.

(** [str(list(ALLOWED_EXTENSIONS))]; the order in which a set is listed is
    not fixed by Python, the order of the declaration is used. *)
Definition allowed_extensions_repr : string :=
  "[" +:+ Py.join ", " (List.map (fun e => "'" +:+ e +:+ "'") ALLOWED_EXTENSIONS) +:+ "]".

(** [Path(UPLOAD_DIR) / unique_filename], as a string. *)
Definition upload_path (unique_filename : string) : string :=
  UPLOAD_DIR +:+ "/" +:+ unique_filename.

(** [uuid.uuid4()], printed. *)
Definition next_uuid4 (env : Env) : M string :=
  fun w => (Return (uuid4 env (uuid_calls w)), bump_uuid_calls w).

(** [with open(file_path, "wb") as buffer: buffer.write(file_content)]. *)
Definition write_file (file_path : string) (file_content : list byte) : M unit :=
  modify (set_content_store (fun fs => <[file_path := file_content]> fs)).

(** The body of the [for file in files] loop (lines 147-185), up to the
    dictionary that is appended to [uploaded_files]. *)
Definition upload_one (env : Env) (libs : Libs) (session_id : string)
  (file : UploadFile) : M FileSummary :=
  (let file_content := uf_content file in
   if Py.len file_content >? MAX_FILE_SIZE then
     raise (HTTPException 400
              ("File " +:+ uf_filename file +:+ " is too large. Max size is "
               +:+ Py.str_int (MAX_FILE_SIZE / (1024 * 1024)) +:+ "MB"))
   else
     let file_ext := Py.lower (Py.path_suffix (uf_filename file)) in
     if negb (allowed_extension file_ext) then
       raise (HTTPException 400
                ("File type " +:+ file_ext +:+ " not supported. Supported types: "
                 +:+ allowed_extensions_repr))
     else
       uuid <- next_uuid4 env ;;
       let unique_filename := uuid +:+ file_ext in
       let file_path := upload_path unique_filename in
       write_file file_path file_content ;;
       extracted_text <- (fun w => (extract_text_from_file libs (content_store w)
                                      file_path file_ext, w)) ;;
       store_file_info env session_id unique_filename (uf_filename file) file_ext
         (Py.len file_content) file_path (Some extracted_text))%world.

(** The loop itself. [uploaded_files] is the list the handler appends to;
    when an iteration raises, the list is what the [except] clause sees. *)
Fixpoint upload_loop (env : Env) (libs : Libs) (session_id : string)
  (files : list UploadFile) (uploaded_files : list FileSummary) (w : World)
  : result unit * list FileSummary * World :=
  match files with
  | [] => (Return tt, uploaded_files, w)
  | file :: rest =>
      match upload_one env libs session_id file w with
      | (Return file_info, w') =>
          upload_loop env libs session_id rest (uploaded_files ++ [file_info]) w'
      | (Raise e, w') => (Raise e, uploaded_files, w')
      end
  end.

(** [os.path.exists(file_path)]. *)
Definition path_exists (fs : gmap string (list byte)) (file_path : string) : bool :=
  match fs !! file_path with
  | Some _ => true
  | None => false
  end.

(** The clean-up loop of the [except] clause (lines 196-202). *)
Fixpoint cleanup_uploaded (uploaded_files : list FileSummary) (w : World) : World :=
  match uploaded_files with
  | [] => w
  | file_info :: rest =>
      let file_path := fi_file_path file_info in
      cleanup_uploaded rest
        (if (negb (String.eqb file_path EmptyString)
             && path_exists (content_store w) file_path)%bool
         then set_content_store (fun fs => delete file_path fs) w
         else w)
  end.

Definition upload_files (env : Env) (libs : Libs) (files : list UploadFile)
  (session_id : string) : M UploadResponse :=
  fun w =>
    match upload_loop env libs session_id files [] w with
    | (Return _, uploaded_files, w') =>
        (Return {| ur_message := "Successfully uploaded "
                                 +:+ Py.str_int (Py.len uploaded_files) +:+ " files";
                   ur_files := uploaded_files |}, w')
    | (Raise e, uploaded_files, w') =>
        (Raise (HTTPException 500 (str_exn e)), cleanup_uploaded uploaded_files w')
    end.

(** ** get_files (lines 205-243) *)

(** [ORDER BY upload_date DESC]: rows with a later date come first. *)
Fixpoint insert_by_date (r : Row) (sorted : list Row) : list Row :=
  match sorted with
  | [] => [r]
  | r' :: rest =>
      if row_upload_date r' <=? row_upload_date r then r :: sorted
      else r' :: insert_by_date r rest
  end.

Definition order_by_upload_date_desc (rows : list Row) : list Row :=
  List.fold_right insert_by_date [] rows.

(** [SELECT ... FROM uploaded_files WHERE session_id = %s ORDER BY
    upload_date DESC]; the comparison of the WHERE clause is equality of
    strings. *)
Definition select_by_session (session_id : string) (table : list Row) : list Row :=
  order_by_upload_date_desc
    (List.filter (fun r => String.eqb (row_session_id r) session_id) table).

Record FileListing : Type := {
  fl_id : Z;
  fl_filename : string;
  fl_content : string;
  fl_content_type : string;
  fl_file_size : Z;
  fl_upload_date : string;
  fl_has_text : bool
}.

Record FilesResponse : Type := {
  fr_session_id : string;
  fr_files : list FileListing
}.

(** [x if x else default] on an optional string. *)
Definition or_default (o : option string) (default : string) : string :=
  match o with
  | Some s => if Py.truthy o then s else default
  | None => default
  end.

Definition listing_of_row (libs : Libs) (row : Row) : FileListing :=
  {| fl_id := row_id row;
     fl_filename := row_original_name row;
     fl_content := or_default (row_extracted_text row) "No content available";
     fl_content_type := row_file_type row;
     fl_file_size := row_file_size row;
     fl_upload_date := isoformat libs (row_upload_date row);
     fl_has_text := Py.truthy (row_extracted_text row) |}.

Definition get_files (env : Env) (libs : Libs) (session_id : string) : M FilesResponse :=
  catch
    (connection <- get_db_connection env default_max_retries ;;
     match connection with
     | None => raise (HTTPException 500 "Database connection failed")
     | Some _ =>
         results <- gets (fun w => select_by_session session_id (uploaded_files_table w)) ;;
         ret {| fr_session_id := session_id;
                fr_files := List.map (listing_of_row libs) results |}
     end)%world
    (fun _ => raise (HTTPException 500 "Failed to retrieve files")).

(** ** get_file_content (lines 245-275) *)

Record ContentResponse : Type := {
  cr_file_id : Z;
  cr_filename : string;
  cr_content : string
}.

(** [SELECT ... WHERE id = %s] followed by [cursor.fetchone()]. *)
Definition select_by_id (file_id : Z) (table : list Row) : option Row :=
  List.find (fun r => row_id r =? file_id) table.

Definition get_file_content (env : Env) (file_id : Z) : M ContentResponse :=
  catch
    (connection <- get_db_connection env default_max_retries ;;
     match connection with
     | None => raise (HTTPException 500 "Database connection failed")
     | Some _ =>
         result <- gets (fun w => select_by_id file_id (uploaded_files_table w)) ;;
         match result with
         | None => raise (HTTPException 404 "File not found")
         | Some row =>
             ret {| cr_file_id := file_id;
                    cr_filename := row_original_name row;
                    cr_content := or_default (row_extracted_text row)
                                    "No text content available" |}
         end
     end)%world
    (fun _ => raise (HTTPException 500 "Failed to retrieve file content")).

(** ** delete_file (lines 277-313) *)

(** [DELETE FROM uploaded_files WHERE id = %s]. *)
Definition delete_by_id (file_id : Z) (table : list Row) : list Row :=
  List.filter (fun r => negb (row_id r =? file_id)) table.

(** [if os.path.exists(file_path): os.remove(file_path)] (lines 304-305).
    The content store holds the regular files of the disk, which the
    service wrote and can remove: such a path exists and is removed. A path
    that is not one of them is either absent, and nothing is done, or
    something else that exists (a directory, say): then [os.remove] raises
    an [OSError] that is not a [FileNotFoundError]. [remove_refused] tells
    which. *)
Definition remove_if_exists (env : Env) (file_path : string) : M unit :=
  fun w =>
    if path_exists (content_store w) file_path
    then (Return tt, set_content_store (fun fs => delete file_path fs) w)
    else match remove_refused env file_path with
         | Some msg => (Raise (OSError msg), w)
         | None => (Return tt, w)
         end.

(** [try: body  except FileNotFoundError: pass] (lines 303-307): no other
    exception is absorbed. *)
Definition pass_FileNotFoundError (body : M unit) : M unit :=
  catch body (fun e => match e with
                       | FileNotFoundError _ => ret tt
                       | _ => raise e
                       end).

Definition delete_file (env : Env) (file_id : Z) : M string :=
  catch
    (connection <- get_db_connection env default_max_retries ;;
     match connection with
     | None => raise (HTTPException 500 "Database connection failed")
     | Some _ =>
         result <- gets (fun w => select_by_id file_id (uploaded_files_table w)) ;;
         match result with
         | None => raise (HTTPException 404 "File not found")
         | Some row =>
             let file_path := row_file_path row in
             modify (set_table (delete_by_id file_id)) ;;
             pass_FileNotFoundError (remove_if_exists env file_path) ;;
             ret "File deleted successfully"
         end
     end)%world
    (fun _ => raise (HTTPException 500 "Failed to delete file")).

(** ** A reference runtime

    Concrete libraries, a concrete environment and a concrete world, on
    which the functions above can be run. The text of a file is its bytes,
    a float is printed as it was written, and the CSV reader splits on line
    breaks and commas. *)

Module Reference.

Fixpoint split_char (sep : ascii) (s : string) : list string :=
  match s with
  | EmptyString => [EmptyString]
  | String c s' =>
      if Ascii.eqb c sep then EmptyString :: split_char sep s'
      else match split_char sep s' with
           | [] => [String c EmptyString]
           | p :: ps => String c p :: ps
           end
  end.

Definition csv_rows (s : string) : result (list (list string)) :=
  Return (List.map (split_char ",")
            (List.filter (fun l => negb (String.eqb l EmptyString))
               (split_char (ascii_of_nat 10) s))).

(** A runtime in which neither [PyPDF2] nor [docx] could be imported. *)
Definition libs : Libs :=
  {| PyPDF2 := None;
     docx := None;
     read_text := string_of_list_byte;
     csv_reader := csv_rows;
     json_float := fun s => s;
     int_max_str_digits := 4300;
     json_load_depth := 900;
     json_dumps_depth := 900;
     isoformat := Py.str_int |}.

(** A PDF library that finds no page it can read. *)
Definition broken_pdf : PyPDF2_module :=
  {| PdfReader_pages := fun _ => Raise (LibraryError "EOF marker not found") |}.

Definition libs_with_pdf : Libs :=
  {| PyPDF2 := Some broken_pdf;
     docx := None;
     read_text := string_of_list_byte;
     csv_reader := csv_rows;
     json_float := fun s => s;
     int_max_str_digits := 4300;
     json_load_depth := 900;
     json_dumps_depth := 900;
     isoformat := Py.str_int |}.

(** A server that accepts every connection and every row. *)
Definition env : Env :=
  {| mysql_connect := fun _ => ConnectOpen;
     insert_rejected := fun _ => None;
     remove_refused := fun _ => None;
     server_time := fun n => 1700000000 + Z.of_nat n;
     uuid4 := fun n => "0000-" +:+ Py.str_int (Z.of_nat n) |}.

(** A server that cannot be reached. *)
Definition env_down : Env :=
  {| mysql_connect := fun _ => ConnectError "Can't connect to MySQL server";
     insert_rejected := fun _ => None;
     remove_refused := fun _ => None;
     server_time := fun n => 1700000000 + Z.of_nat n;
     uuid4 := fun n => "0000-" +:+ Py.str_int (Z.of_nat n) |}.

(** A server whose first connection is not open and whose second is. *)
Definition env_flaky : Env :=
  {| mysql_connect := fun n => match n with O => ConnectClosed | _ => ConnectOpen end;
     insert_rejected := fun _ => None;
     remove_refused := fun _ => None;
     server_time := fun n => 1700000000 + Z.of_nat n;
     uuid4 := fun n => "0000-" +:+ Py.str_int (Z.of_nat n) |}.

(** An empty directory and an empty table. *)
Definition world0 : World :=
  {| content_store := ∅;
     uploaded_files_table := [];
     auto_increment := 1;
     connect_calls := 0;
     uuid_calls := 0;
     trace := [] |}.

Definition file (name : string) (text : string) : UploadFile :=
  {| uf_filename := name; uf_content := list_byte_of_string text |}.

End Reference.

(** ** Vocabulary of the statements *)

(** The extension [upload_files] computes for a file (line 156). *)
Definition file_ext_of (file : UploadFile) : string :=
  Py.lower (Py.path_suffix (uf_filename file)).

(** The two checks of lines 149 and 157 pass. *)
Definition passes_validation (file : UploadFile) : bool :=
  (negb (Py.len (uf_content file) >? MAX_FILE_SIZE)
   && allowed_extension (file_ext_of file))%bool.

(** The path a file is written to when its name is drawn at the n-th call
    of [uuid.uuid4]. *)
Definition stored_path (env : Env) (n : nat) (file : UploadFile) : string :=
  upload_path (uuid4 env n +:+ file_ext_of file).

(** The paths of consecutive files, the first drawing the n-th name. *)
Fixpoint stored_paths (env : Env) (n : nat) (files : list UploadFile) : list string :=
  match files with
  | [] => []
  | file :: rest => stored_path env n file :: stored_paths env (S n) rest
  end.

(** The world differs from another only in the calls made to the server:
    the disk, the table and the counters of names and keys are the same. *)
Definition same_data (w w' : World) : Prop :=
  content_store w' = content_store w
  /\ uploaded_files_table w' = uploaded_files_table w
  /\ auto_increment w' = auto_increment w
  /\ uuid_calls w' = uuid_calls w.

(** Later rows first. *)
Definition later_first (r1 r2 : Row) : Prop :=
  row_upload_date r2 <= row_upload_date r1.

(** The bound the service keeps on the size of a stored file. *)
Definition size_within_limit (r : Row) : Prop :=
  0 <= row_file_size r <= MAX_FILE_SIZE.

(** The events of a run in which every one of [remaining] attempts, from
    attempt number [attempt] on, raises: a sleep of [2 ^ attempt] after
    each attempt but the last of the [max_retries]. *)
Fixpoint backoff_trace (max_retries attempt : Z) (remaining : nat) : list event :=
  match remaining with
  | O => []
  | S k =>
      if attempt <? max_retries - 1
      then EvConnect attempt :: EvSleep (2 ^ attempt)
             :: backoff_trace max_retries (attempt + 1) k
      else [EvConnect attempt]
  end.

(** The disk after the files of a batch have been written one after the
    other, the first under the n-th generated name. *)
Fixpoint write_all (env : Env) (n : nat) (files : list UploadFile)
  (fs : gmap string (list byte)) : gmap string (list byte) :=
  match files with
  | [] => fs
  | file :: rest =>
      write_all env (S n) rest (<[stored_path env n file := uf_content file]> fs)
  end.

(** The row that records a file of a session. *)
Definition records (session_id : string) (file : UploadFile) (row : Row) : Prop :=
  row_session_id row = session_id
  /\ row_original_name row = uf_filename file
  /\ row_file_type row = file_ext_of file
  /\ row_file_size row = Py.len (uf_content file).

(** The requests the service answers, and the world after each. *)
Inductive request : Type :=
| PostUpload (files : list UploadFile) (session_id : string)
| GetFiles (session_id : string)
| GetFileContent (file_id : Z)
| DeleteFile (file_id : Z).

Definition handle (env : Env) (libs : Libs) (w : World) (req : request) : World :=
  match req with
  | PostUpload files session_id => snd (upload_files env libs files session_id w)
  | GetFiles session_id => snd (get_files env libs session_id w)
  | GetFileContent file_id => snd (get_file_content env file_id w)
  | DeleteFile file_id => snd (delete_file env file_id w)
  end.

Definition serve (env : Env) (libs : Libs) (reqs : list request) (w : World) : World :=
  List.fold_left (handle env libs) reqs w.

(** Two batches and a server for the examples: a text file followed by a
    program, two text files, an empty text file, and a server that accepts
    its first connection and refuses every later one. *)
Definition batch_txt_exe : list UploadFile :=
  [Reference.file "a.txt" "hello"; Reference.file "b.exe" "MZ"].
Definition batch_txt_txt : list UploadFile :=
  [Reference.file "a.txt" "hello"; Reference.file "b.txt" "world"].
Definition empty_txt : UploadFile :=
  {| uf_filename := "empty.txt"; uf_content := [] |}.
Definition env_one_connection : Env :=
  {| mysql_connect := fun n => match n with
                               | O => ConnectOpen
                               | _ => ConnectError "Can't connect to MySQL server"
                               end;
     insert_rejected := fun _ => None;
     remove_refused := fun _ => None;
     server_time := fun n => 1700000000 + Z.of_nat n;
     uuid4 := fun n => "0000-" +:+ Py.str_int (Z.of_nat n) |}.

(** A file of [MAX_FILE_SIZE + 1] zero bytes. *)
Definition oversized : UploadFile :=
  {| uf_filename := "big.txt";
     uf_content := List.repeat x00 (Z.to_nat (MAX_FILE_SIZE + 1)) |}.

(** No dot and no slash occurs in the string. *)
Fixpoint no_dot_slash (s : string) : bool :=
  match s with
  | EmptyString => true
  | String c s' =>
      (negb (Ascii.eqb c ".") && negb (Ascii.eqb c "/") && no_dot_slash s')%bool
  end.

(** A dot followed by at least one character, none of them a dot or a
    slash: the shape of [".txt"], [".TXT"] or [".Json"]. *)
Definition is_extension (e : string) : bool :=
  match e with
  | String c x =>
      (Ascii.eqb c "." && negb (String.eqb x EmptyString) && no_dot_slash x)%bool
  | EmptyString => false
  end.

Fixpoint ends_with_slash (s : string) : bool :=
  match s with
  | EmptyString => false
  | String c EmptyString => Ascii.eqb c "/"
  | String _ s' => ends_with_slash s'
  end.

(** The part of a file name before its extension names a file: it is not
    empty and does not end with a slash. *)
Definition names_a_file (stem : string) : bool :=
  (negb (String.eqb stem EmptyString) && negb (ends_with_slash stem))%bool.

(** The list with [b] appended to its last string. *)
Fixpoint app_last (l : list string) (b : string) : list string :=
  match l with
  | [] => [b]
  | [x] => [x +:+ b]
  | x :: rest => x :: app_last rest b
  end.

(** A table with three uploads of one session and one of another. *)
Definition row_at (id : Z) (session_id name : string) (date : Z) : Row :=
  {| row_id := id;
     row_session_id := session_id;
     row_filename := name;
     row_original_name := name;
     row_file_type := ".txt";
     row_file_size := 5;
     row_file_path := upload_path name;
     row_extracted_text := Some "hello";
     row_upload_date := date |}.

Definition world_three_uploads : World :=
  {| content_store := ∅;
     uploaded_files_table :=
       [row_at 1 "s1" "first.txt" 100; row_at 2 "s2" "other.txt" 150;
        row_at 3 "s1" "third.txt" 300; row_at 4 "s1" "second.txt" 200];
     auto_increment := 5;
     connect_calls := 0;
     uuid_calls := 0;
     trace := [] |}.

(** The strings the extractor answers when it has no text to give. *)
Definition placeholders : list string :=
  [PDF_PLACEHOLDER; DOCX_PLACEHOLDER; CSV_PLACEHOLDER; JSON_PLACEHOLDER;
   UNSUPPORTED_PLACEHOLDER; FAILED_PLACEHOLDER].

(** The text of [{"a":1}], written compactly and written with white space. *)
Definition json_compact : string :=
  "{" +:+ Py.dquote +:+ "a" +:+ Py.dquote +:+ ":1}".
Definition json_spaced : string :=
  "{ " +:+ Py.dquote +:+ "a" +:+ Py.dquote +:+ " :" +:+ Py.nl +:+ "   1 }" +:+ Py.nl.
Definition json_pretty : string :=
  "{" +:+ Py.nl +:+ "  " +:+ Py.dquote +:+ "a" +:+ Py.dquote +:+ ": 1" +:+ Py.nl +:+ "}".
(** The text of an object with a key written twice and a string outside
    ASCII (e acute, the euro sign and an emoji, in UTF-8), and what
    [json.dumps] prints for its value. *)
Definition json_accented : string :=
  "{" +:+ Py.dquote +:+ "b" +:+ Py.dquote +:+ ": 1, "
  +:+ Py.dquote +:+ "a" +:+ Py.dquote +:+ ": [" +:+ Py.dquote +:+ "caf"
  +:+ utf8_encode 233 +:+ " " +:+ utf8_encode 8364 +:+ " " +:+ utf8_encode 128512
  +:+ Py.dquote +:+ ", 1.5], "
  +:+ Py.dquote +:+ "b" +:+ Py.dquote +:+ ": -0}".
Definition json_accented_pretty : string :=
  "{" +:+ Py.nl
  +:+ "  " +:+ Py.dquote +:+ "b" +:+ Py.dquote +:+ ": 0," +:+ Py.nl
  +:+ "  " +:+ Py.dquote +:+ "a" +:+ Py.dquote +:+ ": [" +:+ Py.nl
  +:+ "    " +:+ Py.dquote +:+ "caf" +:+ backslash +:+ "u00e9 " +:+ backslash
  +:+ "u20ac " +:+ backslash +:+ "ud83d" +:+ backslash +:+ "ude00" +:+ Py.dquote
  +:+ "," +:+ Py.nl
  +:+ "    1.5" +:+ Py.nl
  +:+ "  ]" +:+ Py.nl
  +:+ "}".
Definition json_accented_store : gmap string (list byte) :=
  {[ "/app/uploads/d.json" := list_byte_of_string json_accented ]}.
Definition json_store : gmap string (list byte) :=
  {[ "/app/uploads/a.json" := list_byte_of_string json_compact;
     "/app/uploads/b.json" := list_byte_of_string json_spaced ]}.

(** A disk with one PDF file on it. *)
Definition pdf_store : gmap string (list byte) :=
  {[ "/app/uploads/x.pdf" := list_byte_of_string "%PDF-1.4" ]}.

(** ** health_check (lines 105-135)

    The dictionary [status] starts with the keys ["status"] and ["service"];
    the two checks add ["database"] and ["storage"] and may turn ["status"]
    into ["degraded"]. The disk of the model holds files, not directories:
    what [Path(UPLOAD_DIR).exists()] and [.is_dir()] answer (or that they
    raise) is given to the handler. *)
Record HealthStatus : Type := {
  hs_status : string;
  hs_service : string;
  hs_database : option string;
  hs_storage : option string
}.

Definition set_database (value : string) (s : HealthStatus) : HealthStatus :=
  {| hs_status := hs_status s; hs_service := hs_service s;
     hs_database := Some value; hs_storage := hs_storage s |}.

Definition set_storage (value : string) (s : HealthStatus) : HealthStatus :=
  {| hs_status := hs_status s; hs_service := hs_service s;
     hs_database := hs_database s; hs_storage := Some value |}.

Definition set_status (value : string) (s : HealthStatus) : HealthStatus :=
  {| hs_status := value; hs_service := hs_service s;
     hs_database := hs_database s; hs_storage := hs_storage s |}.

Definition health_check (env : Env) (dir_exists dir_is_dir : result bool)
  : M HealthStatus :=
  (let status := {| hs_status := "healthy"; hs_service := "file-service";
                    hs_database := None; hs_storage := None |} in
   status <- catch
               (connection <- get_db_connection env 1 ;;
                if module_present connection
                then ret (set_database "healthy" status)
                else ret (set_status "degraded" (set_database "unhealthy" status)))
               (fun _ => ret (set_status "degraded" (set_database "unhealthy" status))) ;;
   status <- catch
               (ok <- lift (e <- dir_exists ;;
                            if e then dir_is_dir else Return false)%result ;;
                if ok
                then ret (set_storage "healthy" status)
                else ret (set_status "degraded" (set_storage "unhealthy" status)))
               (fun _ => ret (set_status "degraded" (set_storage "unhealthy" status))) ;;
   ret status)%world.

(** The seconds slept and the connections attempted in a list of events. *)
Fixpoint total_sleep (events : list event) : Z :=
  match events with
  | [] => 0
  | EvSleep seconds :: rest => seconds + total_sleep rest
  | EvConnect _ :: rest => total_sleep rest
  end.

Fixpoint connect_count (events : list event) : nat :=
  match events with
  | [] => O
  | EvConnect _ :: rest => S (connect_count rest)
  | EvSleep _ :: rest => connect_count rest
  end.

(** What every row written by [upload_files] looks like: a supported
    extension as [file_type], a stored name that ends with it, a path that
    is the stored name inside the upload directory, and a text. *)
Definition row_well_formed (r : Row) : Prop :=
  allowed_extension (row_file_type r) = true
  /\ (exists uuid, row_filename r = uuid +:+ row_file_type r)
  /\ row_file_path r = upload_path (row_filename r)
  /\ exists text, row_extracted_text r = Some text.

(** No dot occurs in the string. *)
Fixpoint no_dot (s : string) : bool :=
  match s with
  | EmptyString => true
  | String c s' => (negb (Ascii.eqb c ".") && no_dot s')%bool
  end.

(** The text a loop of the form [text += line(x) + "\n"] builds. *)
Definition lines_text (lines : list string) : string :=
  List.fold_right (fun line text => line +:+ Py.nl +:+ text) EmptyString lines.

(** The text extracted from a file of given bytes, format by format: the
    text of the file; the lines of the pages, of the paragraphs and of the
    rows that the parser read; the value that [json.load] read, printed by
    [json.dumps]. *)
Inductive extracted_from (libs : Libs) (content : list byte)
  : string -> string -> Prop :=
| extracted_plain file_ext :
    file_ext = ".txt" \/ file_ext = ".md" ->
    extracted_from libs content file_ext (read_text libs content)
| extracted_pdf pdf texts :
    PyPDF2 libs = Some pdf ->
    PdfReader_pages pdf content = Return (List.map Return texts) ->
    extracted_from libs content ".pdf" (lines_text texts)
| extracted_docx d paragraphs :
    docx libs = Some d ->
    Document_paragraphs d content = Return paragraphs ->
    extracted_from libs content ".docx" (lines_text paragraphs)
| extracted_csv rows :
    csv_reader libs (read_text libs content) = Return rows ->
    extracted_from libs content ".csv" (lines_text (List.map (Py.join ", ") rows))
| extracted_json data text :
    json_load libs (read_text libs content) = Return data ->
    json_dumps libs data 2 = Return text ->
    extracted_from libs content ".json" text.

(** The row [execute_insert] writes for a file of a batch, and the world
    after the file has gone through the loop on a server that accepts the
    connection and the row. *)
Definition inserted_row (env : Env) (session_id : string) (file : UploadFile)
  (text : string) (w : World) : Row :=
  {| row_id := auto_increment w;
     row_session_id := session_id;
     row_filename := uuid4 env (uuid_calls w) +:+ file_ext_of file;
     row_original_name := uf_filename file;
     row_file_type := file_ext_of file;
     row_file_size := Py.len (uf_content file);
     row_file_path := stored_path env (uuid_calls w) file;
     row_extracted_text := Some text;
     row_upload_date := server_time env (connect_calls w) |}.

Definition world_after_upload (env : Env) (session_id : string) (file : UploadFile)
  (text : string) (w : World) : World :=
  {| content_store := <[stored_path env (uuid_calls w) file := uf_content file]>
                        (content_store w);
     uploaded_files_table :=
       (uploaded_files_table w ++ [inserted_row env session_id file text w])%list;
     auto_increment := auto_increment w + 1;
     connect_calls := S (connect_calls w);
     uuid_calls := S (uuid_calls w);
     trace := (trace w ++ [EvConnect 0])%list |}.

(** The text extracted from a file once it is written under its path. *)
Definition text_of_upload (libs : Libs) (env : Env) (file : UploadFile) (w : World)
  : result string :=
  extract_text_from_file libs
    (<[stored_path env (uuid_calls w) file := uf_content file]> (content_store w))
    (stored_path env (uuid_calls w) file) (file_ext_of file).

(** Libraries for the examples: a PDF reader that finds two pages, one
    whose second page cannot be read, and a DOCX reader that finds two
    paragraphs. *)
Definition pdf_two_pages : PyPDF2_module :=
  {| PdfReader_pages := fun _ => Return [Return "page one"; Return "page two"] |}.

Definition pdf_bad_second_page : PyPDF2_module :=
  {| PdfReader_pages :=
       fun _ => Return [Return "page one"; Raise (LibraryError "bad stream");
                        Return "page three"] |}.

Definition docx_two_paragraphs : docx_module :=
  {| Document_paragraphs := fun _ => Return ["first"; "second"] |}.

Definition libs_with (pdf : PyPDF2_module) : Libs :=
  {| PyPDF2 := Some pdf;
     docx := Some docx_two_paragraphs;
     read_text := string_of_list_byte;
     csv_reader := Reference.csv_rows;
     json_float := fun s => s;
     int_max_str_digits := 4300;
     json_load_depth := 900;
     json_dumps_depth := 900;
     isoformat := Py.str_int |}.

(** A disk with one file on it, whatever it is taken to be. *)
Definition one_file_store : gmap string (list byte) :=
  {[ "/app/uploads/f" := list_byte_of_string "a,b" ]}.

(** A server that accepts the connection and refuses the row. *)
Definition env_rejecting : Env :=
  {| mysql_connect := fun _ => ConnectOpen;
     insert_rejected := fun _ => Some "Data too long for column 'extracted_text'";
     remove_refused := fun _ => None;
     server_time := fun n => 1700000000 + Z.of_nat n;
     uuid4 := fun n => "0000-" +:+ Py.str_int (Z.of_nat n) |}.

(** The extensions for which [extract_text_from_file] has a branch. *)
Definition extractor_extensions : list string :=
  [".txt"; ".md"; ".pdf"; ".docx"; ".csv"; ".json"].

(** The dictionary returned for a file that went through the loop. *)
Definition summary_of (env : Env) (file : UploadFile) (text : string) (w : World)
  : FileSummary :=
  {| fi_id := auto_increment w;
     fi_filename := uuid4 env (uuid_calls w) +:+ file_ext_of file;
     fi_original_name := uf_filename file;
     fi_file_type := file_ext_of file;
     fi_file_size := Py.len (uf_content file);
     fi_has_text := Py.truthy (Some text);
     fi_file_path := stored_path env (uuid_calls w) file |}.

(** A server that is always there and takes every row. *)
Definition always_accepts (env : Env) : Prop :=
  (forall n, mysql_connect env n = ConnectOpen)
  /\ (forall row, insert_rejected env row = None).

(** No row of the table has the key the server will assign next. *)
Definition next_key_fresh (w : World) : Prop :=
  forall r, In r (uploaded_files_table w) -> row_id r <> auto_increment w.

(** A table with one row whose path is the upload directory, and a server
    and disk on which [os.remove] refuses that directory. *)
Definition directory_row : Row :=
  {| row_id := 1;
     row_session_id := "s1";
     row_filename := "uploads";
     row_original_name := "uploads";
     row_file_type := ".txt";
     row_file_size := 5;
     row_file_path := UPLOAD_DIR;
     row_extracted_text := Some "hello";
     row_upload_date := 100 |}.

Definition world_directory_row : World :=
  {| content_store := ∅;
     uploaded_files_table := [directory_row];
     auto_increment := 2;
     connect_calls := 0;
     uuid_calls := 0;
     trace := [] |}.

Definition env_directory : Env :=
  {| mysql_connect := fun _ => ConnectOpen;
     insert_rejected := fun _ => None;
     remove_refused :=
       fun p => if String.eqb p UPLOAD_DIR
                then Some "[Errno 21] Is a directory: '/app/uploads'"
                else None;
     server_time := fun n => 1700000000 + Z.of_nat n;
     uuid4 := fun n => "0000-" +:+ Py.str_int (Z.of_nat n) |}.

(** * Properties *)

(** ** The monad *)

Lemma bind_Return {A B} (m : M A) (k : A -> M B) w a w' :
  m w = (Return a, w') -> bind m k w = k a w'.
Proof. intros H. unfold bind. now rewrite H. Qed.

Lemma bind_Raise {A B} (m : M A) (k : A -> M B) w e w' :
  m w = (Raise e, w') -> bind m k w = (Raise e, w').
Proof. intros H. unfold bind. now rewrite H. Qed.

Lemma catch_Return {A} (m : M A) (h : exn -> M A) w a w' :
  m w = (Return a, w') -> catch m h w = (Return a, w').
Proof. intros H. unfold catch. now rewrite H. Qed.

Lemma catch_Raise {A} (m : M A) (h : exn -> M A) w e w' :
  m w = (Raise e, w') -> catch m h w = h e w'.
Proof. intros H. unfold catch. now rewrite H. Qed.

Lemma same_data_refl w : same_data w w.
Proof. now repeat split. Qed.

Lemma same_data_trans w1 w2 w3 :
  same_data w1 w2 -> same_data w2 w3 -> same_data w1 w3.
Proof.
  unfold same_data. intros (a & b & c & d) (a' & b' & c' & d').
  repeat split; congruence.
Qed.

Lemma same_data_record_connect attempt w : same_data w (record_connect attempt w).
Proof. now repeat split. Qed.

Lemma same_data_sleep seconds w : same_data w (sleep seconds w).
Proof. now repeat split. Qed.

(** ** get_db_connection *)

(** The loop never raises, and it touches neither the disk nor the table. *)
Lemma get_db_connection_loop_total env max_retries remaining :
  forall attempt w,
  exists c w', get_db_connection_loop env max_retries attempt remaining w = (Return c, w')
               /\ same_data w w'.
Proof.
  induction remaining as [|k IH]; intros attempt w; simpl.
  - exists None, w. split; [reflexivity | apply same_data_refl].
  - destruct (mysql_connect env (connect_calls w)) as [| |msg].
    + eexists _, _. split; [reflexivity | apply same_data_record_connect].
    + destruct (IH (attempt + 1) (record_connect attempt w)) as (c & w' & Hrun & Hsame).
      exists c, w'. split; [exact Hrun |].
      eapply same_data_trans; [apply same_data_record_connect | exact Hsame].
    + destruct (attempt <? max_retries - 1).
      * destruct (IH (attempt + 1) (sleep (2 ^ attempt) (record_connect attempt w)))
          as (c & w' & Hrun & Hsame).
        exists c, w'. split; [exact Hrun |].
        eapply same_data_trans; [apply same_data_record_connect |].
        eapply same_data_trans; [apply same_data_sleep | exact Hsame].
      * eexists _, _. split; [reflexivity | apply same_data_record_connect].
Qed.

Lemma get_db_connection_total env max_retries w :
  exists c w', get_db_connection env max_retries w = (Return c, w') /\ same_data w w'.
Proof. apply get_db_connection_loop_total. Qed.

(** In a handler: name the outcome [c] of [get_db_connection] and the world
    [w'] it leaves, in which the table is the table of [w]. *)
Ltac connect_then env w c w' Htable :=
  let Hrun := fresh "Hrun" in
  destruct (get_db_connection_total env default_max_retries w)
    as (c & w' & Hrun & (_ & Htable & _));
  rewrite Hrun.

(** A server that accepts the next connection is reached at the first attempt. *)
Lemma get_db_connection_first_attempt env max_retries w :
  0 < max_retries ->
  mysql_connect env (connect_calls w) = ConnectOpen ->
  get_db_connection env max_retries w
  = (Return (Some (Connection (connect_calls w))), record_connect 0 w).
Proof.
  intros Hpos Hopen. unfold get_db_connection.
  destruct (Z.to_nat max_retries) as [|k] eqn:Hk; [lia |].
  simpl. now rewrite Hopen.
Qed.

(** The first open connection is returned, whatever the earlier attempts
    did, as long as it comes within the [max_retries] attempts. *)
Lemma get_db_connection_loop_first_open env max_retries :
  forall k remaining attempt w,
  attempt + Z.of_nat remaining = max_retries ->
  (k < remaining)%nat ->
  mysql_connect env (connect_calls w + k) = ConnectOpen ->
  (forall j, (j < k)%nat -> mysql_connect env (connect_calls w + j) <> ConnectOpen) ->
  fst (get_db_connection_loop env max_retries attempt remaining w)
  = Return (Some (Connection (connect_calls w + k))).
Proof.
  induction k as [|k IH]; intros remaining attempt w Hsum Hlt Hopen Hearlier;
    destruct remaining as [|r]; try lia; simpl.
  - rewrite Nat.add_0_r in Hopen. rewrite Hopen. simpl. now rewrite Nat.add_0_r.
  - pose proof (Hearlier O ltac:(lia)) as Hfirst. rewrite Nat.add_0_r in Hfirst.
    assert (Hnext : forall w1, connect_calls w1 = S (connect_calls w) ->
              fst (get_db_connection_loop env max_retries (attempt + 1) r w1)
              = Return (Some (Connection (connect_calls w + S k)))).
    { intros w1 Hcalls. rewrite Nat.add_succ_r, <- Nat.add_succ_l, <- Hcalls.
      apply IH; [lia | lia | |].
      - rewrite Hcalls. simpl. now rewrite <- Nat.add_succ_r.
      - intros j Hj. rewrite Hcalls. simpl. rewrite <- Nat.add_succ_r.
        apply Hearlier. lia. }
    destruct (mysql_connect env (connect_calls w)) as [| |msg]; [contradiction | |].
    + now apply Hnext.
    + replace (attempt <? max_retries - 1) with true
        by (symmetry; apply Z.ltb_lt; lia).
      now apply Hnext.
Qed.

Lemma get_db_connection_first_open env max_retries w k :
  (k < Z.to_nat max_retries)%nat ->
  mysql_connect env (connect_calls w + k) = ConnectOpen ->
  (forall j, (j < k)%nat -> mysql_connect env (connect_calls w + j) <> ConnectOpen) ->
  fst (get_db_connection env max_retries w)
  = Return (Some (Connection (connect_calls w + k))).
Proof.
  intros Hlt. apply get_db_connection_loop_first_open; [lia | exact Hlt].
Qed.

(** When every call from the current one on raises, the loop returns [None]
    and its events are the backoff schedule. *)
Lemma get_db_connection_loop_all_errors env max_retries remaining :
  forall attempt w,
  (forall n, (connect_calls w <= n)%nat -> exists msg, mysql_connect env n = ConnectError msg) ->
  exists w',
    get_db_connection_loop env max_retries attempt remaining w = (Return None, w')
    /\ trace w' = (trace w ++ backoff_trace max_retries attempt remaining)%list
    /\ same_data w w'.
Proof.
  induction remaining as [|k IH]; intros attempt w Herr; simpl.
  - exists w. rewrite app_nil_r. repeat split.
  - destruct (Herr (connect_calls w)) as [msg Hmsg]; [lia |]. rewrite Hmsg.
    destruct (attempt <? max_retries - 1).
    + destruct (IH (attempt + 1) (sleep (2 ^ attempt) (record_connect attempt w)))
        as (w' & Hrun & Htrace & Hsame).
      { intros n Hn. apply Herr. simpl in Hn. lia. }
      exists w'. split; [exact Hrun |]. split.
      * rewrite Htrace. simpl. now rewrite <- !app_assoc.
      * eapply same_data_trans; [apply same_data_record_connect |].
        eapply same_data_trans; [apply same_data_sleep | exact Hsame].
    + eexists. split; [reflexivity |]. split; [reflexivity |].
      apply same_data_record_connect.
Qed.

(** With the default of five attempts against a server that is down: five
    attempts, and sleeps of 1, 2, 4 and 8 seconds between them. *)
Example get_db_connection_server_down :
  fst (get_db_connection Reference.env_down default_max_retries Reference.world0)
  = Return None
  /\ trace (snd (get_db_connection Reference.env_down default_max_retries
                   Reference.world0))
     = [EvConnect 0; EvSleep 1; EvConnect 1; EvSleep 2; EvConnect 2;
        EvSleep 4; EvConnect 3; EvSleep 8; EvConnect 4].
Proof. split; vm_compute; reflexivity. Qed.

(** C6. The claim: a wait of [2 ^ attempt] between failed attempts. The
    code, on a server whose first connection comes back not connected and
    whose second is open, with [max_retries = 2]: attempt 0 fails, attempt 1
    follows at once and succeeds, and no sleep lies between the two. The
    [if connection.is_connected()] of line 72 has no other branch, so such
    an attempt leaves the [try] without reaching the [time.sleep] of the
    [except] clause. *)
Theorem get_db_connection_no_wait_after_closed_connection :
  mysql_connect Reference.env_flaky 0 = ConnectClosed
  /\ fst (get_db_connection Reference.env_flaky 2 Reference.world0)
     = Return (Some (Connection 1))
  /\ trace (snd (get_db_connection Reference.env_flaky 2 Reference.world0))
     = [EvConnect 0; EvConnect 1].
Proof. repeat split; vm_compute; reflexivity. Qed.

(** ** extract_text_from_file *)

Lemma open_read_Some fs file_path content :
  fs !! file_path = Some content -> open_read fs file_path = Return content.
Proof. intros H. unfold open_read. now rewrite H. Qed.

Lemma try_except_returns {A} (body : result A) (fallback : A) :
  exists a, try_except body (fun _ => Return fallback) = Return a.
Proof. destruct body as [a|e]; simpl; eauto. Qed.

Lemma extract_text_returns libs fs file_path file_ext :
  exists text, extract_text_from_file libs fs file_path file_ext = Return text.
Proof. unfold extract_text_from_file. apply try_except_returns. Qed.

Lemma append_cons c s t : String c s +:+ t = String c (s +:+ t).
Proof. reflexivity. Qed.

Lemma append_nil t : EmptyString +:+ t = t.
Proof. reflexivity. Qed.

Lemma append_assoc s t u : (s +:+ t) +:+ u = s +:+ t +:+ u.
Proof.
  induction s as [|c s IH]; [reflexivity |]. rewrite !append_cons. now rewrite IH.
Qed.

Lemma lines_text_app lines1 lines2 :
  lines_text (lines1 ++ lines2) = lines_text lines1 +:+ lines_text lines2.
Proof.
  induction lines1 as [|l rest IH]; simpl; [reflexivity |].
  rewrite IH. unfold lines_text at 2. simpl. fold (lines_text rest).
  now rewrite !append_assoc.
Qed.

Lemma append_empty_r s : s +:+ EmptyString = s.
Proof. induction s as [|c s IH]; [reflexivity |]. rewrite append_cons. now rewrite IH. Qed.

Lemma pdf_pages_text_lines texts :
  forall text,
  pdf_pages_text (List.map Return texts) text = Return (text +:+ lines_text texts).
Proof.
  induction texts as [|t rest IH]; intros text; simpl.
  - now rewrite append_empty_r.
  - rewrite IH. now rewrite !append_assoc.
Qed.

Lemma paragraphs_text_lines paragraphs :
  forall text, paragraphs_text paragraphs text = text +:+ lines_text paragraphs.
Proof.
  induction paragraphs as [|p rest IH]; intros text; simpl.
  - now rewrite append_empty_r.
  - rewrite IH. now rewrite !append_assoc.
Qed.

Lemma csv_rows_text_lines rows :
  forall text,
  csv_rows_text rows text = text +:+ lines_text (List.map (Py.join ", ") rows).
Proof.
  induction rows as [|row rest IH]; intros text; simpl.
  - now rewrite append_empty_r.
  - rewrite IH. now rewrite !append_assoc.
Qed.

(** The loop over the pages returns only when every page gave its text. *)
Lemma pdf_pages_text_returns pages :
  forall text t,
  pdf_pages_text pages text = Return t ->
  exists texts, pages = List.map Return texts /\ t = text +:+ lines_text texts.
Proof.
  induction pages as [|[page|e] rest IH]; intros text t Hrun; simpl in Hrun.
  - injection Hrun as <-. exists []. split; [reflexivity |].
    now rewrite append_empty_r.
  - destruct (IH _ _ Hrun) as (texts & -> & ->).
    exists (page :: texts). split; [reflexivity |].
    simpl. now rewrite !append_assoc.
  - discriminate.
Qed.

(** C4. Whatever the bytes on disk (or their absence), whatever the
    extension and whatever the parsing libraries do, the extractor does not
    raise: it returns a string, and that string is one of the six
    placeholders or the text extracted from the file that is on disk: the
    text of the file for [.txt] and [.md], the lines of the pages, of the
    paragraphs, of the rows that the parser read for [.pdf], [.docx] and
    [.csv], and what [json.dumps] prints of the value [json.load] read for
    [.json]. *)
Theorem extract_text_never_raises (libs : Libs) (fs : gmap string (list byte))
  (file_path file_ext : string) :
  exists text,
    extract_text_from_file libs fs file_path file_ext = Return text
    /\ (In text placeholders
        \/ exists content,
             fs !! file_path = Some content
             /\ extracted_from libs content file_ext text).
Proof.
  unfold extract_text_from_file, open_read.
  destruct (fs !! file_path) as [content|] eqn:Hfile.
  - destruct (String.eqb file_ext ".txt" || String.eqb file_ext ".md")%bool eqn:Hplain.
    { eexists. split; [reflexivity |]. right. exists content. split; [reflexivity |].
      apply extracted_plain. apply orb_true_iff in Hplain as [H | H];
        apply String.eqb_eq in H; auto. }
    destruct (String.eqb file_ext ".pdf") eqn:Hpdf.
    { apply String.eqb_eq in Hpdf as ->.
      destruct (PyPDF2 libs) as [pdf|] eqn:Hlib; simpl.
      - destruct (PdfReader_pages pdf content) as [pages|e] eqn:Hpages; simpl.
        + destruct (pdf_pages_text pages EmptyString) as [t|e] eqn:Hrun; simpl.
          * destruct (pdf_pages_text_returns _ _ _ Hrun) as (texts & -> & ->).
            eexists. split; [reflexivity |]. right. exists content.
            split; [reflexivity |]. rewrite append_nil.
            now apply (extracted_pdf libs content pdf texts).
          * eexists. split; [reflexivity |]. left. simpl. auto.
        + eexists. split; [reflexivity |]. left. simpl. auto.
      - destruct (docx libs); simpl; eexists; (split; [reflexivity |]);
          left; simpl; auto 10. }
    destruct (String.eqb file_ext ".docx") eqn:Hdocx.
    { apply String.eqb_eq in Hdocx as ->.
      destruct (docx libs) as [d|] eqn:Hlib; simpl.
      - destruct (Document_paragraphs d content) as [paragraphs|e] eqn:Hdoc; simpl.
        + eexists. split; [reflexivity |]. right. exists content.
          split; [reflexivity |]. rewrite paragraphs_text_lines, append_nil.
          now apply (extracted_docx libs content d paragraphs).
        + eexists. split; [reflexivity |]. left. simpl. auto.
      - eexists. split; [reflexivity |]. left. simpl. auto 10. }
    simpl.
    destruct (String.eqb file_ext ".csv") eqn:Hcsv.
    { apply String.eqb_eq in Hcsv as ->.
      destruct (csv_reader libs (read_text libs content)) as [rows|e] eqn:Hrows; simpl.
      - eexists. split; [reflexivity |]. right. exists content.
        split; [reflexivity |]. rewrite csv_rows_text_lines, append_nil.
        now apply extracted_csv.
      - eexists. split; [reflexivity |]. left. simpl. auto. }
    destruct (String.eqb file_ext ".json") eqn:Hjson.
    { apply String.eqb_eq in Hjson as ->.
      destruct (json_load libs (read_text libs content)) as [data|e] eqn:Hload; simpl.
      - destruct (json_dumps libs data 2) as [text|e] eqn:Hdumps; simpl.
        + eexists. split; [reflexivity |]. right. exists content.
          split; [reflexivity |]. now apply (extracted_json libs content data).
        + eexists. split; [reflexivity |]. left. simpl. auto 10.
      - eexists. split; [reflexivity |]. left. simpl. auto 10. }
    eexists. split; [reflexivity |]. left. simpl. auto 10.
  - destruct (extract_text_returns libs fs file_path file_ext) as [text Htext].
    unfold extract_text_from_file, open_read in Htext. rewrite Hfile in Htext.
    exists text. split; [exact Htext |]. left.
    destruct (String.eqb file_ext ".txt" || String.eqb file_ext ".md")%bool;
      [simpl in Htext; injection Htext as <-; simpl; auto 10 |].
    destruct (String.eqb file_ext ".pdf" && module_present (PyPDF2 libs))%bool;
      [simpl in Htext; injection Htext as <-; simpl; auto 10 |].
    destruct (String.eqb file_ext ".docx" && module_present (docx libs))%bool;
      [simpl in Htext; injection Htext as <-; simpl; auto 10 |].
    destruct (String.eqb file_ext ".csv");
      [simpl in Htext; injection Htext as <-; simpl; auto 10 |].
    destruct (String.eqb file_ext ".json");
      simpl in Htext; injection Htext as <-; simpl; auto 10.
Qed.

(** The branches of the extractor, one by one. *)
Lemma extract_text_plain libs fs file_path file_ext content :
  file_ext = ".txt" \/ file_ext = ".md" ->
  fs !! file_path = Some content ->
  extract_text_from_file libs fs file_path file_ext = Return (read_text libs content).
Proof.
  intros Hext Hfile. unfold extract_text_from_file.
  rewrite (open_read_Some _ _ _ Hfile).
  destruct Hext as [-> | ->]; reflexivity.
Qed.

Lemma extract_text_missing_file libs fs file_path file_ext :
  fs !! file_path = None ->
  exists p, In p placeholders
            /\ extract_text_from_file libs fs file_path file_ext = Return p.
Proof.
  intros Hfile. unfold extract_text_from_file, open_read. rewrite Hfile.
  unfold placeholders.
  destruct (String.eqb file_ext ".txt" || String.eqb file_ext ".md")%bool;
    [simpl; eauto 10 |].
  destruct (String.eqb file_ext ".pdf" && module_present (PyPDF2 libs))%bool;
    [simpl; eauto 10 |].
  destruct (String.eqb file_ext ".docx" && module_present (docx libs))%bool;
    [simpl; eauto 10 |].
  destruct (String.eqb file_ext ".csv"); [simpl; eauto 10 |].
  destruct (String.eqb file_ext ".json"); simpl; eauto 10.
Qed.

(** A PDF that the library cannot read gives the PDF placeholder. *)
Lemma extract_text_pdf_parse_failure libs fs file_path pdf content e :
  PyPDF2 libs = Some pdf ->
  fs !! file_path = Some content ->
  PdfReader_pages pdf content = Raise e ->
  extract_text_from_file libs fs file_path ".pdf" = Return PDF_PLACEHOLDER.
Proof.
  intros Hlib Hfile Hparse. unfold extract_text_from_file.
  rewrite (open_read_Some _ _ _ Hfile), Hlib. simpl. now rewrite Hparse.
Qed.

(** C3, as the claim states it, fails: in a runtime without [PyPDF2] a
    [.pdf] file does not get the PDF placeholder, while a parse failure of
    an installed [PyPDF2] on the same file does. *)
Lemma pdf_unavailable_not_pdf_placeholder :
  PyPDF2 Reference.libs = None
  /\ extract_text_from_file Reference.libs pdf_store "/app/uploads/x.pdf" ".pdf"
     = Return UNSUPPORTED_PLACEHOLDER
  /\ UNSUPPORTED_PLACEHOLDER <> PDF_PLACEHOLDER
  /\ extract_text_from_file Reference.libs_with_pdf pdf_store "/app/uploads/x.pdf" ".pdf"
     = Return PDF_PLACEHOLDER.
Proof.
  split; [reflexivity |]. split; [vm_compute; reflexivity |].
  split; [discriminate | vm_compute; reflexivity].
Qed.

(** C3, amended. When [PyPDF2] could not be imported, the guard
    [file_ext == '.pdf' and PyPDF2] of line 324 is false, no later branch
    takes [.pdf], and the extractor returns (it does not raise) the
    placeholder of the final [else]: the file type is reported as not
    supported for text extraction. *)
Theorem extract_text_pdf_unavailable (libs : Libs) (fs : gmap string (list byte))
  (file_path : string) :
  PyPDF2 libs = None ->
  extract_text_from_file libs fs file_path ".pdf" = Return UNSUPPORTED_PLACEHOLDER.
Proof.
  intros Hnone. unfold extract_text_from_file. rewrite Hnone. reflexivity.
Qed.

Lemma extract_text_pdf_unavailable_witness :
  PyPDF2 Reference.libs = None
  /\ extract_text_from_file Reference.libs ∅ "/app/uploads/x.pdf" ".pdf"
     = Return UNSUPPORTED_PLACEHOLDER.
Proof.
  split; [reflexivity |].
  apply (extract_text_pdf_unavailable Reference.libs ∅ "/app/uploads/x.pdf").
  reflexivity.
Defined.

(** ** json.load and white space *)

Lemma lex_out_cons c s :
  lex_out (String c s)
  = if is_json_ws c then lex_out s
    else if is_quote c then
      match lex_str s with
      | Some (raw, ts) => Some (TString raw :: ts)
      | None => None
      end
    else if is_punct c then
      match lex_out s with
      | Some ts => Some (TPunct c :: ts)
      | None => None
      end
    else
      match lex_word s with
      | Some (w, ts) => Some (TWord (String c w) :: ts)
      | None => None
      end.
Proof. reflexivity. Qed.

Lemma lex_word_cons c s :
  lex_word (String c s)
  = if is_json_ws c then
      match lex_out s with
      | Some ts => Some (EmptyString, ts)
      | None => None
      end
    else if is_quote c then
      match lex_str s with
      | Some (raw, ts) => Some (EmptyString, TString raw :: ts)
      | None => None
      end
    else if is_punct c then
      match lex_out s with
      | Some ts => Some (EmptyString, TPunct c :: ts)
      | None => None
      end
    else
      match lex_word s with
      | Some (w, ts) => Some (String c w, ts)
      | None => None
      end.
Proof. reflexivity. Qed.

Lemma lex_str_cons c s :
  lex_str (String c s)
  = if is_quote c then
      match lex_out s with
      | Some ts => Some (EmptyString, ts)
      | None => None
      end
    else if is_backslash c then
      match s with
      | EmptyString => None
      | String e s'' =>
          match lex_str s'' with
          | Some (raw, ts) => Some (String c (String e raw), ts)
          | None => None
          end
      end
    else
      match lex_str s with
      | Some (raw, ts) => Some (String c raw, ts)
      | None => None
      end.
Proof. reflexivity. Qed.

Lemma minify_cons c s :
  minify (String c s)
  = if is_json_ws c then minify s
    else if is_quote c then String c (minify_in s)
    else String c (minify s).
Proof. reflexivity. Qed.

Lemma minify_in_cons c s :
  minify_in (String c s)
  = if is_quote c then String c (minify s)
    else if is_backslash c then
      match s with
      | EmptyString => String c EmptyString
      | String e s'' => String c (String e (minify_in s''))
      end
    else String c (minify_in s).
Proof. reflexivity. Qed.

Lemma separated_cons t ts :
  separated (t :: ts) = true ->
  (is_word t = true -> starts_with_word ts = false) /\ separated ts = true.
Proof.
  simpl. intros H. apply andb_true_iff in H as [H1 H2]. split; [| exact H2].
  intros Hw. rewrite Hw in H1. simpl in H1. now apply negb_true_iff in H1.
Qed.

(** The tokens of a text in which no two words follow each other are the
    tokens of the text without its white space: from outside a token, from
    the end of a word, from inside a word and from inside a string. *)
Lemma lex_minify_bounded n :
  forall s, (String.length s <= n)%nat ->
  (forall ts, lex_out s = Some ts -> separated ts = true ->
              lex_out (minify s) = Some ts)
  /\ (forall ts, lex_out s = Some ts -> separated ts = true ->
                 starts_with_word ts = false ->
                 lex_word (minify s) = Some (EmptyString, ts))
  /\ (forall w ts, lex_word s = Some (w, ts) -> separated ts = true ->
                   starts_with_word ts = false ->
                   lex_word (minify s) = Some (w, ts))
  /\ (forall raw ts, lex_str s = Some (raw, ts) -> separated ts = true ->
                     lex_str (minify_in s) = Some (raw, ts)).
Proof.
  induction n as [|n IH]; intros s Hlen; destruct s as [|c s'];
    try (simpl in Hlen; lia).
  - repeat split; intros; simpl in *; congruence.
  - repeat split; intros; simpl in *; congruence.
  - simpl in Hlen.
    destruct (IH s' ltac:(lia)) as (Hout & Hend & Hword & Hstr).
    split; [| split; [| split]].
    + (* outside a token *)
      intros ts Hlex Hsep. rewrite lex_out_cons in Hlex. rewrite minify_cons.
      destruct (is_json_ws c) eqn:Hws; [now apply Hout |].
      destruct (is_quote c) eqn:Hq.
      * rewrite lex_out_cons, Hws, Hq.
        destruct (lex_str s') as [[raw ts']|] eqn:Hs; [| discriminate].
        injection Hlex as <-. apply separated_cons in Hsep as [_ Hsep].
        now rewrite (Hstr raw ts' eq_refl Hsep).
      * rewrite lex_out_cons, Hws, Hq.
        destruct (is_punct c) eqn:Hp.
        -- destruct (lex_out s') as [ts'|] eqn:Hs; [| discriminate].
           injection Hlex as <-. apply separated_cons in Hsep as [_ Hsep].
           now rewrite (Hout ts' eq_refl Hsep).
        -- destruct (lex_word s') as [[w ts']|] eqn:Hs; [| discriminate].
           injection Hlex as <-. apply separated_cons in Hsep as [Hnext Hsep].
           now rewrite (Hword w ts' eq_refl Hsep (Hnext eq_refl)).
    + (* at the end of a word *)
      intros ts Hlex Hsep Hnoword. rewrite lex_out_cons in Hlex. rewrite minify_cons.
      destruct (is_json_ws c) eqn:Hws; [now apply Hend |].
      destruct (is_quote c) eqn:Hq.
      * rewrite lex_word_cons, Hws, Hq.
        destruct (lex_str s') as [[raw ts']|] eqn:Hs; [| discriminate].
        injection Hlex as <-. apply separated_cons in Hsep as [_ Hsep].
        now rewrite (Hstr raw ts' eq_refl Hsep).
      * rewrite lex_word_cons, Hws, Hq.
        destruct (is_punct c) eqn:Hp.
        -- destruct (lex_out s') as [ts'|] eqn:Hs; [| discriminate].
           injection Hlex as <-. apply separated_cons in Hsep as [_ Hsep].
           now rewrite (Hout ts' eq_refl Hsep).
        -- destruct (lex_word s') as [[w ts']|] eqn:Hs; [| discriminate].
           injection Hlex as <-. discriminate Hnoword.
    + (* inside a word *)
      intros w ts Hlex Hsep Hnoword. rewrite lex_word_cons in Hlex. rewrite minify_cons.
      destruct (is_json_ws c) eqn:Hws.
      * destruct (lex_out s') as [ts'|] eqn:Hs; [| discriminate].
        injection Hlex as <- <-. now apply Hend.
      * destruct (is_quote c) eqn:Hq.
        -- rewrite lex_word_cons, Hws, Hq.
           destruct (lex_str s') as [[raw ts']|] eqn:Hs; [| discriminate].
           injection Hlex as <- <-. apply separated_cons in Hsep as [_ Hsep].
           now rewrite (Hstr raw ts' eq_refl Hsep).
        -- rewrite lex_word_cons, Hws, Hq.
           destruct (is_punct c) eqn:Hp.
           ++ destruct (lex_out s') as [ts'|] eqn:Hs; [| discriminate].
              injection Hlex as <- <-. apply separated_cons in Hsep as [_ Hsep].
              now rewrite (Hout ts' eq_refl Hsep).
           ++ destruct (lex_word s') as [[w' ts']|] eqn:Hs; [| discriminate].
              injection Hlex as <- <-.
              now rewrite (Hword w' ts' eq_refl Hsep Hnoword).
    + (* inside a string *)
      intros raw ts Hlex Hsep. rewrite lex_str_cons in Hlex. rewrite minify_in_cons.
      destruct (is_quote c) eqn:Hq.
      * rewrite lex_str_cons, Hq.
        destruct (lex_out s') as [ts'|] eqn:Hs; [| discriminate].
        injection Hlex as <- <-. now rewrite (Hout ts' eq_refl Hsep).
      * destruct (is_backslash c) eqn:Hb.
        -- destruct s' as [|e s'']; [discriminate |].
           simpl in Hlen.
           destruct (IH s'' ltac:(lia)) as (_ & _ & _ & Hstr2).
           rewrite lex_str_cons, Hq, Hb.
           destruct (lex_str s'') as [[raw' ts']|] eqn:Hs; [| discriminate].
           injection Hlex as <- <-. now rewrite (Hstr2 raw' ts' eq_refl Hsep).
        -- rewrite lex_str_cons, Hq, Hb.
           destruct (lex_str s') as [[raw' ts']|] eqn:Hs; [| discriminate].
           injection Hlex as <- <-. now rewrite (Hstr raw' ts' eq_refl Hsep).
Qed.

Lemma lex_minify s ts :
  lex_out s = Some ts -> separated ts = true -> lex_out (minify s) = Some ts.
Proof.
  intros Hlex Hsep.
  destruct (lex_minify_bounded (String.length s) s (Nat.le_refl _)) as (Hout & _).
  now apply Hout.
Qed.

(** After a value, a word is refused. *)
Lemma complete_then_word libs v stack st w :
  complete v stack = Some st -> parser_step libs st (TWord w) = None.
Proof.
  destruct stack as [|[items | members | members key] below]; simpl;
    intros H; try discriminate; injection H as <-; reflexivity.
Qed.

Lemma word_then_word libs st st' a b :
  parser_step libs st (TWord a) = Some st' ->
  parser_step libs st' (TWord b) = None.
Proof.
  destruct st as [stack e]. destruct e; simpl; try discriminate;
    try (destruct stack as [|[| |] ?]; discriminate);
    destruct (word_value libs a) as [v|]; try discriminate;
    apply complete_then_word.
Qed.

(** A text the decoder accepts has no two words in a row. *)
Lemma parse_tokens_separated libs ts :
  forall st data, parse_tokens libs st ts = Some data -> separated ts = true.
Proof.
  induction ts as [|t rest IH]; intros st data Hparse; [reflexivity |].
  simpl in Hparse.
  destruct (parser_step libs st t) as [st'|] eqn:Hstep; [| discriminate].
  simpl. rewrite (IH st' data Hparse), andb_true_r.
  apply negb_true_iff. destruct t as [c | raw | a]; try reflexivity.
  destruct rest as [|[c | raw | b] rest']; try reflexivity.
  simpl in Hparse. now rewrite (word_then_word libs st st' a b Hstep) in Hparse.
Qed.

(** White space between the tokens of a text the decoder accepts can be
    taken out: the text without it is accepted, with the same value. *)
Lemma json_load_minify libs text data :
  json_load libs text = Return data ->
  json_load libs (minify text) = Return data.
Proof.
  unfold json_load. intros Hload.
  destruct (lex_out text) as [ts|] eqn:Hlex; [| discriminate].
  destruct (parse_tokens libs ([], EValue) ts) as [v|] eqn:Hparse; [| discriminate].
  rewrite (lex_minify text ts Hlex (parse_tokens_separated libs ts _ _ Hparse)).
  now rewrite Hparse.
Qed.

(** Two texts the decoder accepts, the same once their white space is
    taken out, have the same value. *)
Lemma json_load_whitespace libs text text' data data' :
  json_load libs text = Return data ->
  json_load libs text' = Return data' ->
  minify text = minify text' ->
  data = data'.
Proof.
  intros Hload Hload' Hsame.
  apply json_load_minify in Hload, Hload'.
  rewrite Hsame in Hload. rewrite Hload in Hload'. now injection Hload'.
Qed.

(** The extractor on a file that [json.load] reads: what [json.dumps]
    does with the value. *)
Lemma extract_text_json_loaded libs fs file_path content data :
  fs !! file_path = Some content ->
  json_load libs (read_text libs content) = Return data ->
  extract_text_from_file libs fs file_path ".json"
  = try_except (json_dumps libs data 2) (fun _ => Return JSON_PLACEHOLDER).
Proof.
  intros Hfile Hload. unfold extract_text_from_file.
  rewrite (open_read_Some _ _ _ Hfile). simpl. rewrite Hload. simpl.
  destruct (json_dumps libs data 2); reflexivity.
Qed.

(** The encoder prints every value that does not nest deeper than the
    interpreter lets it go. *)
Lemma json_dumps_returns libs data indent :
  (nesting data <= json_dumps_depth libs)%nat ->
  json_dumps libs data indent = Return (json_encode indent 0 data).
Proof.
  intros Hdepth. unfold json_dumps.
  now rewrite (proj2 (Nat.leb_le _ _) Hdepth).
Qed.



(** A file that is not JSON gets the placeholder. *)
Example extract_text_json_malformed :
  extract_text_from_file Reference.libs
    {[ "/app/uploads/c.json" := list_byte_of_string "{oops" ]}
    "/app/uploads/c.json" ".json"
  = Return JSON_PLACEHOLDER.
Proof. vm_compute. reflexivity. Qed.

(** A value that [json.load] read and that [json.dumps] does not print,
    for nesting deeper than the interpreter lets the encoder go, gets the
    placeholder too. *)
Lemma extract_text_json_too_deep libs fs file_path content data :
  fs !! file_path = Some content ->
  json_load libs (read_text libs content) = Return data ->
  (json_dumps_depth libs < nesting data)%nat ->
  extract_text_from_file libs fs file_path ".json" = Return JSON_PLACEHOLDER.
Proof.
  intros Hfile Hload Hdeep.
  rewrite (extract_text_json_loaded _ _ _ _ _ Hfile Hload). unfold json_dumps.
  now rewrite (proj2 (Nat.leb_gt _ _) Hdeep).
Qed.

(** Text outside ASCII, written as it is in the file, is printed with
    [\u] escapes, a character beyond the basic plane as two surrogates; the
    keys of an object keep the order of the file, and a key written twice
    keeps its first place and its last value. *)
Example extract_text_json_escapes :
  extract_text_from_file Reference.libs json_accented_store
    "/app/uploads/d.json" ".json"
  = Return json_accented_pretty.
Proof. vm_compute. reflexivity. Qed.

(** ** delete_file and get_file_content on an unknown id *)

(** Whatever the server does, [delete_file] on an id without a row ends in
    the handler of line 311: the [HTTPException] with status 404 raised at
    line 292 is an [Exception], it is caught there and replaced. *)
Lemma delete_file_unknown_id env file_id w :
  select_by_id file_id (uploaded_files_table w) = None ->
  fst (delete_file env file_id w) = Raise (HTTPException 500 "Failed to delete file").
Proof.
  intros Hnone. unfold delete_file, catch, bind.
  connect_then env w c w' Htable. destruct c as [conn|]; simpl; [| reflexivity].
  unfold gets. rewrite Htable, Hnone. reflexivity.
Qed.

Lemma get_file_content_unknown_id env file_id w :
  select_by_id file_id (uploaded_files_table w) = None ->
  fst (get_file_content env file_id w)
  = Raise (HTTPException 500 "Failed to retrieve file content").
Proof.
  intros Hnone. unfold get_file_content, catch, bind.
  connect_then env w c w' Htable. destruct c as [conn|]; simpl; [| reflexivity].
  unfold gets. rewrite Htable, Hnone. reflexivity.
Qed.

(** C2. The claim: an id without a record is reported as not found (404).
    The code, on an empty table with a server that answers, for id 1: both
    handlers answer with status 500 and their generic message, the same
    answer they give when the server cannot be reached. *)
Theorem unknown_id_reported_as_500 :
  select_by_id 1 (uploaded_files_table Reference.world0) = None
  /\ fst (delete_file Reference.env 1 Reference.world0)
     = Raise (HTTPException 500 "Failed to delete file")
  /\ fst (get_file_content Reference.env 1 Reference.world0)
     = Raise (HTTPException 500 "Failed to retrieve file content")
  /\ fst (delete_file Reference.env_down 1 Reference.world0)
     = fst (delete_file Reference.env 1 Reference.world0)
  /\ fst (get_file_content Reference.env_down 1 Reference.world0)
     = fst (get_file_content Reference.env 1 Reference.world0).
Proof. vm_compute. repeat split; reflexivity. Qed.

(** ** get_files *)

Lemma insert_by_date_Permutation r rows :
  Permutation (insert_by_date r rows) (r :: rows).
Proof.
  induction rows as [|r' rest IH]; simpl; [reflexivity |].
  destruct (row_upload_date r' <=? row_upload_date r); [reflexivity |].
  rewrite IH. apply perm_swap.
Qed.

Lemma order_by_upload_date_desc_Permutation rows :
  Permutation (order_by_upload_date_desc rows) rows.
Proof.
  induction rows as [|r rest IH]; simpl; [reflexivity |].
  rewrite insert_by_date_Permutation. now constructor.
Qed.

Lemma later_first_trans r1 r2 r3 :
  later_first r1 r2 -> later_first r2 r3 -> later_first r1 r3.
Proof. unfold later_first. lia. Qed.

Lemma insert_by_date_sorted r rows :
  StronglySorted later_first rows ->
  StronglySorted later_first (insert_by_date r rows).
Proof.
  induction 1 as [|r' rest Hsorted IH Hall]; simpl.
  - constructor; constructor.
  - destruct (row_upload_date r' <=? row_upload_date r) eqn:Hcmp.
    + apply Z.leb_le in Hcmp. constructor.
      * now constructor.
      * constructor; [exact Hcmp |].
        eapply Forall_impl; [exact Hall |].
        intros r3 H3. eapply later_first_trans; [exact Hcmp | exact H3].
    + apply Z.leb_gt in Hcmp. constructor; [exact IH |].
      eapply Permutation_Forall.
      * symmetry. apply insert_by_date_Permutation.
      * constructor; [unfold later_first; lia | exact Hall].
Qed.

Lemma order_by_upload_date_desc_sorted rows :
  StronglySorted later_first (order_by_upload_date_desc rows).
Proof.
  induction rows as [|r rest IH]; simpl; [constructor |].
  now apply insert_by_date_sorted.
Qed.

Lemma select_by_session_none session_id table :
  (forall r, In r table -> row_session_id r <> session_id) ->
  select_by_session session_id table = [].
Proof.
  intros Hnone. unfold select_by_session.
  replace (List.filter _ table) with (@nil Row); [reflexivity |].
  induction table as [|r rest IH]; simpl; [reflexivity |].
  destruct (String.eqb_spec (row_session_id r) session_id) as [Heq | Hne].
  - exfalso. apply (Hnone r); [now left | exact Heq].
  - apply IH. intros r' Hr'. apply Hnone. now right.
Qed.

(** C8. When the server is reached, [get_files] answers with the rows of
    the session and no others, the later [upload_date] first, each turned
    into its listing; for a session without rows the answer is the empty
    list, and it is an answer, not an error. *)
Theorem get_files_newest_first (env : Env) (libs : Libs) (session_id : string)
  (w w1 : World) (conn : connection) :
  get_db_connection env default_max_retries w = (Return (Some conn), w1) ->
  exists rows,
    get_files env libs session_id w
    = (Return {| fr_session_id := session_id;
                 fr_files := List.map (listing_of_row libs) rows |}, w1)
    /\ Permutation rows
         (List.filter (fun r => String.eqb (row_session_id r) session_id)
            (uploaded_files_table w))
    /\ (forall r, In r rows <-> In r (uploaded_files_table w) /\ row_session_id r = session_id)
    /\ StronglySorted later_first rows
    /\ ((forall r, In r (uploaded_files_table w) -> row_session_id r <> session_id) ->
        rows = []).
Proof.
  intros Hconn.
  destruct (get_db_connection_total env default_max_retries w)
    as (c & w' & Hrun & (_ & Htable & _)).
  rewrite Hconn in Hrun. injection Hrun as <- <-.
  exists (select_by_session session_id (uploaded_files_table w)).
  split; [| split; [| split; [| split]]].
  - unfold get_files, catch, bind, gets, ret. rewrite Hconn. simpl.
    now rewrite Htable.
  - apply order_by_upload_date_desc_Permutation.
  - intros r. unfold select_by_session.
    split; intros Hin.
    + apply (Permutation_in r (order_by_upload_date_desc_Permutation _)) in Hin.
      apply filter_In in Hin. destruct Hin as [Hin Heq].
      split; [exact Hin | now apply String.eqb_eq].
    + apply (Permutation_in r (Permutation_sym (order_by_upload_date_desc_Permutation _))).
      apply filter_In. destruct Hin as [Hin Heq].
      split; [exact Hin | now apply String.eqb_eq].
  - apply order_by_upload_date_desc_sorted.
  - apply select_by_session_none.
Qed.

Lemma get_files_newest_first_witness :
  exists rows,
    get_files Reference.env Reference.libs "s1" world_three_uploads
    = (Return {| fr_session_id := "s1";
                 fr_files := List.map (listing_of_row Reference.libs) rows |},
       record_connect 0 world_three_uploads)
    /\ List.map row_original_name rows = ["third.txt"; "second.txt"; "first.txt"]
    /\ StronglySorted later_first rows.
Proof.
  destruct (get_files_newest_first Reference.env Reference.libs "s1"
              world_three_uploads (record_connect 0 world_three_uploads)
              (Connection 0))
    as (rows & Hrun & _ & _ & Hsorted & _).
  - reflexivity.
  - exists rows. split; [exact Hrun |]. split; [| exact Hsorted].
    assert (Hrows : List.map (listing_of_row Reference.libs) rows
                    = List.map (listing_of_row Reference.libs)
                        (select_by_session "s1"
                           (uploaded_files_table world_three_uploads))).
    { assert (Heval : get_files Reference.env Reference.libs "s1" world_three_uploads
                      = (Return {| fr_session_id := "s1";
                                   fr_files := List.map (listing_of_row Reference.libs)
                                                 (select_by_session "s1"
                                                    (uploaded_files_table
                                                       world_three_uploads)) |},
                         record_connect 0 world_three_uploads))
        by reflexivity.
      rewrite Heval in Hrun. now injection Hrun as <-. }
    transitivity (List.map fl_filename (List.map (listing_of_row Reference.libs) rows)).
    + rewrite List.map_map. reflexivity.
    + rewrite Hrows. reflexivity.
Defined.

(** A session without uploads gets an empty list. *)
Example get_files_unknown_session :
  fst (get_files Reference.env Reference.libs "nobody" world_three_uploads)
  = Return {| fr_session_id := "nobody"; fr_files := [] |}.
Proof. reflexivity. Qed.

(** ** store_file_info *)

(** What [store_file_info] leaves behind: the disk and the counter of names
    are untouched; when it returns, one row has been appended, made of its
    arguments, and the dictionary repeats them; when it raises, the table is
    as before. *)
Lemma store_file_info_cases env session_id filename original_name file_type
  file_size file_path extracted_text w :
  exists r w',
    store_file_info env session_id filename original_name file_type file_size
      file_path extracted_text w = (r, w')
    /\ content_store w' = content_store w
    /\ uuid_calls w' = uuid_calls w
    /\ match r with
       | Return file_info =>
           exists row,
             uploaded_files_table w' = (uploaded_files_table w ++ [row])%list
             /\ row_session_id row = session_id
             /\ row_filename row = filename
             /\ row_original_name row = original_name
             /\ row_file_type row = file_type
             /\ row_file_size row = file_size
             /\ row_file_path row = file_path
             /\ row_extracted_text row = extracted_text
             /\ file_info = {| fi_id := row_id row;
                               fi_filename := filename;
                               fi_original_name := original_name;
                               fi_file_type := file_type;
                               fi_file_size := file_size;
                               fi_has_text := Py.truthy extracted_text;
                               fi_file_path := file_path |}
       | Raise e =>
           uploaded_files_table w' = uploaded_files_table w
           /\ exists msg, e = PyException msg
       end.
Proof.
  unfold store_file_info, catch, bind.
  destruct (get_db_connection_total env default_max_retries w)
    as (c & w1 & Hrun & (Hfs & Htable & Hauto & Huuid)).
  rewrite Hrun. destruct c as [conn|]; simpl.
  - unfold execute_insert.
    match goal with
    | |- context [insert_rejected env ?row] =>
        destruct (insert_rejected env row) as [msg|] eqn:Hrej
    end; simpl.
    + eexists _, _. split; [reflexivity |]. repeat split; eauto.
    + eexists _, _. split; [reflexivity |]. simpl. repeat split; try assumption.
      eexists. rewrite Htable. repeat split.
  - eexists _, _. split; [reflexivity |]. repeat split; eauto.
Qed.

(** On a server that accepts the next connection and the row,
    [store_file_info] returns. *)
Lemma store_file_info_accepted env session_id filename original_name file_type
  file_size file_path extracted_text w :
  mysql_connect env (connect_calls w) = ConnectOpen ->
  (forall row, insert_rejected env row = None) ->
  exists file_info w',
    store_file_info env session_id filename original_name file_type file_size
      file_path extracted_text w = (Return file_info, w').
Proof.
  intros Hopen Haccept. unfold store_file_info, catch, bind.
  rewrite (get_db_connection_first_attempt env default_max_retries w);
    [| reflexivity | exact Hopen].
  unfold execute_insert. rewrite Haccept. simpl. eauto.
Qed.

(** ** upload_files: one file *)

Lemma upload_path_not_empty name : upload_path name <> EmptyString.
Proof. unfold upload_path, UPLOAD_DIR. simpl. discriminate. Qed.

(** A file that fails one of the two checks raises before anything is
    written: the world is the same world. *)
Lemma upload_one_rejected env libs session_id file w :
  passes_validation file = false ->
  exists detail,
    upload_one env libs session_id file w = (Raise (HTTPException 400 detail), w).
Proof.
  unfold passes_validation, upload_one, file_ext_of. intros Hcheck.
  destruct (Py.len (uf_content file) >? MAX_FILE_SIZE); simpl in *.
  - eexists. reflexivity.
  - rewrite Hcheck. simpl. eexists. reflexivity.
Qed.

(** A file that passes both checks is written under its generated name,
    its text is extracted, and [store_file_info] is called in that world. *)
Lemma upload_one_accepted env libs session_id file w :
  passes_validation file = true ->
  exists text,
    upload_one env libs session_id file w
    = store_file_info env session_id
        (uuid4 env (uuid_calls w) +:+ file_ext_of file) (uf_filename file)
        (file_ext_of file) (Py.len (uf_content file))
        (stored_path env (uuid_calls w) file) (Some text)
        (set_content_store
           (fun fs => <[stored_path env (uuid_calls w) file := uf_content file]> fs)
           (bump_uuid_calls w)).
Proof.
  unfold passes_validation, upload_one, file_ext_of, stored_path. intros Hcheck.
  apply andb_true_iff in Hcheck as [Hsize Hext].
  apply negb_true_iff in Hsize. rewrite Hsize, Hext. simpl.
  unfold bind at 1. unfold next_uuid4.
  unfold bind at 1. unfold write_file, modify.
  unfold bind at 1.
  match goal with
  | |- context [extract_text_from_file ?l ?fs ?p ?e] =>
      destruct (extract_text_returns l fs p e) as [text Htext]
  end.
  exists text. rewrite Htext. reflexivity.
Qed.

(** ** upload_files: the loop *)

Lemma stored_paths_app env n files1 files2 :
  stored_paths env n (files1 ++ files2)
  = (stored_paths env n files1
     ++ stored_paths env (n + List.length files1) files2)%list.
Proof.
  revert n. induction files1 as [|f rest IH]; intros n; simpl.
  - now rewrite Nat.add_0_r.
  - rewrite IH. now rewrite Nat.add_succ_r.
Qed.

(** Writing a batch leaves every path that is not one of its paths as it was. *)
Lemma write_all_lookup_other env files :
  forall n fs p,
  ~ In p (stored_paths env n files) ->
  write_all env n files fs !! p = fs !! p.
Proof.
  induction files as [|f rest IH]; intros n fs p Hnot; simpl; [reflexivity |].
  simpl in Hnot. rewrite IH by tauto.
  apply lookup_insert_ne. intros Heq. apply Hnot. now left.
Qed.

(** The loop, whatever happens in it. The files it got through are a prefix
    [committed] of the batch: each has a row, appended to the table in order,
    and a dictionary, appended to [uploaded_files] in order, both carrying the
    path the file was written to. When the loop returns, the prefix is the
    whole batch. When it raises, the next file is the failing one; its bytes
    are on disk if and only if it passed the two checks. *)
Lemma upload_loop_cases env libs session_id files :
  forall uploaded_files w,
  exists r uploaded_files' w' committed rows summaries,
    upload_loop env libs session_id files uploaded_files w = (r, uploaded_files', w')
    /\ uploaded_files' = (uploaded_files ++ summaries)%list
    /\ uploaded_files_table w' = (uploaded_files_table w ++ rows)%list
    /\ List.map row_file_path rows = stored_paths env (uuid_calls w) committed
    /\ List.map fi_file_path summaries = stored_paths env (uuid_calls w) committed
    /\ Forall2 (records session_id) committed rows
    /\ Forall (fun file => passes_validation file = true) committed
    /\ match r with
       | Return _ =>
           files = committed
           /\ content_store w' = write_all env (uuid_calls w) committed (content_store w)
       | Raise e =>
           exists failing rest,
             files = (committed ++ failing :: rest)%list
             /\ content_store w'
                = (if passes_validation failing
                   then <[stored_path env (uuid_calls w + List.length committed) failing
                          := uf_content failing]>
                          (write_all env (uuid_calls w) committed (content_store w))
                   else write_all env (uuid_calls w) committed (content_store w))
       end.
Proof.
  induction files as [|file rest IH]; intros acc w; simpl.
  - exists (Return tt), acc, w, [], [], []. simpl. rewrite !app_nil_r.
    repeat split; constructor.
  - destruct (passes_validation file) eqn:Hvalid.
    + destruct (upload_one_accepted env libs session_id file w Hvalid) as [text Hone].
      rewrite Hone. clear Hone.
      match goal with
      | |- context [store_file_info ?e ?s ?fn ?on ?ft ?sz ?fp ?tx ?w0] =>
          destruct (store_file_info_cases e s fn on ft sz fp tx w0)
            as (r1 & w1 & Hstore & Hfs & Huuid & Hcase)
      end.
      rewrite Hstore. simpl in Hfs, Huuid. destruct r1 as [file_info | e].
      * destruct Hcase as (row & Htable & Hsid & _ & Hname & Htype & Hsize & Hpath & _ & Hinfo).
        destruct (IH (acc ++ [file_info])%list w1)
          as (r & acc' & w' & committed & rows & sums & Hloop & Hacc & Htab & Hrows
              & Hsums & Hrec & Hval & Hres).
        exists r, acc', w', (file :: committed), (row :: rows), (file_info :: sums).
        rewrite Huuid in Hrows, Hsums, Hres. rewrite Hfs in Hres.
        split; [exact Hloop |].
        split; [rewrite Hacc; now rewrite <- app_assoc |].
        split; [rewrite Htab, Htable; simpl; now rewrite <- app_assoc |].
        split; [simpl; now rewrite Hpath, Hrows |].
        split; [simpl; rewrite Hsums, Hinfo; reflexivity |].
        split; [constructor; [now repeat split | exact Hrec] |].
        split; [constructor; assumption |].
        destruct r as [u | e].
        -- destruct Hres as [-> Hstore']. split; [reflexivity | exact Hstore'].
        -- destruct Hres as (failing & rest' & -> & Hstore').
           exists failing, rest'. split; [reflexivity |].
           simpl List.length. rewrite Nat.add_succ_r. exact Hstore'.
      * destruct Hcase as [Htable _].
        exists (Raise e), acc, w1, [], [], []. simpl. rewrite !app_nil_r.
        split; [reflexivity |]. split; [reflexivity |].
        split; [exact Htable |]. repeat (split; [constructor |]).
        exists file, rest. split; [reflexivity |].
        rewrite Hvalid, Nat.add_0_r. exact Hfs.
    + destruct (upload_one_rejected env libs session_id file w Hvalid) as [detail Hone].
      rewrite Hone.
      exists (Raise (HTTPException 400 detail)), acc, w, [], [], []. simpl.
      rewrite !app_nil_r. repeat (split; [constructor |]).
      exists file, rest. split; [reflexivity |]. now rewrite Hvalid.
Qed.

(** ** upload_files: the clean-up *)

(** One round of the clean-up loop, seen from a path. *)
Lemma cleanup_step_lookup file_path w p :
  content_store
    (if (negb (String.eqb file_path EmptyString)
         && path_exists (content_store w) file_path)%bool
     then set_content_store (fun fs => delete file_path fs) w
     else w) !! p
  = if (negb (String.eqb file_path EmptyString) && String.eqb p file_path)%bool
    then None
    else content_store w !! p.
Proof.
  unfold path_exists.
  destruct (String.eqb_spec file_path EmptyString) as [Hempty | Hfull]; simpl;
    [reflexivity |].
  destruct (String.eqb_spec p file_path) as [-> | Hne].
  - destruct (content_store w !! file_path) eqn:Hlook; simpl.
    + apply lookup_delete_eq.
    + exact Hlook.
  - destruct (content_store w !! file_path); simpl; [| reflexivity].
    apply lookup_delete_ne. congruence.
Qed.

Lemma cleanup_step_table file_path w :
  uploaded_files_table
    (if (negb (String.eqb file_path EmptyString)
         && path_exists (content_store w) file_path)%bool
     then set_content_store (fun fs => delete file_path fs) w
     else w)
  = uploaded_files_table w.
Proof. now destruct (_ && _)%bool. Qed.

(** The clean-up does not touch the table: it issues no DELETE. *)
Lemma cleanup_uploaded_table uploaded_files :
  forall w, uploaded_files_table (cleanup_uploaded uploaded_files w)
            = uploaded_files_table w.
Proof.
  induction uploaded_files as [|fi rest IH]; intros w; simpl; [reflexivity |].
  rewrite IH. apply cleanup_step_table.
Qed.

(** It creates no file. *)
Lemma cleanup_uploaded_absent uploaded_files :
  forall w p,
  content_store w !! p = None ->
  content_store (cleanup_uploaded uploaded_files w) !! p = None.
Proof.
  induction uploaded_files as [|fi rest IH]; intros w p Habs; simpl; [exact Habs |].
  apply IH. rewrite cleanup_step_lookup. now destruct (_ && _)%bool.
Qed.

(** It removes the file of every dictionary of the list. *)
Lemma cleanup_uploaded_removed uploaded_files :
  forall w p,
  p <> EmptyString ->
  In p (List.map fi_file_path uploaded_files) ->
  content_store (cleanup_uploaded uploaded_files w) !! p = None.
Proof.
  induction uploaded_files as [|fi rest IH]; intros w p Hfull Hin; simpl in *;
    [contradiction |].
  destruct Hin as [<- | Hin].
  - apply cleanup_uploaded_absent. rewrite cleanup_step_lookup.
    rewrite String.eqb_refl.
    destruct (String.eqb_spec (fi_file_path fi) EmptyString); [contradiction | reflexivity].
  - now apply IH.
Qed.

(** It leaves every other file as it was. *)
Lemma cleanup_uploaded_other uploaded_files :
  forall w p,
  ~ In p (List.map fi_file_path uploaded_files) ->
  content_store (cleanup_uploaded uploaded_files w) !! p = content_store w !! p.
Proof.
  induction uploaded_files as [|fi rest IH]; intros w p Hnot; simpl in *;
    [reflexivity |].
  rewrite IH by tauto. rewrite cleanup_step_lookup.
  destruct (String.eqb_spec p (fi_file_path fi)) as [-> | Hne].
  - exfalso. apply Hnot. now left.
  - now rewrite andb_false_r.
Qed.

Lemma stored_paths_not_empty env files :
  forall n p, In p (stored_paths env n files) -> p <> EmptyString.
Proof.
  induction files as [|f rest IH]; intros n p Hin; simpl in Hin; [contradiction |].
  destruct Hin as [<- | Hin]; [apply upload_path_not_empty | eauto].
Qed.

(** C10. When [upload_files] raises, the batch splits into the files whose
    row was inserted ([committed]), the failing file and the rest. The rows
    stay in the table. On disk, the clean-up has removed the paths of the
    committed files, all of them and nothing else: any other path holds what
    it held before the call, except the path of the failing file, which
    holds the bytes of that file whenever the file had passed the two checks,
    that is, whenever it failed after it was written. *)
Theorem upload_failure_cleans_committed_paths_only (env : Env) (libs : Libs)
  (files : list UploadFile) (session_id : string) (w w' : World) (e : exn) :
  upload_files env libs files session_id w = (Raise e, w') ->
  exists committed failing rest rows,
    files = (committed ++ failing :: rest)%list
    /\ uploaded_files_table w' = (uploaded_files_table w ++ rows)%list
    /\ Forall2 (records session_id) committed rows
    /\ List.map row_file_path rows = stored_paths env (uuid_calls w) committed
    /\ (forall p, In p (List.map row_file_path rows) -> content_store w' !! p = None)
    /\ (forall p, ~ In p (List.map row_file_path rows) ->
          content_store w' !! p
          = if (passes_validation failing
                && String.eqb p (stored_path env
                                   (uuid_calls w + List.length committed) failing))%bool
            then Some (uf_content failing)
            else content_store w !! p)
    /\ (passes_validation failing = true ->
        ~ In (stored_path env (uuid_calls w + List.length committed) failing)
            (List.map row_file_path rows) ->
        content_store w'
          !! stored_path env (uuid_calls w + List.length committed) failing
        = Some (uf_content failing)).
Proof.
  unfold upload_files. intros Hrun.
  assert (Hgoal : exists committed failing rest rows,
    files = (committed ++ failing :: rest)%list
    /\ uploaded_files_table w' = (uploaded_files_table w ++ rows)%list
    /\ Forall2 (records session_id) committed rows
    /\ List.map row_file_path rows = stored_paths env (uuid_calls w) committed
    /\ (forall p, In p (List.map row_file_path rows) -> content_store w' !! p = None)
    /\ (forall p, ~ In p (List.map row_file_path rows) ->
          content_store w' !! p
          = if (passes_validation failing
                && String.eqb p (stored_path env
                                   (uuid_calls w + List.length committed) failing))%bool
            then Some (uf_content failing)
            else content_store w !! p));
    [| destruct Hgoal as (committed & failing & rest & rows & H1 & H2 & H3 & H4 & H5 & H6);
       exists committed, failing, rest, rows; repeat (split; [assumption |]);
       intros Hvalid Hnot; rewrite (H6 _ Hnot), Hvalid, String.eqb_refl; reflexivity].
  destruct (upload_loop_cases env libs session_id files [] w)
    as (r & acc' & w1 & committed & rows & sums & Hloop & Hacc & Htab & Hrows
        & Hsums & Hrec & _ & Hres).
  rewrite Hloop in Hrun. simpl in Hacc. subst acc'.
  destruct r as [u | e1]; [discriminate Hrun |].
  injection Hrun as _ <-.
  destruct Hres as (failing & rest & Hfiles & Hstore).
  exists committed, failing, rest, rows.
  split; [exact Hfiles |].
  split; [now rewrite cleanup_uploaded_table |].
  split; [exact Hrec |].
  split; [exact Hrows |].
  split.
  - intros p Hin. rewrite Hrows in Hin. apply cleanup_uploaded_removed.
    + eapply stored_paths_not_empty. exact Hin.
    + now rewrite Hsums.
  - intros p Hnot. rewrite Hrows in Hnot.
    rewrite cleanup_uploaded_other by now rewrite Hsums.
    rewrite Hstore. destruct (passes_validation failing); simpl.
    + destruct (String.eqb_spec p
                  (stored_path env (uuid_calls w + List.length committed) failing))
        as [-> | Hne].
      * apply lookup_insert_eq.
      * rewrite lookup_insert_ne by congruence.
        now apply write_all_lookup_other.
    + now apply write_all_lookup_other.
Qed.

Lemma upload_failure_cleans_committed_paths_only_witness :
  exists committed failing rest rows,
    batch_txt_txt = (committed ++ failing :: rest)%list
    /\ uploaded_files_table
         (snd (upload_files env_one_connection Reference.libs batch_txt_txt "s1"
                 Reference.world0))
       = (uploaded_files_table Reference.world0 ++ rows)%list
    /\ List.map row_file_path rows = ["/app/uploads/0000-0.txt"]
    /\ content_store
         (snd (upload_files env_one_connection Reference.libs batch_txt_txt "s1"
                 Reference.world0)) !! "/app/uploads/0000-0.txt" = None
    /\ content_store
         (snd (upload_files env_one_connection Reference.libs batch_txt_txt "s1"
                 Reference.world0)) !! "/app/uploads/0000-1.txt"
       = Some (list_byte_of_string "world").
Proof.
  destruct (upload_failure_cleans_committed_paths_only env_one_connection
              Reference.libs batch_txt_txt "s1" Reference.world0
              (snd (upload_files env_one_connection Reference.libs batch_txt_txt "s1"
                      Reference.world0))
              (HTTPException 500 "Failed to store file info: Database connection failed"))
    as (committed & failing & rest & rows & Hfiles & Htable & _ & _ & _ & _ & _).
  - vm_compute. reflexivity.
  - exists committed, failing, rest, rows.
    split; [exact Hfiles |]. split; [exact Htable |].
    vm_compute in Htable. subst rows.
    repeat split; vm_compute; reflexivity.
Defined.

(** C1. The claim: after a batch has failed, no row exists for any of its
    files. The code, on a batch of a valid text file followed by a file
    with a disallowed extension, against a server that accepts everything:
    the call raises; the object of the first file is gone from the disk;
    the row of the first file, inserted with autocommit before the second
    file was looked at, is still in the table and names the removed path.
    The clean-up loop of lines 196-202 removes files and deletes no row. *)
Theorem failed_batch_keeps_row_of_committed_file :
  (exists detail,
      fst (upload_files Reference.env Reference.libs batch_txt_exe "s1" Reference.world0)
      = Raise (HTTPException 500 detail))
  /\ List.map row_original_name
       (uploaded_files_table
          (snd (upload_files Reference.env Reference.libs batch_txt_exe "s1"
                  Reference.world0)))
     = ["a.txt"]
  /\ List.map row_file_path
       (uploaded_files_table
          (snd (upload_files Reference.env Reference.libs batch_txt_exe "s1"
                  Reference.world0)))
     = ["/app/uploads/0000-0.txt"]
  /\ content_store
       (snd (upload_files Reference.env Reference.libs batch_txt_exe "s1"
               Reference.world0)) !! "/app/uploads/0000-0.txt"
     = None.
Proof.
  split; [eexists; vm_compute; reflexivity |].
  repeat split; vm_compute; reflexivity.
Qed.

(** ** The size of stored files *)

Lemma passes_validation_size file :
  passes_validation file = true ->
  0 <= Py.len (uf_content file) <= MAX_FILE_SIZE.
Proof.
  unfold passes_validation. intros H. apply andb_true_iff in H as [Hsize _].
  apply negb_true_iff in Hsize. unfold Py.len in *. lia.
Qed.

(** The table after [upload_files], whether it returns or raises: the rows
    of the files it got through, appended. *)
Lemma upload_files_table env libs files session_id w :
  exists committed rows,
    uploaded_files_table (snd (upload_files env libs files session_id w))
    = (uploaded_files_table w ++ rows)%list
    /\ Forall2 (records session_id) committed rows
    /\ Forall (fun file => passes_validation file = true) committed.
Proof.
  unfold upload_files.
  destruct (upload_loop_cases env libs session_id files [] w)
    as (r & acc' & w1 & committed & rows & sums & Hloop & _ & Htab & _ & _ & Hrec
        & Hval & _).
  rewrite Hloop. exists committed, rows.
  destruct r; simpl; [| rewrite cleanup_uploaded_table]; auto.
Qed.

Lemma recorded_sizes_within_limit session_id committed rows :
  Forall2 (records session_id) committed rows ->
  Forall (fun file => passes_validation file = true) committed ->
  Forall size_within_limit rows.
Proof.
  induction 1 as [|file row files rows' Hrec _ IH]; intros Hval; constructor.
  - destruct Hrec as (_ & _ & _ & Hsize). unfold size_within_limit. rewrite Hsize.
    apply passes_validation_size. now inversion Hval.
  - apply IH. now inversion Hval.
Qed.

Lemma get_files_table env libs session_id w :
  uploaded_files_table (snd (get_files env libs session_id w)) = uploaded_files_table w.
Proof.
  unfold get_files, catch, bind.
  connect_then env w c w' Htable. destruct c; simpl; exact Htable.
Qed.

Lemma get_file_content_table env file_id w :
  uploaded_files_table (snd (get_file_content env file_id w)) = uploaded_files_table w.
Proof.
  unfold get_file_content, catch, bind.
  connect_then env w c w' Htable. destruct c; simpl; [| exact Htable].
  destruct (select_by_id file_id (uploaded_files_table w')); simpl; exact Htable.
Qed.

(** [delete_file] leaves the table as it was or without the rows of the id. *)
Lemma delete_file_table env file_id w :
  uploaded_files_table (snd (delete_file env file_id w)) = uploaded_files_table w
  \/ uploaded_files_table (snd (delete_file env file_id w))
     = delete_by_id file_id (uploaded_files_table w).
Proof.
  unfold delete_file, catch, bind.
  connect_then env w c w' Htable. destruct c; simpl; [| now left].
  destruct (select_by_id file_id (uploaded_files_table w')) as [row|]; simpl;
    [| now left].
  right. unfold pass_FileNotFoundError, remove_if_exists, catch, modify. simpl.
  destruct (path_exists _ _); simpl; [now rewrite Htable |].
  destruct (remove_refused env (row_file_path row)); simpl; now rewrite Htable.
Qed.

Lemma handle_preserves_sizes env libs w req :
  Forall size_within_limit (uploaded_files_table w) ->
  Forall size_within_limit (uploaded_files_table (handle env libs w req)).
Proof.
  intros Hinv. destruct req as [files sid | sid | file_id | file_id]; simpl.
  - destruct (upload_files_table env libs files sid w)
      as (committed & rows & -> & Hrec & Hval).
    apply Forall_app. split; [exact Hinv |].
    eapply recorded_sizes_within_limit; eassumption.
  - now rewrite get_files_table.
  - now rewrite get_file_content_table.
  - destruct (delete_file_table env file_id w) as [-> | ->]; [exact Hinv |].
    unfold delete_by_id. apply List.Forall_forall. intros r Hr.
    apply filter_In in Hr as [Hr _].
    revert r Hr. now apply List.Forall_forall.
Qed.

Lemma serve_preserves_sizes env libs reqs :
  forall w,
  Forall size_within_limit (uploaded_files_table w) ->
  Forall size_within_limit (uploaded_files_table (serve env libs reqs w)).
Proof.
  unfold serve. induction reqs as [|req rest IH]; intros w Hinv; simpl; [exact Hinv |].
  apply IH. now apply handle_preserves_sizes.
Qed.

Lemma len_repeat {A} (x : A) (n : Z) :
  0 <= n -> Py.len (List.repeat x (Z.to_nat n)) = n.
Proof.
  intros Hn. unfold Py.len. rewrite List.repeat_length. now apply Z2Nat.id.
Qed.

Lemma oversized_length :
  Py.len (uf_content oversized) = MAX_FILE_SIZE + 1.
Proof. apply (len_repeat x00 (MAX_FILE_SIZE + 1)). discriminate. Qed.

(** C5, as the claim states it, fails: an empty text file passes the two
    checks and is stored with a [file_size] of 0. *)
Lemma empty_file_is_stored_with_size_zero :
  (exists response,
      fst (upload_files Reference.env Reference.libs [empty_txt] "s1" Reference.world0)
      = Return response)
  /\ List.map row_file_size
       (uploaded_files_table
          (snd (upload_files Reference.env Reference.libs [empty_txt] "s1"
                  Reference.world0)))
     = [0].
Proof. split; [eexists |]; vm_compute; reflexivity. Qed.

(** C5, amended. Starting from an empty table, after any sequence of
    requests every row satisfies [0 <= file_size <= MAX_FILE_SIZE]; and the
    upload of one file of [MAX_FILE_SIZE + 1] bytes raises and leaves the
    world as it found it: no new row, no new object. *)
Theorem stored_file_sizes_within_limit (env : Env) (libs : Libs)
  (reqs : list request) (w0 : World) (file : UploadFile) (session_id : string)
  (w : World) :
  uploaded_files_table w0 = [] ->
  Py.len (uf_content file) = MAX_FILE_SIZE + 1 ->
  Forall size_within_limit (uploaded_files_table (serve env libs reqs w0))
  /\ exists detail,
       upload_files env libs [file] session_id w = (Raise (HTTPException 500 detail), w).
Proof.
  intros Hempty Hsize. split.
  - apply serve_preserves_sizes. rewrite Hempty. constructor.
  - unfold upload_files. simpl.
    destruct (upload_one_rejected env libs session_id file w) as [detail Hone].
    + unfold passes_validation. rewrite Hsize.
      replace (MAX_FILE_SIZE + 1 >? MAX_FILE_SIZE) with true; [reflexivity |].
      symmetry. apply Z.gtb_lt. lia.
    + rewrite Hone. simpl. eexists. reflexivity.
Qed.

Lemma stored_file_sizes_within_limit_witness :
  Forall size_within_limit
    (uploaded_files_table
       (serve Reference.env Reference.libs
          [PostUpload batch_txt_txt "s1"; PostUpload [empty_txt] "s2"; DeleteFile 1]
          Reference.world0))
  /\ exists detail,
       upload_files Reference.env Reference.libs [oversized] "s1" Reference.world0
       = (Raise (HTTPException 500 detail), Reference.world0).
Proof.
  apply (stored_file_sizes_within_limit Reference.env Reference.libs
           [PostUpload batch_txt_txt "s1"; PostUpload [empty_txt] "s2"; DeleteFile 1]
           Reference.world0 oversized "s1" Reference.world0).
  - reflexivity.
  - apply oversized_length.
Defined.

(** ** The extension of a file name *)

Lemma length_append s t :
  String.length (s +:+ t) = (String.length s + String.length t)%nat.
Proof. induction s as [|c s IH]; [reflexivity |]. rewrite append_cons. simpl. now rewrite IH. Qed.

Lemma substring_all r : String.substring 0 (String.length r) r = r.
Proof. induction r as [|c r IH]; simpl; [reflexivity | now rewrite IH]. Qed.

Lemma substring_append t r :
  String.substring (String.length t) (String.length r) (t +:+ r) = r.
Proof.
  induction t as [|c t IH]; [apply substring_all |].
  rewrite append_cons. simpl. exact IH.
Qed.

(** Lowering a character neither makes nor unmakes a dot or a slash. *)
Lemma lower_ascii_dot c : Ascii.eqb (Py.lower_ascii c) "." = Ascii.eqb c ".".
Proof.
  destruct c as [b0 b1 b2 b3 b4 b5 b6 b7].
  destruct b0, b1, b2, b3, b4, b5, b6, b7; reflexivity.
Qed.

Lemma lower_ascii_slash c : Ascii.eqb (Py.lower_ascii c) "/" = Ascii.eqb c "/".
Proof.
  destruct c as [b0 b1 b2 b3 b4 b5 b6 b7].
  destruct b0, b1, b2, b3, b4, b5, b6, b7; reflexivity.
Qed.

Lemma lower_no_dot_slash s : no_dot_slash (Py.lower s) = no_dot_slash s.
Proof.
  induction s as [|c s IH]; simpl; [reflexivity |].
  now rewrite lower_ascii_dot, lower_ascii_slash, IH.
Qed.

Lemma lower_is_extension e : is_extension (Py.lower e) = is_extension e.
Proof.
  destruct e as [|c x]; simpl; [reflexivity |].
  rewrite lower_ascii_dot, lower_no_dot_slash. now destruct x.
Qed.

(** Every supported extension has the shape of an extension. *)
Lemma allowed_is_extension e : allowed_extension e = true -> is_extension e = true.
Proof.
  unfold allowed_extension, ALLOWED_EXTENSIONS. simpl. intros H.
  repeat (apply orb_true_iff in H as [H | H];
          [apply String.eqb_eq in H; subst e; reflexivity |]).
  discriminate H.
Qed.

Lemma split_slash_not_nil s : Py.split_slash s <> [].
Proof.
  destruct s as [|c s]; simpl; [discriminate |].
  destruct (Ascii.eqb c "/"); [discriminate |].
  destruct (Py.split_slash s); discriminate.
Qed.

Lemma split_slash_no_slash s : no_dot_slash s = true -> Py.split_slash s = [s].
Proof.
  induction s as [|c s IH]; simpl; [reflexivity |]. intros H.
  apply andb_true_iff in H as [H Hs]. apply andb_true_iff in H as [_ Hc].
  apply negb_true_iff in Hc. rewrite Hc, (IH Hs). reflexivity.
Qed.

(** Splitting a name that ends with a slash-free text: the text goes to the
    last part. *)
Lemma split_slash_append a b :
  no_dot_slash b = true ->
  Py.split_slash (a +:+ String "." b) = app_last (Py.split_slash a) (String "." b).
Proof.
  intros Hb. induction a as [|c a IH].
  - rewrite append_nil. simpl. now rewrite (split_slash_no_slash b Hb).
  - rewrite append_cons. simpl. rewrite IH.
    pose proof (split_slash_not_nil a) as Hne.
    destruct (Ascii.eqb c "/").
    + destruct (Py.split_slash a) as [|p ps]; [contradiction | reflexivity].
    + destruct (Py.split_slash a) as [|p [|q ps]]; [contradiction | reflexivity | reflexivity].
Qed.

Lemma last_app_last l b d :
  l <> [] -> List.last (app_last l b) d = List.last l d +:+ b.
Proof.
  induction l as [|x [|y rest] IH]; intros Hne; [contradiction | reflexivity |].
  change (List.last (x :: app_last (y :: rest) b) d = List.last (y :: rest) d +:+ b).
  rewrite <- IH by discriminate.
  destruct (app_last (y :: rest) b) eqn:Happ; [| reflexivity].
  destruct rest; discriminate Happ.
Qed.

Lemma last_filter_kept (f : string -> bool) l d :
  l <> [] -> f (List.last l d) = true ->
  List.last (List.filter f l) d = List.last l d.
Proof.
  induction l as [|x [|y rest] IH]; intros Hne Hkeep; [contradiction | |].
  - simpl in *. now rewrite Hkeep.
  - change (List.last (x :: y :: rest) d) with (List.last (y :: rest) d) in *.
    specialize (IH ltac:(discriminate) Hkeep).
    change (List.filter f (x :: y :: rest))
      with (if f x then x :: List.filter f (y :: rest) else List.filter f (y :: rest)).
    destruct (f x); [| exact IH].
    destruct (List.filter f (y :: rest)) as [|z zs] eqn:Hfilter; [| exact IH].
    (* the last element passes the filter, so the filtered list is not empty *)
    exfalso.
    assert (Hin : In (List.last (y :: rest) d) (List.filter f (y :: rest))).
    { apply filter_In. split; [| exact Hkeep].
      clear. revert y. induction rest as [|z rest IH]; intros y; [now left |].
      right. apply IH. }
    rewrite Hfilter in Hin. contradiction.
Qed.

(** The text after the last slash of a stem that names a file is not empty. *)
Lemma names_a_file_last stem :
  names_a_file stem = true -> List.last (Py.split_slash stem) EmptyString <> EmptyString.
Proof.
  unfold names_a_file. induction stem as [|c s IH]; [discriminate |].
  intros H. simpl in H. simpl Py.split_slash.
  pose proof (split_slash_not_nil s) as Hne.
  destruct s as [|c' s'].
  - apply negb_true_iff in H. rewrite H. simpl. discriminate.
  - specialize (IH H).
    destruct (Ascii.eqb c "/").
    + destruct (Py.split_slash (String c' s')) as [|p ps]; [contradiction | exact IH].
    + destruct (Py.split_slash (String c' s')) as [|p [|q ps]];
        [contradiction | simpl; discriminate | exact IH].
Qed.

Lemma rfind_dot_none x : no_dot_slash x = true -> Py.rfind_dot x = None.
Proof.
  induction x as [|c x IH]; simpl; [reflexivity |]. intros H.
  apply andb_true_iff in H as [H Hx]. apply andb_true_iff in H as [Hc _].
  apply negb_true_iff in Hc. now rewrite (IH Hx), Hc.
Qed.

Lemma rfind_dot_append t x :
  no_dot_slash x = true ->
  Py.rfind_dot (t +:+ String "." x) = Some (String.length t).
Proof.
  intros Hx. induction t as [|c t IH].
  - rewrite append_nil. simpl. now rewrite (rfind_dot_none x Hx).
  - rewrite append_cons. simpl. now rewrite IH.
Qed.

(** The suffix of a file name made of a stem that names a file and of an
    extension is the extension, in the case it is written in. *)
Lemma path_suffix_append stem ext :
  names_a_file stem = true ->
  is_extension ext = true ->
  Py.path_suffix (stem +:+ ext) = ext.
Proof.
  intros Hstem Hext. destruct ext as [|c x]; [discriminate |].
  simpl in Hext. apply andb_true_iff in Hext as [Hext Hx].
  apply andb_true_iff in Hext as [Hc Hfull].
  apply Ascii.eqb_eq in Hc. subst c.
  apply negb_true_iff, String.eqb_neq in Hfull.
  pose proof (names_a_file_last stem Hstem) as Hlast.
  set (t := List.last (Py.split_slash stem) EmptyString) in *.
  assert (Hname : Py.path_name (stem +:+ String "." x) = t +:+ String "." x).
  { unfold Py.path_name. rewrite (split_slash_append stem x Hx).
    rewrite last_filter_kept.
    - apply last_app_last, split_slash_not_nil.
    - destruct (app_last (Py.split_slash stem) (String "." x)) eqn:Happ; [| discriminate].
      pose proof (split_slash_not_nil stem).
      destruct (Py.split_slash stem) as [|p [|q ps]]; [contradiction | discriminate | discriminate].
    - rewrite last_app_last by apply split_slash_not_nil. fold t.
      destruct t as [|c t']; [contradiction |].
      rewrite append_cons. unfold Py.kept_component. simpl.
      destruct t'; [| now destruct (Ascii.eqb c ".")].
      rewrite append_nil. now destruct (Ascii.eqb c "."). }
  unfold Py.path_suffix. rewrite Hname, (rfind_dot_append t x Hx).
  rewrite length_append.
  assert (Ht : (0 < String.length t)%nat) by (destruct t; [contradiction | simpl; lia]).
  assert (Hxl : (0 < String.length x)%nat) by (destruct x; [contradiction | simpl; lia]).
  replace (Nat.ltb 0 (String.length t)) with true by (symmetry; now apply Nat.ltb_lt).
  replace (Nat.ltb (String.length t)
             (String.length t + String.length (String "." x) - 1)) with true
    by (symmetry; apply Nat.ltb_lt; simpl; lia).
  simpl andb. cbv iota.
  replace (String.length t + String.length (String "." x) - String.length t)%nat
    with (String.length (String "." x)) by lia.
  apply substring_append.
Qed.

(** C9. A file whose name is a stem that names a file followed by an
    extension that is, once lowered, a supported one (whatever the case it
    is written in) passes the check of the extension: the extension the
    handler computes is the lowered one; and when the file is not too large
    and the server accepts it, the upload returns and the row and the
    summary of the file carry the lowered extension as [file_type]. *)
Theorem upload_extension_is_lowered (env : Env) (libs : Libs) (session_id : string)
  (stem ext : string) (content : list byte) (w : World) :
  names_a_file stem = true ->
  allowed_extension (Py.lower ext) = true ->
  Py.len content <= MAX_FILE_SIZE ->
  mysql_connect env (connect_calls w) = ConnectOpen ->
  (forall row, insert_rejected env row = None) ->
  file_ext_of {| uf_filename := stem +:+ ext; uf_content := content |} = Py.lower ext
  /\ exists file_info row w',
       upload_files env libs [{| uf_filename := stem +:+ ext; uf_content := content |}]
         session_id w
       = (Return {| ur_message := "Successfully uploaded 1 files";
                    ur_files := [file_info] |}, w')
       /\ uploaded_files_table w' = (uploaded_files_table w ++ [row])%list
       /\ row_original_name row = stem +:+ ext
       /\ row_file_type row = Py.lower ext
       /\ fi_file_type file_info = Py.lower ext.
Proof.
  intros Hstem Hallowed Hsize Hopen Haccept.
  set (file := {| uf_filename := stem +:+ ext; uf_content := content |}).
  assert (Hext : file_ext_of file = Py.lower ext).
  { unfold file_ext_of, file. simpl uf_filename. f_equal.
    apply path_suffix_append; [exact Hstem |].
    rewrite <- lower_is_extension. now apply allowed_is_extension. }
  split; [exact Hext |].
  assert (Hvalid : passes_validation file = true).
  { unfold passes_validation. rewrite Hext, Hallowed.
    replace (Py.len (uf_content file) >? MAX_FILE_SIZE) with false; [reflexivity |].
    symmetry. rewrite Z.gtb_ltb. apply Z.ltb_ge. exact Hsize. }
  unfold upload_files. simpl upload_loop.
  destruct (upload_one_accepted env libs session_id file w Hvalid) as [text Hone].
  rewrite Hone. clear Hone. rewrite Hext.
  match goal with
  | |- context [store_file_info ?e ?s ?fn ?on ?ft ?sz ?fp ?tx ?w0] =>
      destruct (store_file_info_cases e s fn on ft sz fp tx w0)
        as (r1 & w1 & Hstore & _ & _ & Hcase);
      destruct (store_file_info_accepted e s fn on ft sz fp tx w0 Hopen Haccept)
        as (file_info & w1' & Hstore')
  end.
  rewrite Hstore in Hstore'. injection Hstore' as -> ->.
  rewrite Hstore.
  destruct Hcase as (row & Htable & _ & _ & Hname & Htype & _ & _ & _ & Hinfo).
  exists file_info, row, w1'.
  split; [reflexivity |]. split; [exact Htable |]. split; [exact Hname |].
  split; [exact Htype |]. now rewrite Hinfo.
Qed.

Lemma upload_extension_is_lowered_witness :
  file_ext_of {| uf_filename := "REPORT" +:+ ".TXT";
                 uf_content := list_byte_of_string "hello" |} = Py.lower ".TXT"
  /\ exists file_info row w',
       upload_files Reference.env Reference.libs
         [{| uf_filename := "REPORT" +:+ ".TXT";
             uf_content := list_byte_of_string "hello" |}] "s1" Reference.world0
       = (Return {| ur_message := "Successfully uploaded 1 files";
                    ur_files := [file_info] |}, w')
       /\ uploaded_files_table w' = (uploaded_files_table Reference.world0 ++ [row])%list
       /\ row_original_name row = "REPORT" +:+ ".TXT"
       /\ row_file_type row = Py.lower ".TXT"
       /\ fi_file_type file_info = Py.lower ".TXT".
Proof.
  apply (upload_extension_is_lowered Reference.env Reference.libs "s1" "REPORT" ".TXT"
           (list_byte_of_string "hello") Reference.world0).
  - reflexivity.
  - reflexivity.
  - vm_compute. discriminate.
  - reflexivity.
  - intros row. reflexivity.
Defined.

(** The lowered form of [".TXT"] is [".txt"]; a name that is nothing but an
    extension has no suffix for [pathlib], and is refused. *)
Example lower_TXT : Py.lower ".TXT" = ".txt".
Proof. reflexivity. Qed.

Example bare_extension_has_no_suffix :
  Py.path_suffix ".TXT" = EmptyString
  /\ passes_validation (Reference.file ".TXT" "hello") = false.
Proof. split; vm_compute; reflexivity. Qed.


(** * Further properties of the service *)

(** ** get_db_connection: attempts and waiting time *)

Lemma total_sleep_app evs1 evs2 :
  total_sleep (evs1 ++ evs2) = total_sleep evs1 + total_sleep evs2.
Proof.
  induction evs1 as [|[a|s] rest IH]; simpl; [reflexivity | exact IH | rewrite IH; lia].
Qed.

Lemma pow2_succ a : 0 <= a -> 2 ^ (a + 1) = 2 * 2 ^ a.
Proof. intros Ha. change (a + 1) with (Z.succ a). now apply Z.pow_succ_r. Qed.

Lemma pow2_pos a : 0 <= a -> 0 < 2 ^ a.
Proof. intros Ha. now apply Z.pow_pos_nonneg. Qed.

(** The loop from attempt [attempt] on, whatever the server does: it
    returns, it makes at most [remaining] attempts, and what it sleeps in
    all is at most the sum of the powers of two from [2 ^ attempt] to
    [2 ^ (max_retries - 2)]. *)
Lemma get_db_connection_loop_bounds env max_retries :
  forall remaining attempt w,
  0 <= attempt ->
  attempt + Z.of_nat remaining = max_retries ->
  exists c w' evs,
    get_db_connection_loop env max_retries attempt remaining w = (Return c, w')
    /\ trace w' = (trace w ++ evs)%list
    /\ connect_calls w' = (connect_calls w + connect_count evs)%nat
    /\ (connect_count evs <= remaining)%nat
    /\ 0 <= total_sleep evs <= Z.max 0 (2 ^ (max_retries - 1) - 2 ^ attempt).
Proof.
  induction remaining as [|r IH]; intros attempt w Hnonneg Hsum; simpl.
  - exists None, w, []. simpl. rewrite app_nil_r, Nat.add_0_r.
    repeat split; try lia.
  - assert (Hstep : attempt + 1 + Z.of_nat r = max_retries) by lia.
    destruct (mysql_connect env (connect_calls w)) as [| |msg].
    + exists (Some (Connection (connect_calls w))), (record_connect attempt w),
        [EvConnect attempt].
      simpl. repeat split; try lia.
    + destruct (IH (attempt + 1) (record_connect attempt w) ltac:(lia) Hstep)
        as (c & w' & evs & Hrun & Htrace & Hcalls & Hcount & Hlow & Hhigh).
      exists c, w', (EvConnect attempt :: evs). simpl in *.
      split; [exact Hrun |]. split; [now rewrite Htrace, <- app_assoc |].
      split; [lia |]. split; [lia |]. split; [exact Hlow |].
      pose proof (pow2_succ attempt Hnonneg). pose proof (pow2_pos attempt Hnonneg). lia.
    + destruct (attempt <? max_retries - 1) eqn:Hlast.
      * apply Z.ltb_lt in Hlast.
        destruct (IH (attempt + 1) (sleep (2 ^ attempt) (record_connect attempt w))
                    ltac:(lia) Hstep)
          as (c & w' & evs & Hrun & Htrace & Hcalls & Hcount & Hlow & Hhigh).
        exists c, w', (EvConnect attempt :: EvSleep (2 ^ attempt) :: evs). simpl in *.
        split; [exact Hrun |]. split; [now rewrite Htrace, <- !app_assoc |].
        split; [lia |]. split; [lia |].
        pose proof (pow2_succ attempt Hnonneg). pose proof (pow2_pos attempt Hnonneg).
        assert (2 ^ (attempt + 1) <= 2 ^ (max_retries - 1))
          by (apply Z.pow_le_mono_r; lia).
        lia.
      * exists None, (record_connect attempt w), [EvConnect attempt].
        simpl. repeat split; try lia.
Qed.

(** X3. Whatever the server answers, [get_db_connection] returns (it does
    not raise), leaves disk and table alone, makes at most [max_retries]
    attempts and sleeps at most [2 ^ (max_retries - 1) - 1] seconds in all;
    with [max_retries <= 0] it makes no attempt at all. *)
Theorem get_db_connection_bounded (env : Env) (max_retries : Z) (w : World) :
  exists c w' evs,
    get_db_connection env max_retries w = (Return c, w')
    /\ same_data w w'
    /\ trace w' = (trace w ++ evs)%list
    /\ connect_calls w' = (connect_calls w + connect_count evs)%nat
    /\ (connect_count evs <= Z.to_nat max_retries)%nat
    /\ 0 <= total_sleep evs <= Z.max 0 (2 ^ (max_retries - 1) - 1).
Proof.
  unfold get_db_connection.
  destruct (Z.le_gt_cases 0 max_retries) as [Hpos | Hneg].
  - destruct (get_db_connection_loop_bounds env max_retries (Z.to_nat max_retries) 0 w)
      as (c & w' & evs & Hrun & Htrace & Hcalls & Hcount & Hsleep);
      [lia | lia |].
    exists c, w', evs. split; [exact Hrun |].
    split; [| now repeat split].
    destruct (get_db_connection_loop_total env max_retries (Z.to_nat max_retries) 0 w)
      as (c2 & w2 & Hrun2 & Hsame).
    rewrite Hrun in Hrun2. now injection Hrun2 as _ <-.
  - replace (Z.to_nat max_retries) with O by lia. simpl.
    exists None, w, []. simpl. rewrite app_nil_r, Nat.add_0_r.
    split; [reflexivity |]. split; [apply same_data_refl |]. repeat split; lia.
Qed.

Lemma backoff_trace_count max_retries :
  forall remaining attempt,
  attempt + Z.of_nat remaining = max_retries ->
  connect_count (backoff_trace max_retries attempt remaining) = remaining.
Proof.
  induction remaining as [|r IH]; intros attempt Hsum; simpl; [reflexivity |].
  destruct (attempt <? max_retries - 1) eqn:Hlast; simpl.
  - rewrite IH; [reflexivity | lia].
  - apply Z.ltb_ge in Hlast. f_equal. lia.
Qed.

Lemma backoff_trace_sleep max_retries :
  forall remaining attempt,
  0 <= attempt ->
  attempt + Z.of_nat (S remaining) = max_retries ->
  total_sleep (backoff_trace max_retries attempt (S remaining))
  = 2 ^ (max_retries - 1) - 2 ^ attempt.
Proof.
  induction remaining as [|r IH]; intros attempt Hnonneg Hsum.
  - simpl. replace (attempt <? max_retries - 1) with false
      by (symmetry; apply Z.ltb_ge; lia).
    simpl. replace (max_retries - 1) with attempt by lia. lia.
  - change (backoff_trace max_retries attempt (S (S r)))
      with (if attempt <? max_retries - 1
            then EvConnect attempt :: EvSleep (2 ^ attempt)
                   :: backoff_trace max_retries (attempt + 1) (S r)
            else [EvConnect attempt]).
    replace (attempt <? max_retries - 1) with true
      by (symmetry; apply Z.ltb_lt; lia).
    cbn [total_sleep]. rewrite IH by lia.
    rewrite (pow2_succ attempt Hnonneg). lia.
Qed.

(** X1. Against a server on which every attempt raises
    [mysql.connector.Error], [get_db_connection] with [max_retries >= 1]
    returns [None] after exactly [max_retries] attempts; it sleeps
    [2 ^ attempt] seconds after each attempt but the last, that is
    [2 ^ (max_retries - 1) - 1] seconds in all. *)
Theorem get_db_connection_unreachable (env : Env) (max_retries : Z) (w : World) :
  1 <= max_retries ->
  (forall n, (connect_calls w <= n)%nat -> exists msg, mysql_connect env n = ConnectError msg) ->
  exists w',
    get_db_connection env max_retries w = (Return None, w')
    /\ trace w' = (trace w ++ backoff_trace max_retries 0 (Z.to_nat max_retries))%list
    /\ connect_count (backoff_trace max_retries 0 (Z.to_nat max_retries))
       = Z.to_nat max_retries
    /\ total_sleep (backoff_trace max_retries 0 (Z.to_nat max_retries))
       = 2 ^ (max_retries - 1) - 1.
Proof.
  intros Hpos Herr. unfold get_db_connection.
  destruct (get_db_connection_loop_all_errors env max_retries (Z.to_nat max_retries) 0 w Herr)
    as (w' & Hrun & Htrace & _).
  exists w'. split; [exact Hrun |]. split; [exact Htrace |]. split.
  - apply backoff_trace_count. lia.
  - destruct (Z.to_nat max_retries) as [|r] eqn:Hr; [lia |].
    rewrite backoff_trace_sleep; [reflexivity | lia | lia].
Qed.

Lemma get_db_connection_unreachable_witness :
  exists w',
    get_db_connection Reference.env_down 5 Reference.world0 = (Return None, w')
    /\ trace w' = (trace Reference.world0 ++ backoff_trace 5 0 (Z.to_nat 5))%list
    /\ connect_count (backoff_trace 5 0 (Z.to_nat 5)) = Z.to_nat 5
    /\ total_sleep (backoff_trace 5 0 (Z.to_nat 5)) = 2 ^ (5 - 1) - 1.
Proof.
  apply (get_db_connection_unreachable Reference.env_down 5 Reference.world0).
  - lia.
  - intros n _. eexists. reflexivity.
Defined.

(** The loop up to the first open connection, with the world it leaves. *)
Lemma get_db_connection_loop_first_open_calls env max_retries :
  forall k remaining attempt w,
  attempt + Z.of_nat remaining = max_retries ->
  (k < remaining)%nat ->
  mysql_connect env (connect_calls w + k) = ConnectOpen ->
  (forall j, (j < k)%nat -> mysql_connect env (connect_calls w + j) <> ConnectOpen) ->
  connect_calls (snd (get_db_connection_loop env max_retries attempt remaining w))
  = S (connect_calls w + k).
Proof.
  induction k as [|k IH]; intros remaining attempt w Hsum Hlt Hopen Hearlier;
    destruct remaining as [|r]; try lia; simpl.
  - rewrite Nat.add_0_r in Hopen. rewrite Hopen. simpl. now rewrite Nat.add_0_r.
  - pose proof (Hearlier O ltac:(lia)) as Hfirst. rewrite Nat.add_0_r in Hfirst.
    assert (Hnext : forall w1, connect_calls w1 = S (connect_calls w) ->
              connect_calls (snd (get_db_connection_loop env max_retries (attempt + 1) r w1))
              = S (connect_calls w + S k)).
    { intros w1 Hcalls. rewrite Nat.add_succ_r, <- Nat.add_succ_l, <- Hcalls.
      apply IH; [lia | lia | |].
      - rewrite Hcalls. simpl. now rewrite <- Nat.add_succ_r.
      - intros j Hj. rewrite Hcalls. simpl. rewrite <- Nat.add_succ_r.
        apply Hearlier. lia. }
    destruct (mysql_connect env (connect_calls w)) as [| |msg]; [contradiction | |].
    + now apply Hnext.
    + replace (attempt <? max_retries - 1) with true
        by (symmetry; apply Z.ltb_lt; lia).
      now apply Hnext.
Qed.

(** X2. When the first open connection comes at the call number [k] from
    now, with [k < max_retries], [get_db_connection] returns that
    connection, whatever way the earlier attempts failed, and makes no
    attempt after it. *)
Theorem get_db_connection_returns_first_open (env : Env) (max_retries : Z)
  (w : World) (k : nat) :
  (k < Z.to_nat max_retries)%nat ->
  mysql_connect env (connect_calls w + k) = ConnectOpen ->
  (forall j, (j < k)%nat -> mysql_connect env (connect_calls w + j) <> ConnectOpen) ->
  fst (get_db_connection env max_retries w)
  = Return (Some (Connection (connect_calls w + k)))
  /\ connect_calls (snd (get_db_connection env max_retries w))
     = S (connect_calls w + k).
Proof.
  intros Hlt Hopen Hearlier. split.
  - now apply get_db_connection_first_open.
  - unfold get_db_connection.
    apply get_db_connection_loop_first_open_calls; [lia | exact Hlt | exact Hopen | exact Hearlier].
Qed.

Lemma get_db_connection_returns_first_open_witness :
  fst (get_db_connection Reference.env_flaky 5 Reference.world0)
  = Return (Some (Connection (connect_calls Reference.world0 + 1)))
  /\ connect_calls (snd (get_db_connection Reference.env_flaky 5 Reference.world0))
     = S (connect_calls Reference.world0 + 1).
Proof.
  apply (get_db_connection_returns_first_open Reference.env_flaky 5 Reference.world0 1).
  - vm_compute. lia.
  - reflexivity.
  - intros j Hj. assert (j = O) by lia. subst j. discriminate.
Defined.

(** ** health_check *)

(** X4. The health check never raises and never sleeps: it makes exactly
    one connection attempt, changes neither disk nor table, and reports
    ["healthy"] exactly when that one attempt gave an open connection and
    the upload directory exists and is a directory; any other outcome,
    exceptions of the probes included, is reported as ["degraded"]. *)
Theorem health_check_single_attempt (env : Env) (dir_exists dir_is_dir : result bool)
  (w : World) :
  exists status w',
    health_check env dir_exists dir_is_dir w = (Return status, w')
    /\ same_data w w'
    /\ trace w' = (trace w ++ [EvConnect 0])%list
    /\ hs_database status
       = Some (match mysql_connect env (connect_calls w) with
               | ConnectOpen => "healthy"
               | _ => "unhealthy"
               end)
    /\ hs_storage status
       = Some (match dir_exists, dir_is_dir with
               | Return true, Return true => "healthy"
               | _, _ => "unhealthy"
               end)
    /\ hs_status status
       = match mysql_connect env (connect_calls w), dir_exists, dir_is_dir with
         | ConnectOpen, Return true, Return true => "healthy"
         | _, _, _ => "degraded"
         end.
Proof.
  unfold health_check, bind, catch, get_db_connection, lift, ret. simpl.
  destruct (mysql_connect env (connect_calls w)) as [| |msg]; simpl;
    destruct dir_exists as [[|]|e1]; simpl;
    try (destruct dir_is_dir as [[|]|e2]; simpl);
    eexists _, _; (split; [reflexivity |]);
    (split; [apply same_data_record_connect |]); repeat split.
Qed.

(** ** extract_text_from_file: the branches *)

Lemma pdf_pages_text_failure before e after :
  forall text, exists e', pdf_pages_text (before ++ Raise e :: after) text = Raise e'.
Proof.
  induction before as [|[t|e0] rest IH]; intros text; simpl; eauto.
Qed.

(** X5. One page whose [extract_text()] raises is enough for the PDF
    placeholder: the text of the pages read before it is dropped. *)
Theorem extract_text_pdf_page_failure (libs : Libs) (pdf : PyPDF2_module)
  (fs : gmap string (list byte)) (file_path : string) (content : list byte)
  (before after : list (result string)) (e : exn) :
  PyPDF2 libs = Some pdf ->
  fs !! file_path = Some content ->
  PdfReader_pages pdf content = Return (before ++ Raise e :: after)%list ->
  extract_text_from_file libs fs file_path ".pdf" = Return PDF_PLACEHOLDER.
Proof.
  intros Hlib Hfile Hpages. unfold extract_text_from_file.
  rewrite (open_read_Some _ _ _ Hfile), Hlib. simpl. rewrite Hpages. simpl.
  destruct (pdf_pages_text_failure before e after EmptyString) as [e' He'].
  now rewrite He'.
Qed.

(** X6. For a PDF, a DOCX and a CSV file that their parser reads, the
    extracted text is the text of the pages, of the paragraphs, of the rows
    (each row with its fields joined by [", "]), in order, each followed by
    a line break. *)
Theorem extract_text_lines (libs : Libs) (fs : gmap string (list byte))
  (file_path : string) (content : list byte) :
  fs !! file_path = Some content ->
  (forall pdf texts,
      PyPDF2 libs = Some pdf ->
      PdfReader_pages pdf content = Return (List.map Return texts) ->
      extract_text_from_file libs fs file_path ".pdf" = Return (lines_text texts))
  /\ (forall word paragraphs,
      docx libs = Some word ->
      Document_paragraphs word content = Return paragraphs ->
      extract_text_from_file libs fs file_path ".docx" = Return (lines_text paragraphs))
  /\ (forall rows,
      csv_reader libs (read_text libs content) = Return rows ->
      extract_text_from_file libs fs file_path ".csv"
      = Return (lines_text (List.map (Py.join ", ") rows))).
Proof.
  intros Hfile. unfold extract_text_from_file.
  rewrite (open_read_Some _ _ _ Hfile). split; [| split].
  - intros pdf texts Hlib Hpages. rewrite Hlib. simpl. rewrite Hpages. simpl.
    now rewrite pdf_pages_text_lines.
  - intros word paragraphs Hlib Hdoc. rewrite Hlib. simpl. rewrite Hdoc. simpl.
    now rewrite paragraphs_text_lines.
  - intros rows Hrows. simpl. rewrite Hrows. simpl.
    destruct (PyPDF2 libs), (docx libs); simpl; now rewrite csv_rows_text_lines.
Qed.

Lemma extract_text_pdf_page_failure_witness :
  extract_text_from_file (libs_with pdf_bad_second_page) one_file_store
    "/app/uploads/f" ".pdf"
  = Return PDF_PLACEHOLDER.
Proof.
  apply (extract_text_pdf_page_failure (libs_with pdf_bad_second_page)
           pdf_bad_second_page one_file_store "/app/uploads/f"
           (list_byte_of_string "a,b") [Return "page one"] [Return "page three"]
           (LibraryError "bad stream")); reflexivity.
Defined.

Lemma extract_text_lines_witness :
  extract_text_from_file (libs_with pdf_two_pages) one_file_store "/app/uploads/f" ".pdf"
  = Return (lines_text ["page one"; "page two"])
  /\ extract_text_from_file (libs_with pdf_two_pages) one_file_store "/app/uploads/f" ".docx"
     = Return (lines_text ["first"; "second"])
  /\ extract_text_from_file (libs_with pdf_two_pages) one_file_store "/app/uploads/f" ".csv"
     = Return (lines_text [Py.join ", " ["a"; "b"]]).
Proof.
  destruct (extract_text_lines (libs_with pdf_two_pages) one_file_store "/app/uploads/f"
              (list_byte_of_string "a,b")) as (Hpdf & Hdocx & Hcsv); [reflexivity |].
  split; [| split].
  - apply (Hpdf pdf_two_pages ["page one"; "page two"]); reflexivity.
  - apply (Hdocx docx_two_paragraphs ["first"; "second"]); reflexivity.
  - apply (Hcsv [["a"; "b"]]). vm_compute. reflexivity.
Defined.

(** X7. An extension that is not, letter for letter, one of the six the
    extractor knows gets the placeholder of an unsupported file type, and
    the file is not even opened: the answer is the same when it is missing.
    The comparison is case-sensitive. *)
Theorem extract_text_unknown_extension (libs : Libs) (fs : gmap string (list byte))
  (file_path file_ext : string) :
  ~ In file_ext extractor_extensions ->
  extract_text_from_file libs fs file_path file_ext = Return UNSUPPORTED_PLACEHOLDER.
Proof.
  intros Hnot. unfold extract_text_from_file, extractor_extensions in *.
  assert (Hne : forall e, In e [".txt"; ".md"; ".pdf"; ".docx"; ".csv"; ".json"] ->
                          String.eqb file_ext e = false).
  { intros e He. apply String.eqb_neq. intros ->. now apply Hnot. }
  rewrite !Hne by (simpl; tauto). reflexivity.
Qed.

Lemma extract_text_unknown_extension_witness :
  extract_text_from_file Reference.libs ∅ "/app/uploads/f" ".TXT"
  = Return UNSUPPORTED_PLACEHOLDER.
Proof.
  apply (extract_text_unknown_extension Reference.libs ∅ "/app/uploads/f" ".TXT").
  intros Hin. repeat (destruct Hin as [Hin | Hin]; [discriminate Hin |]). exact Hin.
Defined.

(** X8. The DOCX branch: without the [docx] module a [.docx] file gets the
    placeholder of an unsupported file type; with it, a document the module
    cannot read (or a missing file) gets the DOCX placeholder. *)
Theorem extract_text_docx_degraded (libs : Libs) (fs : gmap string (list byte))
  (file_path : string) :
  (docx libs = None ->
   extract_text_from_file libs fs file_path ".docx" = Return UNSUPPORTED_PLACEHOLDER)
  /\ (forall word,
      docx libs = Some word ->
      (fs !! file_path = None
       \/ exists content e, fs !! file_path = Some content
                            /\ Document_paragraphs word content = Raise e) ->
      extract_text_from_file libs fs file_path ".docx" = Return DOCX_PLACEHOLDER).
Proof.
  unfold extract_text_from_file, open_read. split.
  - intros Hnone. rewrite Hnone. reflexivity.
  - intros word Hlib [Hmissing | (content & e & Hfile & Hdoc)]; rewrite Hlib; simpl.
    + now rewrite Hmissing.
    + rewrite Hfile. simpl. now rewrite Hdoc.
Qed.

Lemma extract_text_docx_degraded_witness :
  extract_text_from_file Reference.libs one_file_store "/app/uploads/f" ".docx"
  = Return UNSUPPORTED_PLACEHOLDER
  /\ extract_text_from_file (libs_with pdf_two_pages) one_file_store
       "/app/uploads/missing" ".docx"
     = Return DOCX_PLACEHOLDER.
Proof.
  split.
  - apply (extract_text_docx_degraded Reference.libs one_file_store "/app/uploads/f").
    reflexivity.
  - apply (extract_text_docx_degraded (libs_with pdf_two_pages) one_file_store
             "/app/uploads/missing") with (word := docx_two_paragraphs);
      [reflexivity | left; reflexivity].
Defined.

(** X9. A file that is not on disk: for [.txt] and [.md] the exception of
    [open] reaches the outer handler and the answer is ["Text extraction
    failed"]; for [.csv] and [.json] it is caught by the handler of the
    branch and the answer is the placeholder of the format. *)
Theorem extract_text_file_missing (libs : Libs) (fs : gmap string (list byte))
  (file_path : string) :
  fs !! file_path = None ->
  extract_text_from_file libs fs file_path ".txt" = Return FAILED_PLACEHOLDER
  /\ extract_text_from_file libs fs file_path ".md" = Return FAILED_PLACEHOLDER
  /\ extract_text_from_file libs fs file_path ".csv" = Return CSV_PLACEHOLDER
  /\ extract_text_from_file libs fs file_path ".json" = Return JSON_PLACEHOLDER.
Proof.
  intros Hmissing. unfold extract_text_from_file, open_read. rewrite Hmissing.
  repeat split; reflexivity.
Qed.

Lemma extract_text_file_missing_witness :
  extract_text_from_file Reference.libs one_file_store "/app/uploads/gone" ".txt"
  = Return FAILED_PLACEHOLDER
  /\ extract_text_from_file Reference.libs one_file_store "/app/uploads/gone" ".md"
     = Return FAILED_PLACEHOLDER
  /\ extract_text_from_file Reference.libs one_file_store "/app/uploads/gone" ".csv"
     = Return CSV_PLACEHOLDER
  /\ extract_text_from_file Reference.libs one_file_store "/app/uploads/gone" ".json"
     = Return JSON_PLACEHOLDER.
Proof.
  apply (extract_text_file_missing Reference.libs one_file_store "/app/uploads/gone").
  reflexivity.
Defined.

(** ** store_file_info: failure *)

(** X10. When [store_file_info] raises, the exception is a plain
    [Exception] whose message starts with ["Failed to store file info: "],
    followed by ["Database connection failed"] when no connection was
    obtained or by the message of the server when the INSERT was refused;
    and nothing was written: table, key counter and disk are as before. *)
Theorem store_file_info_failure (env : Env)
  (session_id filename original_name file_type : string) (file_size : Z)
  (file_path : string) (extracted_text : option string) (w w' : World) (e : exn) :
  store_file_info env session_id filename original_name file_type file_size
    file_path extracted_text w = (Raise e, w') ->
  same_data w w'
  /\ ((fst (get_db_connection env default_max_retries w) = Return None
       /\ e = PyException "Failed to store file info: Database connection failed")
      \/ exists row msg,
           insert_rejected env row = Some msg
           /\ e = PyException ("Failed to store file info: " +:+ msg)).
Proof.
  unfold store_file_info, catch, bind.
  destruct (get_db_connection_total env default_max_retries w)
    as (c & w1 & Hrun & Hsame).
  rewrite Hrun. destruct c as [conn|]; simpl.
  - unfold execute_insert.
    match goal with
    | |- context [insert_rejected env ?row] =>
        destruct (insert_rejected env row) as [msg|] eqn:Hrej
    end; simpl; [| discriminate].
    intros Heq. injection Heq as <- <-. split; [exact Hsame |].
    right. eexists _, msg. split; [exact Hrej | reflexivity].
  - intros Heq. injection Heq as <- <-. split; [exact Hsame |]. now left.
Qed.

Lemma store_file_info_failure_witness :
  same_data Reference.world0 (record_connect 0 Reference.world0)
  /\ ((fst (get_db_connection env_rejecting default_max_retries Reference.world0)
       = Return None
       /\ PyException "Failed to store file info: Data too long for column 'extracted_text'"
          = PyException "Failed to store file info: Database connection failed")
      \/ exists row msg,
           insert_rejected env_rejecting row = Some msg
           /\ PyException "Failed to store file info: Data too long for column 'extracted_text'"
              = PyException ("Failed to store file info: " +:+ msg)).
Proof.
  apply (store_file_info_failure env_rejecting "s1" "0000-0.txt" "a.txt" ".txt" 5
           "/app/uploads/0000-0.txt" (Some "hello") Reference.world0
           (record_connect 0 Reference.world0)
           (PyException "Failed to store file info: Data too long for column 'extracted_text'")).
  reflexivity.
Defined.

(** ** upload_files: accepted files *)

Lemma reference_env_always_accepts : always_accepts Reference.env.
Proof. split; intros; reflexivity. Qed.

(** One file that passes the checks, on a server that accepts the
    connection and the row: the dictionary and the world after it. *)
Lemma upload_one_success env libs session_id file w text :
  passes_validation file = true ->
  mysql_connect env (connect_calls w) = ConnectOpen ->
  (forall row, insert_rejected env row = None) ->
  text_of_upload libs env file w = Return text ->
  upload_one env libs session_id file w
  = (Return (summary_of env file text w),
     world_after_upload env session_id file text w).
Proof.
  unfold passes_validation, upload_one, text_of_upload, stored_path, file_ext_of.
  intros Hcheck Hopen Haccept Htext.
  apply andb_true_iff in Hcheck as [Hsize Hext].
  apply negb_true_iff in Hsize. rewrite Hsize, Hext. simpl.
  unfold bind at 1. unfold next_uuid4.
  unfold bind at 1. unfold write_file, modify.
  unfold bind at 1. cbn [content_store set_content_store bump_uuid_calls].
  rewrite Htext.
  unfold store_file_info, catch, bind.
  rewrite get_db_connection_first_attempt; [| reflexivity | exact Hopen].
  unfold execute_insert. rewrite Haccept. reflexivity.
Qed.

(** On a server that always accepts, the loop gets through a batch of
    files that pass the checks. *)
Lemma upload_loop_accepted env libs session_id files :
  always_accepts env ->
  Forall (fun file => passes_validation file = true) files ->
  forall uploaded_files w,
  exists uploaded_files' w',
    upload_loop env libs session_id files uploaded_files w
    = (Return tt, uploaded_files', w').
Proof.
  intros [Hopen Haccept]. induction 1 as [|file rest Hvalid _ IH]; intros acc w; simpl.
  - eauto.
  - destruct (extract_text_returns libs
                (<[stored_path env (uuid_calls w) file := uf_content file]>
                   (content_store w))
                (stored_path env (uuid_calls w) file) (file_ext_of file))
      as [text Htext].
    rewrite (upload_one_success env libs session_id file w text Hvalid
               (Hopen _) Haccept Htext).
    apply IH.
Qed.

Lemma write_all_lookup_stored env files :
  forall n fs,
  List.NoDup (stored_paths env n files) ->
  Forall2 (fun file p => write_all env n files fs !! p = Some (uf_content file))
    files (stored_paths env n files).
Proof.
  induction files as [|f rest IH]; intros n fs Hnodup; simpl; constructor.
  - inversion Hnodup as [|p ps Hnotin Hrest]; subst.
    rewrite write_all_lookup_other by exact Hnotin. apply lookup_insert_eq.
  - apply IH. now inversion Hnodup.
Qed.

(** X11. A batch in which every file passes the two checks, on a server
    that always accepts: the call returns one summary per file, in the
    order of the batch, and says how many; one row per file is appended to
    the table, in the same order, recording the session, the original name,
    the lowered extension and the size; and when the generated names are
    distinct, every file of the batch is on disk under the path its summary
    and its row give. *)
Theorem upload_files_all_accepted (env : Env) (libs : Libs)
  (files : list UploadFile) (session_id : string) (w : World) :
  always_accepts env ->
  Forall (fun file => passes_validation file = true) files ->
  exists summaries rows w',
    upload_files env libs files session_id w
    = (Return {| ur_message := "Successfully uploaded "
                               +:+ Py.str_int (Py.len files) +:+ " files";
                 ur_files := summaries |}, w')
    /\ uploaded_files_table w' = (uploaded_files_table w ++ rows)%list
    /\ Forall2 (records session_id) files rows
    /\ List.map fi_file_path summaries = stored_paths env (uuid_calls w) files
    /\ List.map row_file_path rows = stored_paths env (uuid_calls w) files
    /\ (List.NoDup (stored_paths env (uuid_calls w) files) ->
        Forall2 (fun file p => content_store w' !! p = Some (uf_content file))
          files (stored_paths env (uuid_calls w) files)).
Proof.
  intros Henv Hvalid. unfold upload_files.
  destruct (upload_loop_accepted env libs session_id files Henv Hvalid [] w)
    as (acc1 & w1 & Hret).
  destruct (upload_loop_cases env libs session_id files [] w)
    as (r & acc' & w' & committed & rows & sums & Hloop & Hacc & Htab & Hrows
        & Hsums & Hrec & _ & Hres).
  rewrite Hret in Hloop. injection Hloop as <- <- <-.
  destruct Hres as [<- Hstore]. simpl in Hacc. subst acc1.
  exists sums, rows, w1. rewrite Hret.
  assert (Hlen : Py.len sums = Py.len files).
  { unfold Py.len. f_equal.
    rewrite <- (List.length_map fi_file_path sums), Hsums.
    clear. generalize (uuid_calls w). induction files as [|f rest IH]; intros n;
      simpl; [reflexivity | now rewrite IH]. }
  rewrite Hlen. split; [reflexivity |].
  repeat (split; [assumption |]).
  intros Hnodup. rewrite Hstore. now apply write_all_lookup_stored.
Qed.

Lemma upload_files_all_accepted_witness :
  exists summaries rows w',
    upload_files Reference.env Reference.libs batch_txt_txt "s1" Reference.world0
    = (Return {| ur_message := "Successfully uploaded "
                               +:+ Py.str_int (Py.len batch_txt_txt) +:+ " files";
                 ur_files := summaries |}, w')
    /\ uploaded_files_table w'
       = (uploaded_files_table Reference.world0 ++ rows)%list
    /\ Forall2 (records "s1") batch_txt_txt rows
    /\ List.map fi_file_path summaries
       = stored_paths Reference.env (uuid_calls Reference.world0) batch_txt_txt
    /\ List.map row_file_path rows
       = stored_paths Reference.env (uuid_calls Reference.world0) batch_txt_txt
    /\ (List.NoDup (stored_paths Reference.env (uuid_calls Reference.world0) batch_txt_txt) ->
        Forall2 (fun file p => content_store w' !! p = Some (uf_content file))
          batch_txt_txt
          (stored_paths Reference.env (uuid_calls Reference.world0) batch_txt_txt)).
Proof.
  apply (upload_files_all_accepted Reference.env Reference.libs batch_txt_txt "s1"
           Reference.world0).
  - exact reference_env_always_accepts.
  - repeat constructor.
Defined.

(** X12. A batch whose first file fails one of the two checks is refused
    without any effect: the world after the call is the world before it.
    The caller does not see the status 400 the check raised: the answer has
    status 500 and carries the 400 in the text of its detail. *)
Theorem upload_files_first_file_refused (env : Env) (libs : Libs)
  (file : UploadFile) (rest : list UploadFile) (session_id : string) (w : World) :
  passes_validation file = false ->
  exists detail,
    upload_files env libs (file :: rest) session_id w
    = (Raise (HTTPException 500 ("400: " +:+ detail)), w).
Proof.
  intros Hinvalid. unfold upload_files. simpl.
  destruct (upload_one_rejected env libs session_id file w Hinvalid) as [detail Hone].
  rewrite Hone. simpl. exists detail. reflexivity.
Qed.

Lemma upload_files_first_file_refused_witness :
  exists detail,
    upload_files Reference.env Reference.libs
      [Reference.file "b.exe" "MZ"; Reference.file "a.txt" "hello"] "s1"
      Reference.world0
    = (Raise (HTTPException 500 ("400: " +:+ detail)), Reference.world0).
Proof.
  apply (upload_files_first_file_refused Reference.env Reference.libs
           (Reference.file "b.exe" "MZ") [Reference.file "a.txt" "hello"] "s1"
           Reference.world0).
  vm_compute. reflexivity.
Defined.

(** ** delete_file *)

Lemma select_by_id_deleted file_id table :
  select_by_id file_id (delete_by_id file_id table) = None.
Proof.
  unfold select_by_id, delete_by_id.
  induction table as [|r rest IH]; simpl; [reflexivity |].
  destruct (row_id r =? file_id) eqn:Hid; simpl; [exact IH |].
  now rewrite Hid.
Qed.

Lemma delete_by_id_In file_id table r :
  In r (delete_by_id file_id table) <-> In r table /\ row_id r <> file_id.
Proof.
  unfold delete_by_id. rewrite filter_In.
  rewrite negb_true_iff, Z.eqb_neq. reflexivity.
Qed.

(** The three ways [delete_file] ends: it returns; it raises before the
    DELETE; it raises after the DELETE, because [os.remove] refused the
    path of the row. *)
Lemma delete_file_cases env file_id w :
  exists r w',
    delete_file env file_id w = (r, w')
    /\ match r with
       | Return message =>
           message = "File deleted successfully"
           /\ exists row,
                select_by_id file_id (uploaded_files_table w) = Some row
                /\ (content_store w !! row_file_path row = None ->
                    remove_refused env (row_file_path row) = None)
                /\ uploaded_files_table w'
                   = delete_by_id file_id (uploaded_files_table w)
                /\ content_store w' = delete (row_file_path row) (content_store w)
                /\ auto_increment w' = auto_increment w
                /\ uuid_calls w' = uuid_calls w
       | Raise e =>
           e = HTTPException 500 "Failed to delete file"
           /\ (same_data w w'
               \/ exists row msg,
                    select_by_id file_id (uploaded_files_table w) = Some row
                    /\ content_store w !! row_file_path row = None
                    /\ remove_refused env (row_file_path row) = Some msg
                    /\ uploaded_files_table w'
                       = delete_by_id file_id (uploaded_files_table w)
                    /\ content_store w' = content_store w
                    /\ auto_increment w' = auto_increment w
                    /\ uuid_calls w' = uuid_calls w)
       end.
Proof.
  unfold delete_file, catch, bind.
  destruct (get_db_connection_total env default_max_retries w)
    as (c & w1 & Hrun & Hsame).
  pose proof Hsame as (Hfs & Htable & Hauto & Huuid).
  rewrite Hrun. destruct c as [conn|]; simpl.
  - unfold gets. rewrite Htable.
    destruct (select_by_id file_id (uploaded_files_table w)) as [row|] eqn:Hrow; simpl.
    + unfold pass_FileNotFoundError, remove_if_exists, path_exists, catch. simpl.
      destruct (content_store w1 !! row_file_path row) eqn:Hlook; simpl.
      * eexists _, _. split; [reflexivity |]. split; [reflexivity |].
        exists row. simpl. rewrite Htable, Hfs. rewrite Hfs in Hlook.
        repeat split; try assumption. intros Habs. congruence.
      * rewrite Hfs in Hlook.
        destruct (remove_refused env (row_file_path row)) as [msg|] eqn:Hrefused; simpl.
        -- eexists _, _. split; [reflexivity |]. split; [reflexivity |].
           right. exists row, msg. simpl. rewrite Htable.
           repeat split; assumption.
        -- eexists _, _. split; [reflexivity |]. split; [reflexivity |].
           exists row. simpl. rewrite Htable, Hfs.
           split; [reflexivity |]. split; [intros _; exact Hrefused |].
           split; [reflexivity |]. split; [symmetry; now apply delete_id |].
           split; assumption.
    + eexists _, _. split; [reflexivity |]. split; [reflexivity | now left].
  - eexists _, _. split; [reflexivity |]. split; [reflexivity | now left].
Qed.

(** X13. [delete_file] ends in one of three ways. It returns, and then it
    has removed every row of that id and no other, and the file the row
    pointed to and no other. Or it raises before the DELETE, and table and
    disk are untouched. Or it raises after the DELETE: the path of the row
    is not a file of the content store and [os.remove] refused it (only
    [FileNotFoundError] is absorbed at lines 306-307), so the rows of that
    id are gone although the caller is told the deletion failed. Every
    raise has status 500 and the one message ["Failed to delete file"]. *)
Theorem delete_file_outcomes (env : Env) (file_id : Z) (w : World) :
  (exists message w' row,
      delete_file env file_id w = (Return message, w')
      /\ select_by_id file_id (uploaded_files_table w) = Some row
      /\ (forall r, In r (uploaded_files_table w')
                    <-> In r (uploaded_files_table w) /\ row_id r <> file_id)
      /\ content_store w' !! row_file_path row = None
      /\ (forall p, p <> row_file_path row ->
                    content_store w' !! p = content_store w !! p))
  \/ (exists w',
      delete_file env file_id w
      = (Raise (HTTPException 500 "Failed to delete file"), w')
      /\ same_data w w')
  \/ (exists w' row msg,
      delete_file env file_id w
      = (Raise (HTTPException 500 "Failed to delete file"), w')
      /\ select_by_id file_id (uploaded_files_table w) = Some row
      /\ content_store w !! row_file_path row = None
      /\ remove_refused env (row_file_path row) = Some msg
      /\ (forall r, In r (uploaded_files_table w')
                    <-> In r (uploaded_files_table w) /\ row_id r <> file_id)
      /\ content_store w' = content_store w).
Proof.
  destruct (delete_file_cases env file_id w) as (r & w' & Hrun & Hcase).
  destruct r as [message | e].
  - left. destruct Hcase as (_ & row & Hrow & _ & Htable & Hfs & _).
    exists message, w', row. split; [exact Hrun |]. split; [exact Hrow |].
    split; [intros r; rewrite Htable; apply delete_by_id_In |].
    rewrite Hfs. split; [apply lookup_delete_eq |].
    intros p Hp. apply lookup_delete_ne. congruence.
  - right. destruct Hcase as [-> [Hsame | (row & msg & Hrow & Habs & Href & Htable & Hfs & _)]].
    + left. exists w'. now split.
    + right. exists w', row, msg. split; [exact Hrun |].
      repeat (split; [assumption |]).
      split; [intros r; rewrite Htable; apply delete_by_id_In | exact Hfs].
Qed.

Lemma delete_file_returns (env : Env) (file_id : Z) (w w1 : World)
  (conn : connection) (row : Row) :
  get_db_connection env default_max_retries w = (Return (Some conn), w1) ->
  select_by_id file_id (uploaded_files_table w) = Some row ->
  is_Some (content_store w !! row_file_path row)
  \/ remove_refused env (row_file_path row) = None ->
  exists w',
    delete_file env file_id w = (Return "File deleted successfully", w')
    /\ uploaded_files_table w' = delete_by_id file_id (uploaded_files_table w)
    /\ content_store w' = delete (row_file_path row) (content_store w).
Proof.
  intros Hconn Hrow Hremovable.
  destruct (delete_file_cases env file_id w) as (r & w' & Hrun & Hcase).
  destruct r as [message | e].
  - destruct Hcase as (-> & row' & Hrow' & _ & Htable & Hfs & _).
    rewrite Hrow in Hrow'. injection Hrow' as <-. eauto.
  - exfalso. destruct Hcase as [-> [Hsame | (row' & msg & Hrow' & Habs & Href & _)]].
    + revert Hrun. unfold delete_file, catch, bind. rewrite Hconn. simpl.
      destruct (get_db_connection_total env default_max_retries w)
        as (c & w2 & Hrun2 & (Hfs & Htable & _)).
      rewrite Hconn in Hrun2. injection Hrun2 as _ <-.
      unfold gets. rewrite Htable, Hrow. simpl.
      unfold pass_FileNotFoundError, remove_if_exists, path_exists, catch. simpl.
      rewrite Hfs.
      destruct Hremovable as [[content Hin] | Hnot].
      * rewrite Hin. discriminate.
      * rewrite Hnot. destruct (content_store w !! row_file_path row); discriminate.
    + rewrite Hrow in Hrow'. injection Hrow' as <-.
      destruct Hremovable as [[content Hin] | Hnot]; congruence.
Qed.



(** X22. A row whose path is not a file of the content store but
    something [os.remove] refuses (a directory): [delete_file] deletes the
    rows of the id, then raises, with status 500; the disk is unchanged and
    the rows stay deleted. *)
Theorem delete_file_remove_refused (env : Env) (file_id : Z) (w w1 : World)
  (conn : connection) (row : Row) (msg : string) :
  get_db_connection env default_max_retries w = (Return (Some conn), w1) ->
  select_by_id file_id (uploaded_files_table w) = Some row ->
  content_store w !! row_file_path row = None ->
  remove_refused env (row_file_path row) = Some msg ->
  exists w',
    delete_file env file_id w
    = (Raise (HTTPException 500 "Failed to delete file"), w')
    /\ uploaded_files_table w' = delete_by_id file_id (uploaded_files_table w)
    /\ content_store w' = content_store w.
Proof.
  intros Hconn Hrow Habs Hrefused.
  destruct (get_db_connection_total env default_max_retries w)
    as (c & w2 & Hrun2 & (Hfs & Htable & _)).
  rewrite Hconn in Hrun2. injection Hrun2 as <- <-.
  unfold delete_file, catch, bind. rewrite Hconn. simpl.
  unfold gets. rewrite Htable, Hrow. simpl.
  unfold pass_FileNotFoundError, remove_if_exists, path_exists, catch. simpl.
  rewrite Hfs, Habs, Hrefused. simpl.
  eexists. split; [reflexivity |]. simpl. now rewrite Htable.
Qed.

Lemma delete_file_remove_refused_witness :
  exists w',
    delete_file env_directory 1 world_directory_row
    = (Raise (HTTPException 500 "Failed to delete file"), w')
    /\ uploaded_files_table w'
       = delete_by_id 1 (uploaded_files_table world_directory_row)
    /\ content_store w' = content_store world_directory_row.
Proof.
  apply (delete_file_remove_refused env_directory 1 world_directory_row
           (record_connect 0 world_directory_row) (Connection 0)
           directory_row "[Errno 21] Is a directory: '/app/uploads'");
    reflexivity.
Defined.

(** X15. Deleting twice: after a delete that returned, a second delete of
    the same id raises, with status 500 (the row is gone, and the 404 that
    says so is replaced by the handler), and changes nothing. *)
Theorem delete_file_twice (env : Env) (file_id : Z) (w w1 : World) (message : string) :
  delete_file env file_id w = (Return message, w1) ->
  exists w2,
    delete_file env file_id w1
    = (Raise (HTTPException 500 "Failed to delete file"), w2)
    /\ same_data w1 w2.
Proof.
  intros Hfirst.
  destruct (delete_file_cases env file_id w) as (r & w' & Hrun & Hcase).
  rewrite Hfirst in Hrun. injection Hrun as <- <-.
  destruct Hcase as (_ & row & _ & _ & Htable & _).
  destruct (delete_file_cases env file_id w1) as (r2 & w2 & Hrun2 & Hcase2).
  destruct r2 as [message2 | e].
  - destruct Hcase2 as (_ & row2 & Hrow2 & _).
    rewrite Htable, select_by_id_deleted in Hrow2. discriminate.
  - destruct Hcase2 as [-> [Hsame | (row2 & msg & Hrow2 & _)]].
    + exists w2. now split.
    + rewrite Htable, select_by_id_deleted in Hrow2. discriminate.
Qed.

Lemma delete_file_twice_witness :
  exists w2,
    delete_file Reference.env 3 (snd (delete_file Reference.env 3 world_three_uploads))
    = (Raise (HTTPException 500 "Failed to delete file"), w2)
    /\ same_data (snd (delete_file Reference.env 3 world_three_uploads)) w2.
Proof.
  apply (delete_file_twice Reference.env 3 world_three_uploads
           (snd (delete_file Reference.env 3 world_three_uploads))
           "File deleted successfully").
  reflexivity.
Defined.

(** ** The handlers that read *)

Lemma get_files_same_data env libs session_id w :
  same_data w (snd (get_files env libs session_id w)).
Proof.
  unfold get_files, catch, bind.
  destruct (get_db_connection_total env default_max_retries w)
    as (c & w' & Hrun & Hsame).
  rewrite Hrun. destruct c; simpl; exact Hsame.
Qed.

Lemma get_file_content_same_data env file_id w :
  same_data w (snd (get_file_content env file_id w)).
Proof.
  unfold get_file_content, catch, bind.
  destruct (get_db_connection_total env default_max_retries w)
    as (c & w' & Hrun & Hsame).
  rewrite Hrun. destruct c; simpl; [| exact Hsame].
  destruct (select_by_id file_id (uploaded_files_table w')); simpl; exact Hsame.
Qed.

(** X16. [get_files] and [get_file_content] only read: whether they return
    or raise, the table, the disk and the counters of keys and names are
    what they were, and when they raise the status is 500. *)
Theorem read_handlers_change_nothing (env : Env) (libs : Libs)
  (session_id : string) (file_id : Z) (w : World) :
  same_data w (snd (get_files env libs session_id w))
  /\ same_data w (snd (get_file_content env file_id w))
  /\ (forall e, fst (get_files env libs session_id w) = Raise e ->
                e = HTTPException 500 "Failed to retrieve files")
  /\ (forall e, fst (get_file_content env file_id w) = Raise e ->
                e = HTTPException 500 "Failed to retrieve file content").
Proof.
  split; [apply get_files_same_data |]. split; [apply get_file_content_same_data |].
  split; intros e.
  - unfold get_files, catch, bind.
    destruct (get_db_connection_total env default_max_retries w)
      as (c & w' & Hrun & _).
    rewrite Hrun. destruct c; simpl; [discriminate |]. now intros [= <-].
  - unfold get_file_content, catch, bind.
    destruct (get_db_connection_total env default_max_retries w)
      as (c & w' & Hrun & _).
    rewrite Hrun. destruct c; simpl; [| now intros [= <-]].
    destruct (select_by_id file_id (uploaded_files_table w')); simpl;
      [discriminate | now intros [= <-]].
Qed.

(** ** Upload, then read or delete *)

Lemma select_by_id_fresh file_id table row :
  (forall r, In r table -> row_id r <> file_id) ->
  row_id row = file_id ->
  select_by_id file_id (table ++ [row]) = Some row.
Proof.
  unfold select_by_id. intros Hfresh Hid.
  induction table as [|r rest IH]; simpl.
  - now rewrite Hid, Z.eqb_refl.
  - destruct (Z.eqb_spec (row_id r) file_id) as [Heq | _].
    + exfalso. apply (Hfresh r); [now left | exact Heq].
    + apply IH. intros r' Hr'. apply Hfresh. now right.
Qed.

Lemma delete_by_id_fresh file_id table row :
  (forall r, In r table -> row_id r <> file_id) ->
  row_id row = file_id ->
  delete_by_id file_id (table ++ [row]) = table.
Proof.
  unfold delete_by_id. intros Hfresh Hid.
  induction table as [|r rest IH]; simpl.
  - now rewrite Hid, Z.eqb_refl.
  - destruct (Z.eqb_spec (row_id r) file_id) as [Heq | _]; simpl.
    + exfalso. apply (Hfresh r); [now left | exact Heq].
    + f_equal. apply IH. intros r' Hr'. apply Hfresh. now right.
Qed.

(** One accepted file, as a batch. *)
Lemma upload_files_single env libs session_id file w text :
  passes_validation file = true ->
  always_accepts env ->
  text_of_upload libs env file w = Return text ->
  upload_files env libs [file] session_id w
  = (Return {| ur_message := "Successfully uploaded 1 files";
               ur_files := [summary_of env file text w] |},
     world_after_upload env session_id file text w).
Proof.
  intros Hvalid [Hopen Haccept] Htext. unfold upload_files. simpl upload_loop.
  rewrite (upload_one_success env libs session_id file w text Hvalid (Hopen _)
             Haccept Htext).
  reflexivity.
Qed.

(** X17. Upload, then read. After a text file ([.txt]) has been uploaded
    to a server that always accepts, [get_file_content] with the id of its
    summary returns the name the file was uploaded under (not the stored
    name) and the decoded bytes of the file as its content, or the fallback
    ["No text content available"] when the file decodes to the empty
    string. *)
Theorem upload_then_get_file_content (env : Env) (libs : Libs)
  (file : UploadFile) (session_id : string) (w : World) :
  file_ext_of file = ".txt" ->
  Py.len (uf_content file) <= MAX_FILE_SIZE ->
  always_accepts env ->
  next_key_fresh w ->
  exists summary w1,
    upload_files env libs [file] session_id w
    = (Return {| ur_message := "Successfully uploaded 1 files";
                 ur_files := [summary] |}, w1)
    /\ fst (get_file_content env (fi_id summary) w1)
       = Return {| cr_file_id := fi_id summary;
                   cr_filename := uf_filename file;
                   cr_content := or_default (Some (read_text libs (uf_content file)))
                                   "No text content available" |}.
Proof.
  intros Hext Hsize Henv Hfresh.
  assert (Hvalid : passes_validation file = true).
  { unfold passes_validation. rewrite Hext.
    replace (Py.len (uf_content file) >? MAX_FILE_SIZE) with false; [reflexivity |].
    symmetry. rewrite Z.gtb_ltb. now apply Z.ltb_ge. }
  assert (Htext : text_of_upload libs env file w
                  = Return (read_text libs (uf_content file))).
  { unfold text_of_upload. apply extract_text_plain; [now left |].
    apply lookup_insert_eq. }
  exists (summary_of env file (read_text libs (uf_content file)) w),
    (world_after_upload env session_id file (read_text libs (uf_content file)) w).
  split; [now apply upload_files_single |].
  destruct Henv as [Hopen _].
  unfold get_file_content, catch, bind.
  rewrite get_db_connection_first_attempt; [| reflexivity | apply Hopen].
  unfold gets. cbn [uploaded_files_table record_connect world_after_upload summary_of fi_id].
  rewrite (select_by_id_fresh (auto_increment w) (uploaded_files_table w)
             (inserted_row env session_id file (read_text libs (uf_content file)) w)
             Hfresh eq_refl).
  reflexivity.
Qed.

Lemma upload_then_get_file_content_witness :
  exists summary w1,
    upload_files Reference.env Reference.libs [Reference.file "a.txt" "hello"] "s1"
      Reference.world0
    = (Return {| ur_message := "Successfully uploaded 1 files";
                 ur_files := [summary] |}, w1)
    /\ fst (get_file_content Reference.env (fi_id summary) w1)
       = Return {| cr_file_id := fi_id summary;
                   cr_filename := uf_filename (Reference.file "a.txt" "hello");
                   cr_content :=
                     or_default
                       (Some (read_text Reference.libs
                                (uf_content (Reference.file "a.txt" "hello"))))
                       "No text content available" |}.
Proof.
  apply (upload_then_get_file_content Reference.env Reference.libs
           (Reference.file "a.txt" "hello") "s1" Reference.world0).
  - reflexivity.
  - vm_compute. discriminate.
  - exact reference_env_always_accepts.
  - intros r Hr. destruct Hr.
Defined.

(** X18. Upload, then delete. After a file has been uploaded to a server
    that always accepts, under a path that was free, deleting it by the id
    of its summary returns and brings the table and the disk back to what
    they were before the upload; the key of the deleted row is not given
    again. *)
Theorem upload_then_delete_restores (env : Env) (libs : Libs)
  (file : UploadFile) (session_id : string) (w : World) :
  passes_validation file = true ->
  always_accepts env ->
  next_key_fresh w ->
  content_store w !! stored_path env (uuid_calls w) file = None ->
  exists summary w1 w2,
    upload_files env libs [file] session_id w
    = (Return {| ur_message := "Successfully uploaded 1 files";
                 ur_files := [summary] |}, w1)
    /\ delete_file env (fi_id summary) w1 = (Return "File deleted successfully", w2)
    /\ uploaded_files_table w2 = uploaded_files_table w
    /\ content_store w2 = content_store w
    /\ auto_increment w2 = auto_increment w + 1.
Proof.
  intros Hvalid Henv Hfresh Hfree.
  destruct (extract_text_returns libs
              (<[stored_path env (uuid_calls w) file := uf_content file]>
                 (content_store w))
              (stored_path env (uuid_calls w) file) (file_ext_of file))
    as [text Htext].
  set (w1 := world_after_upload env session_id file text w).
  assert (Hrow : select_by_id (auto_increment w) (uploaded_files_table w1)
                 = Some (inserted_row env session_id file text w)).
  { apply select_by_id_fresh; [exact Hfresh | reflexivity]. }
  destruct Henv as [Hopen Haccept].
  destruct (delete_file_returns env (auto_increment w) w1 (record_connect 0 w1)
              (Connection (connect_calls w1))
              (inserted_row env session_id file text w))
    as (w2 & Hdelete & Htable & Hfs).
  { apply get_db_connection_first_attempt; [reflexivity | apply Hopen]. }
  { exact Hrow. }
  { left. simpl. rewrite lookup_insert_eq. eauto. }
  exists (summary_of env file text w), w1, w2.
  split; [apply upload_files_single; [exact Hvalid | now split | exact Htext] |].
  split; [exact Hdelete |].
  split; [rewrite Htable; apply delete_by_id_fresh; [exact Hfresh | reflexivity] |].
  split.
  - rewrite Hfs. simpl. now apply delete_insert_id.
  - destruct (delete_file_cases env (auto_increment w) w1) as (r & w' & Hrun & Hcase).
    rewrite Hdelete in Hrun. injection Hrun as <- <-.
    destruct Hcase as (_ & row & _ & _ & _ & _ & Hauto & _). rewrite Hauto. reflexivity.
Qed.

Lemma upload_then_delete_restores_witness :
  exists summary w1 w2,
    upload_files Reference.env Reference.libs [Reference.file "a.txt" "hello"] "s1"
      Reference.world0
    = (Return {| ur_message := "Successfully uploaded 1 files";
                 ur_files := [summary] |}, w1)
    /\ delete_file Reference.env (fi_id summary) w1
       = (Return "File deleted successfully", w2)
    /\ uploaded_files_table w2 = uploaded_files_table Reference.world0
    /\ content_store w2 = content_store Reference.world0
    /\ auto_increment w2 = auto_increment Reference.world0 + 1.
Proof.
  apply (upload_then_delete_restores Reference.env Reference.libs
           (Reference.file "a.txt" "hello") "s1" Reference.world0).
  - vm_compute. reflexivity.
  - exact reference_env_always_accepts.
  - intros r Hr. destruct Hr.
  - reflexivity.
Defined.

(** ** What the rows of the table look like *)

Lemma passes_validation_allowed file :
  passes_validation file = true -> allowed_extension (file_ext_of file) = true.
Proof. unfold passes_validation. intros H. now apply andb_true_iff in H as [_ H]. Qed.

(** One round of the loop appends nothing, or one well-formed row. *)
Lemma upload_one_row env libs session_id file w :
  uploaded_files_table (snd (upload_one env libs session_id file w))
  = uploaded_files_table w
  \/ exists row,
       uploaded_files_table (snd (upload_one env libs session_id file w))
       = (uploaded_files_table w ++ [row])%list
       /\ row_well_formed row.
Proof.
  destruct (passes_validation file) eqn:Hvalid.
  - destruct (upload_one_accepted env libs session_id file w Hvalid) as [text Hone].
    rewrite Hone.
    match goal with
    | |- context [store_file_info ?e ?s ?fn ?on ?ft ?sz ?fp ?tx ?w0] =>
        destruct (store_file_info_cases e s fn on ft sz fp tx w0)
          as (r1 & w1 & Hstore & _ & _ & Hcase)
    end.
    rewrite Hstore. simpl. destruct r1 as [file_info | e].
    + right. destruct Hcase as (row & Htable & _ & Hfn & _ & Htype & _ & Hpath & Htext & _).
      exists row. split; [exact Htable |].
      unfold row_well_formed. rewrite Htype, Hfn, Hpath, Htext.
      split; [now apply passes_validation_allowed |].
      split; [eexists; reflexivity |]. split; [reflexivity | eexists; reflexivity].
    + left. now destruct Hcase.
  - left. destruct (upload_one_rejected env libs session_id file w Hvalid) as [d Hone].
    now rewrite Hone.
Qed.

Lemma upload_loop_rows_well_formed env libs session_id files :
  forall uploaded_files w,
  Forall row_well_formed (uploaded_files_table w) ->
  Forall row_well_formed
    (uploaded_files_table (snd (upload_loop env libs session_id files uploaded_files w))).
Proof.
  induction files as [|file rest IH]; intros acc w Hinv; simpl; [exact Hinv |].
  pose proof (upload_one_row env libs session_id file w) as Hrow.
  destruct (upload_one env libs session_id file w) as [[file_info | e] w1]; simpl in *.
  - apply IH. destruct Hrow as [-> | (row & -> & Hwf)]; [exact Hinv |].
    apply Forall_app. split; [exact Hinv | now constructor].
  - destruct Hrow as [-> | (row & -> & Hwf)]; [exact Hinv |].
    apply Forall_app. split; [exact Hinv | now constructor].
Qed.

Lemma handle_preserves_well_formed env libs w req :
  Forall row_well_formed (uploaded_files_table w) ->
  Forall row_well_formed (uploaded_files_table (handle env libs w req)).
Proof.
  intros Hinv. destruct req as [files sid | sid | file_id | file_id]; simpl.
  - unfold upload_files.
    pose proof (upload_loop_rows_well_formed env libs sid files [] w Hinv) as Hloop.
    destruct (upload_loop env libs sid files [] w) as [[[u | e] acc] w1]; simpl in *;
      [exact Hloop |].
    now rewrite cleanup_uploaded_table.
  - now rewrite get_files_table.
  - now rewrite get_file_content_table.
  - destruct (delete_file_table env file_id w) as [-> | ->]; [exact Hinv |].
    unfold delete_by_id. apply List.Forall_forall. intros r Hr.
    apply filter_In in Hr as [Hr _].
    revert r Hr. now apply List.Forall_forall.
Qed.

(** X19. Starting from an empty table, after any sequence of requests
    every row has a supported extension as [file_type], a stored name that
    ends with that extension, a path that is the stored name inside the
    upload directory, and a text (the column is never NULL: a file without
    text has a placeholder). *)
Theorem rows_well_formed (env : Env) (libs : Libs) (reqs : list request)
  (w : World) :
  uploaded_files_table w = [] ->
  Forall row_well_formed (uploaded_files_table (serve env libs reqs w)).
Proof.
  intros Hempty.
  assert (Hinv : Forall row_well_formed (uploaded_files_table w))
    by (rewrite Hempty; constructor).
  clear Hempty. revert w Hinv. unfold serve.
  induction reqs as [|req rest IH]; intros w Hinv; simpl; [exact Hinv |].
  apply IH. now apply handle_preserves_well_formed.
Qed.

Lemma rows_well_formed_witness :
  Forall row_well_formed
    (uploaded_files_table
       (serve Reference.env Reference.libs
          [PostUpload batch_txt_exe "s1"; PostUpload batch_txt_txt "s2";
           DeleteFile 2; GetFiles "s1"]
          Reference.world0)).
Proof.
  apply (rows_well_formed Reference.env Reference.libs
           [PostUpload batch_txt_exe "s1"; PostUpload batch_txt_txt "s2";
            DeleteFile 2; GetFiles "s1"]
           Reference.world0).
  reflexivity.
Defined.

(** ** File names without an extension *)

Lemma split_slash_no_dot s :
  no_dot s = true -> Forall (fun p => no_dot p = true) (Py.split_slash s).
Proof.
  induction s as [|c s IH]; simpl; intros H.
  - repeat constructor.
  - apply andb_true_iff in H as [Hc Hs]. specialize (IH Hs).
    destruct (Ascii.eqb c "/").
    + constructor; [reflexivity | exact IH].
    + destruct (Py.split_slash s) as [|p ps]; [repeat constructor; simpl; now rewrite Hc |].
      inversion IH; subst. constructor; [simpl; now rewrite Hc | assumption].
Qed.

Lemma last_Forall {A} (P : A -> Prop) l d :
  P d -> Forall P l -> P (List.last l d).
Proof.
  intros Hd. induction 1 as [|x [|y rest] Hx Hrest IH]; simpl; auto.
Qed.

Lemma rfind_dot_no_dot s : no_dot s = true -> Py.rfind_dot s = None.
Proof.
  induction s as [|c s IH]; simpl; [reflexivity |]. intros H.
  apply andb_true_iff in H as [Hc Hs]. apply negb_true_iff in Hc.
  now rewrite (IH Hs), Hc.
Qed.

Lemma path_suffix_no_dot name : no_dot name = true -> Py.path_suffix name = EmptyString.
Proof.
  intros Hname. unfold Py.path_suffix.
  assert (Hlast : no_dot (Py.path_name name) = true).
  { unfold Py.path_name. apply last_Forall; [reflexivity |].
    apply List.Forall_forall. intros p Hp. apply filter_In in Hp as [Hp _].
    revert p Hp. apply List.Forall_forall. now apply split_slash_no_dot. }
  now rewrite (rfind_dot_no_dot _ Hlast).
Qed.

(** X20. A file whose name has no dot has no extension: it fails the
    check of the extension whatever its content, and a batch that starts
    with it is refused with no effect. *)
Theorem upload_files_name_without_dot (env : Env) (libs : Libs)
  (file : UploadFile) (rest : list UploadFile) (session_id : string) (w : World) :
  no_dot (uf_filename file) = true ->
  passes_validation file = false
  /\ exists detail,
       upload_files env libs (file :: rest) session_id w
       = (Raise (HTTPException 500 detail), w).
Proof.
  intros Hname.
  assert (Hinvalid : passes_validation file = false).
  { unfold passes_validation, file_ext_of. rewrite (path_suffix_no_dot _ Hname).
    simpl. apply andb_false_r. }
  split; [exact Hinvalid |].
  unfold upload_files. simpl.
  destruct (upload_one_rejected env libs session_id file w Hinvalid) as [detail Hone].
  rewrite Hone. simpl. eexists. reflexivity.
Qed.

Lemma upload_files_name_without_dot_witness :
  passes_validation (Reference.file "README" "hello") = false
  /\ exists detail,
       upload_files Reference.env Reference.libs
         [Reference.file "README" "hello"] "s1" Reference.world0
       = (Raise (HTTPException 500 detail), Reference.world0).
Proof.
  apply (upload_files_name_without_dot Reference.env Reference.libs
           (Reference.file "README" "hello") [] "s1" Reference.world0).
  reflexivity.
Defined.

(** ** The handlers when the server cannot be reached *)

(** X21. When every connection attempt raises, [get_files],
    [get_file_content] and [delete_file] each make the five attempts of the
    default, sleep 1, 2, 4 and 8 seconds between them (15 seconds in all),
    and then answer with status 500 and their own generic message. *)
Theorem handlers_unreachable (env : Env) (libs : Libs) (session_id : string)
  (file_id : Z) (w : World) :
  (forall n, (connect_calls w <= n)%nat -> exists msg, mysql_connect env n = ConnectError msg) ->
  (fst (get_files env libs session_id w)
   = Raise (HTTPException 500 "Failed to retrieve files")
   /\ trace (snd (get_files env libs session_id w))
      = (trace w ++ backoff_trace 5 0 5)%list)
  /\ (fst (get_file_content env file_id w)
      = Raise (HTTPException 500 "Failed to retrieve file content")
      /\ trace (snd (get_file_content env file_id w))
         = (trace w ++ backoff_trace 5 0 5)%list)
  /\ (fst (delete_file env file_id w)
      = Raise (HTTPException 500 "Failed to delete file")
      /\ trace (snd (delete_file env file_id w))
         = (trace w ++ backoff_trace 5 0 5)%list)
  /\ backoff_trace 5 0 5
     = [EvConnect 0; EvSleep 1; EvConnect 1; EvSleep 2; EvConnect 2; EvSleep 4;
        EvConnect 3; EvSleep 8; EvConnect 4]
  /\ total_sleep (backoff_trace 5 0 5) = 15.
Proof.
  intros Herr.
  destruct (get_db_connection_loop_all_errors env default_max_retries 5 0 w Herr)
    as (w' & Hrun & Htrace & _).
  assert (Hconn : get_db_connection env default_max_retries w = (Return None, w'))
    by exact Hrun.
  split; [| split; [| split; [| split]]].
  - unfold get_files, catch, bind. rewrite Hconn. simpl. split; [reflexivity | exact Htrace].
  - unfold get_file_content, catch, bind. rewrite Hconn. simpl.
    split; [reflexivity | exact Htrace].
  - unfold delete_file, catch, bind. rewrite Hconn. simpl.
    split; [reflexivity | exact Htrace].
  - reflexivity.
  - reflexivity.
Qed.

Lemma handlers_unreachable_witness :
  (fst (get_files Reference.env_down Reference.libs "s1" Reference.world0)
   = Raise (HTTPException 500 "Failed to retrieve files")
   /\ trace (snd (get_files Reference.env_down Reference.libs "s1" Reference.world0))
      = (trace Reference.world0 ++ backoff_trace 5 0 5)%list)
  /\ (fst (get_file_content Reference.env_down 1 Reference.world0)
      = Raise (HTTPException 500 "Failed to retrieve file content")
      /\ trace (snd (get_file_content Reference.env_down 1 Reference.world0))
         = (trace Reference.world0 ++ backoff_trace 5 0 5)%list)
  /\ (fst (delete_file Reference.env_down 1 Reference.world0)
      = Raise (HTTPException 500 "Failed to delete file")
      /\ trace (snd (delete_file Reference.env_down 1 Reference.world0))
         = (trace Reference.world0 ++ backoff_trace 5 0 5)%list)
  /\ backoff_trace 5 0 5
     = [EvConnect 0; EvSleep 1; EvConnect 1; EvSleep 2; EvConnect 2; EvSleep 4;
        EvConnect 3; EvSleep 8; EvConnect 4]
  /\ total_sleep (backoff_trace 5 0 5) = 15.
Proof.
  apply (handlers_unreachable Reference.env_down Reference.libs "s1" 1 Reference.world0).
  intros n _. eexists. reflexivity.
Defined.
